(** * library-backend: the catalogue, copy and circulation controllers

    A shallow embedding of [controllers/bookController.js],
    [controllers/circulationController.js] and
    [controllers/auditController.js].

    - A MongoDB collection is the list of its documents in insertion order;
      [findOne] takes the first document that satisfies the filter.
    - Every request handler is a function of the database state that returns
      the new state together with what it sent.  Handlers are written in a
      small monad with three outcomes: the evaluation continues, a response
      was sent and the handler returned, or an exception is propagating.
    - Every awaited database call can reject.  The environment says, per call
      site (file and source line of the [await]), whether the call rejects; a
      site inside a loop rejects at its first turn or never.
    - The Mongoose schemas (models/) are not among the sources.  What the
      controllers need of them is named where it is used: the defaults of
      the configuration are a parameter, the status enum of a copy is taken
      from the glossary of the specification, and unique indexes are left
      out (a duplicate-key rejection is one of the rejections above).
    - JavaScript numbers are unbounded integers here (exact below 2^53),
      dates are milliseconds since the epoch, all [new Date()] of one request
      read the same instant, and the server's time zone is a fixed offset
      from UTC.  Strings are byte strings; [toUpperCase] acts on the ASCII
      letters.  The calls on the file system in the CSV upload are left out.
    - Of the handlers of the two controllers, getBooks, getHistory,
      getStudentIssues, getDashboardStats and editFine are not embedded:
      they sort or select by fields that no controller writes ([createdAt],
      [updatedAt], [issueDate], [role]) or write one ([fineReason]) that the
      documents here do not carry. *)

From Stdlib Require Import ZArith NArith List String Ascii Bool Lia.
From Stdlib Require Import DecimalString Sorting.Sorted Sorting.Permutation.
Import ListNotations.
Open Scope string_scope.
Open Scope Z_scope.

(** ** Documents *)

Definition ObjectId := N.
Bind Scope N_scope with ObjectId.

Module SystemConfig.
Record t := mk { maxBooksPerStudent : Z; finePerDay : Z; issueDaysLimit : Z }.
End SystemConfig.

Module User.
Record t := mk { _id : ObjectId; name : string; email : string;
                 registerNumber : string; isActive : bool }.
End User.

Module Department.
Record t := mk { code : string }.
End Department.

Module Book.
Record t := mk { _id : ObjectId; title : string; author : option string;
                 isbn : string; department : string;
                 totalCopies : Z; availableCopies : Z }.
Definition set_counts (b : t) (total avail : Z) : t :=
  mk (_id b) (title b) (author b) (isbn b) (department b) total avail.
Definition inc_availableCopies (d : Z) (b : t) : t :=
  set_counts b (totalCopies b) (availableCopies b + d).
End Book.

Module BookCopy.
Record t := mk { _id : ObjectId; book : ObjectId;
                 copyNumber : string; status : string }.
Definition set_status (s : string) (c : t) : t :=
  mk (_id c) (book c) (copyNumber c) s.
End BookCopy.

Module Transaction.
(** [returnDate] and [fine] are not given by the controller when the
    document is created; [None] stands for "left to the schema". *)
Record t := mk { _id : ObjectId; student : ObjectId; book : ObjectId;
                 copyId : string; dueDate : Z; status : string;
                 isFinePaid : bool; returnDate : option Z; fine : option Z }.
End Transaction.

Module AuditLog.
Record t := mk { _id : ObjectId; actor : ObjectId; actorName : string;
                 action : string; details : string; ip : string;
                 createdAt : Z }.
End AuditLog.

(** ** The database *)

Record DB := mkDB {
  systemconfigs : list SystemConfig.t;
  users : list User.t;
  departments : list Department.t;
  books : list Book.t;
  bookcopies : list BookCopy.t;
  transactions : list Transaction.t;
  auditlogs : list AuditLog.t;
  nextId : ObjectId  (* the next fresh ObjectId *)
}.

Definition set_systemconfigs (l : list SystemConfig.t) (db : DB) : DB :=
  mkDB l (users db) (departments db) (books db) (bookcopies db)
       (transactions db) (auditlogs db) (nextId db).
Definition set_books (l : list Book.t) (db : DB) : DB :=
  mkDB (systemconfigs db) (users db) (departments db) l (bookcopies db)
       (transactions db) (auditlogs db) (nextId db).
Definition set_bookcopies (l : list BookCopy.t) (db : DB) : DB :=
  mkDB (systemconfigs db) (users db) (departments db) (books db) l
       (transactions db) (auditlogs db) (nextId db).
Definition set_transactions (l : list Transaction.t) (db : DB) : DB :=
  mkDB (systemconfigs db) (users db) (departments db) (books db)
       (bookcopies db) l (auditlogs db) (nextId db).
Definition set_auditlogs (l : list AuditLog.t) (db : DB) : DB :=
  mkDB (systemconfigs db) (users db) (departments db) (books db)
       (bookcopies db) (transactions db) l (nextId db).
Definition bump_nextId (db : DB) : DB :=
  mkDB (systemconfigs db) (users db) (departments db) (books db)
       (bookcopies db) (transactions db) (auditlogs db) (N.succ (nextId db)).

Definition emptyDB : DB := mkDB [] [] [] [] [] [] [] 0%N.

(** ** Responses, errors and the environment of a request *)

Inductive JVal :=
| VStr (s : string)
| VNum (z : Z)
| VStrs (l : list string)
| VTransaction (t : Transaction.t).

Inductive Body :=
| Obj (fields : list (string * JVal))   (* res.json({ ... }) *)
| BookDoc (b : Book.t)
| CopyDoc (c : BookCopy.t)
| AuditDocs (l : list AuditLog.t).

Record Response := mkResponse { statusCode : Z; body : Body }.

Definition has_field (k : string) (b : Body) : bool :=
  match b with
  | Obj fields => existsb (fun kv => String.eqb (fst kv) k) fields
  | _ => false
  end.

Record Error := mkError { err_code : option Z; message : string }.

Inductive Site :=
| circulation (line : nat)   (* controllers/circulationController.js *)
| bookctl (line : nat)       (* controllers/bookController.js *)
| auditctl (line : nat)      (* controllers/auditController.js *)
| upload (row line : nat).   (* bookController.js, the CSV loop at row [row] *)

(** [SystemConfig_defaults] is what [SystemConfig.create({})] stores: the
    schema (models/SystemConfig.js) is not among the sources, so its defaults
    are a parameter. *)
Record Env := mkEnv {
  now : Z;                          (* new Date() during the request *)
  tzOffset : Z;                     (* local time = UTC + tzOffset, ms *)
  fails : Site -> option Error;     (* Some e: the call at the site rejects *)
  SystemConfig_defaults : SystemConfig.t
}.

(** ** The handler monad *)

Inductive Step (A : Type) : Type :=
| Next (a : A)
| Sent (r : Response)
| Threw (e : Error).
Arguments Next {A} a.
Arguments Sent {A} r.
Arguments Threw {A} e.

(** [S] is what the code mutates: the database, and for the CSV upload also
    the handler's local counters. *)
Definition M (S A : Type) : Type := Env -> S -> S * Step A.
Definition Handler (A : Type) : Type := M DB A.

Definition ret {S A} (a : A) : M S A := fun _ s => (s, Next a).

Definition bind {S A B} (m : M S A) (k : A -> M S B) : M S B :=
  fun env s =>
    match m env s with
    | (s', Next a) => k a env s'
    | (s', Sent r) => (s', Sent r)
    | (s', Threw e) => (s', Threw e)
    end.

Notation "x <- m ;; k" := (bind m (fun x => k))
  (at level 61, m at next level, right associativity).
Notation "m ;;; k" := (bind m (fun _ => k))
  (at level 61, right associativity).

(** [return res.status(c).json(b)] *)
Definition send {S A} (c : Z) (b : Body) : M S A :=
  fun _ s => (s, Sent (mkResponse c b)).

Definition throw {S A} (e : Error) : M S A := fun _ s => (s, Threw e).

Definition try_catch {S A} (m : M S A) (h : Error -> M S A) : M S A :=
  fun env s =>
    match m env s with
    | (s', Threw e) => h e env s'
    | r => r
    end.

Definition clock {S} : M S Z := fun env s => (s, Next (now env)).
Definition asks {S A} (f : Env -> A) : M S A := fun env s => (s, Next (f env)).

(** An awaited database call at a call site. *)
Definition await {A} (site : Site) (op : DB -> DB * A) : Handler A :=
  fun env db =>
    match fails env site with
    | Some e => (db, Threw e)
    | None => (fst (op db), Next (snd (op db)))
    end.

(** An awaited call that can also reject on its own (schema validation). *)
Definition await_checked {A} (site : Site) (op : DB -> DB * (Error + A)) : Handler A :=
  fun env db =>
    match fails env site with
    | Some e => (db, Threw e)
    | None => match snd (op db) with
              | inl e => (fst (op db), Threw e)
              | inr a => (fst (op db), Next a)
              end
    end.

(** Reading a property of [null] throws a TypeError. *)
Definition TypeError (prop : string) : Error :=
  mkError None ("Cannot read properties of null (reading '" ++ prop ++ "')").

Definition deref {S A} (o : option A) (prop : string) : M S A :=
  match o with
  | Some a => ret a
  | None => throw (TypeError prop)
  end.

(** What the client gets: the response, or nothing when the handler's
    promise rejects. *)
Definition run {S} (h : M S unit) (env : Env) (s : S) : S * option Response :=
  match h env s with
  | (s', Sent r) => (s', Some r)
  | (s', _) => (s', None)
  end.

(** ** JavaScript values *)

Definition show_Z (z : Z) : string := NilZero.string_of_int (Z.to_int z).

(** Truthiness of a request field that is a string or absent. *)
Definition truthy (o : option string) : bool :=
  match o with
  | Some s => negb (String.eqb s "")
  | None => false
  end.

(** [if (x) { ... x ... }]: the string in the truthy branch. *)
Definition given (o : option string) : option string :=
  if truthy o then o else None.

Definition msPerDay : Z := 1000 * 60 * 60 * 24.

(** [new Date(d.setHours(0, 0, 0, 0))]: the local midnight before [d]. *)
Definition setHours0 (tz d : Z) : Z := ((d + tz) / msPerDay) * msPerDay - tz.

(** [d.setDate(d.getDate() + n)] *)
Definition addDays (d n : Z) : Z := d + n * msPerDay.

(** [Math.ceil(a / b)] *)
Definition ceil_div (a b : Z) : Z := - ((- a) / b).

Definition upperChar (c : ascii) : ascii :=
  let n := nat_of_ascii c in
  if (Nat.leb 97 n && Nat.leb n 122)%bool then ascii_of_nat (n - 32) else c.

(** [s.toUpperCase()] *)
Fixpoint toUpperCase (s : string) : string :=
  match s with
  | EmptyString => EmptyString
  | String c s' => String (upperChar c) (toUpperCase s')
  end.

(** [a || b] on fields that are strings or absent. *)
Definition orElse (a b : option string) : option string :=
  if truthy a then a else b.

(** How a template literal prints such a field. *)
Definition show_field (o : option string) : string :=
  match o with Some s => s | None => "undefined" end.

(** [list.includes(x)] *)
Definition includes (l : list string) (x : string) : bool :=
  existsb (String.eqb x) l.

Definition isWhiteSpace (c : ascii) : bool :=
  match nat_of_ascii c with
  | 9%nat | 10%nat | 11%nat | 12%nat | 13%nat | 32%nat => true
  | _ => false
  end.

Fixpoint trimStart (s : string) : string :=
  match s with
  | String c s' => if isWhiteSpace c then trimStart s' else s
  | EmptyString => s
  end.

Definition digitOf (radix : Z) (c : ascii) : option Z :=
  let n := Z.of_nat (nat_of_ascii c) in
  let v := if (48 <=? n) && (n <=? 57) then Some (n - 48)
           else if (97 <=? n) && (n <=? 122) then Some (n - 87)
           else if (65 <=? n) && (n <=? 90) then Some (n - 55)
           else None in
  match v with
  | Some d => if d <? radix then Some d else None
  | None => None
  end.

(** The longest prefix of digits; [None] (NaN) when there is no digit. *)
Fixpoint parseDigits (radix : Z) (s : string) (acc : option Z) : option Z :=
  match s with
  | String c s' =>
      match digitOf radix c with
      | Some d =>
          parseDigits radix s'
            (Some (match acc with Some a => a * radix + d | None => d end))
      | None => acc
      end
  | EmptyString => acc
  end.

(** [parseInt(s)]; [None] is NaN. *)
Definition parseInt (s : string) : option Z :=
  let s := trimStart s in
  let '(sign, s) :=
    match s with
    | String "-" s' => (-1, s')
    | String "+" s' => (1, s')
    | _ => (1, s)
    end in
  let magnitude :=
    match s with
    | String "0" (String "x" s') => parseDigits 16 s' None
    | String "0" (String "X" s') => parseDigits 16 s' None
    | _ => parseDigits 10 s None
    end in
  option_map (Z.mul sign) magnitude.

(** ** Queries *)

Section Queries.
Context {A : Type}.

(** [findOneAndUpdate]: the first match is replaced; the updated document
    is what [{ new: true }] returns. *)
Fixpoint updateFirst (p : A -> bool) (f : A -> A) (l : list A)
  : list A * option A :=
  match l with
  | [] => ([], None)
  | x :: l' =>
      if p x then (f x :: l', Some (f x))
      else let (l'', r) := updateFirst p f l' in (x :: l'', r)
  end.

Fixpoint removeFirst (p : A -> bool) (l : list A) : list A :=
  match l with
  | [] => []
  | x :: l' => if p x then l' else x :: removeFirst p l'
  end.

Definition countDocuments (p : A -> bool) (l : list A) : Z :=
  Z.of_nat (List.length (filter p l)).
End Queries.

Definition SystemConfig_findOne (db : DB) : DB * option SystemConfig.t :=
  (db, hd_error (systemconfigs db)).

Definition SystemConfig_create (c : SystemConfig.t) (db : DB) : DB * SystemConfig.t :=
  (set_systemconfigs (systemconfigs db ++ [c]) db, c).

Definition User_findById (id : ObjectId) (db : DB) : DB * option User.t :=
  (db, find (fun u => N.eqb (User._id u) id) (users db)).

Definition Department_findOne (c : string) (db : DB) : DB * option Department.t :=
  (db, find (fun d => String.eqb (Department.code d) c) (departments db)).

Definition Department_find (db : DB) : DB * list Department.t :=
  (db, departments db).

Definition Book_findById (id : ObjectId) (db : DB) : DB * option Book.t :=
  (db, find (fun b => N.eqb (Book._id b) id) (books db)).

Definition Book_findOne_isbn (i : option string) (db : DB) : DB * option Book.t :=
  (db, match i with
       | Some s => find (fun b => String.eqb (Book.isbn b) s) (books db)
       | None => None
       end).

(** [Book.findByIdAndUpdate(id, { $inc: { availableCopies: d } })] *)
Definition Book_findByIdAndUpdate_inc (id : ObjectId) (d : Z) (db : DB) : DB * unit :=
  (set_books (fst (updateFirst (fun b => N.eqb (Book._id b) id)
                               (Book.inc_availableCopies d) (books db))) db, tt).

(** [book.save()] on a document made by [new Book]: it is inserted. *)
Definition Book_insert (b : Book.t) (db : DB) : DB * unit :=
  (set_books (books db ++ [b]) db, tt).

(** [book.save()] on a document that was read from the collection, or saved
    before: the stored document with its [_id] is replaced. *)
Definition Book_save (b : Book.t) (db : DB) : DB * unit :=
  (set_books (fst (updateFirst (fun x => N.eqb (Book._id x) (Book._id b))
                               (fun _ => b) (books db))) db, tt).

Definition BookCopy_findById (id : ObjectId) (db : DB) : DB * option BookCopy.t :=
  (db, find (fun c => N.eqb (BookCopy._id c) id) (bookcopies db)).

Definition BookCopy_findOne (num : string) (db : DB) : DB * option BookCopy.t :=
  (db, find (fun c => String.eqb (BookCopy.copyNumber c) num) (bookcopies db)).

Definition BookCopy_findOneAndUpdate (p : BookCopy.t -> bool) (s : string) (db : DB)
  : DB * option BookCopy.t :=
  let r := updateFirst p (BookCopy.set_status s) (bookcopies db) in
  (set_bookcopies (fst r) db, snd r).

Definition BookCopy_findByIdAndDelete (id : ObjectId) (db : DB) : DB * unit :=
  (set_bookcopies (removeFirst (fun c => N.eqb (BookCopy._id c) id) (bookcopies db)) db, tt).

Definition isIssuedTo (sid : ObjectId) (t : Transaction.t) : bool :=
  N.eqb (Transaction.student t) sid && String.eqb (Transaction.status t) "Issued".

Definition isIssuedCopy (num : string) (t : Transaction.t) : bool :=
  String.eqb (Transaction.copyId t) num && String.eqb (Transaction.status t) "Issued".

Definition Transaction_countDocuments (p : Transaction.t -> bool) (db : DB) : DB * Z :=
  (db, countDocuments p (transactions db)).

(** [Transaction.create({ student, book, copyId, dueDate, status, isFinePaid })] *)
Definition Transaction_create (student book : ObjectId) (copyId : string)
    (dueDate : Z) (status : string) (isFinePaid : bool) (db : DB)
  : DB * Transaction.t :=
  let t := Transaction.mk (nextId db) student book copyId dueDate status
                          isFinePaid None None in
  (bump_nextId (set_transactions (transactions db ++ [t]) db), t).

(** [Transaction.findOne({ copyId, status: 'Issued' }).populate('student', ...)]:
    the transaction and the user its [student] refers to, if there is one. *)
Definition Transaction_findOne_populate (num : string) (db : DB)
  : DB * option (Transaction.t * option User.t) :=
  (db, match find (isIssuedCopy num) (transactions db) with
       | Some t => Some (t, snd (User_findById (Transaction.student t) db))
       | None => None
       end).

Definition Transaction_save (t : Transaction.t) (db : DB) : DB * unit :=
  (set_transactions
     (fst (updateFirst (fun x => N.eqb (Transaction._id x) (Transaction._id t))
                       (fun _ => t) (transactions db))) db, tt).

Definition AuditLog_create (actor : ObjectId) (actorName action details ip : string)
    (createdAt : Z) (db : DB) : DB * unit :=
  let l := AuditLog.mk (nextId db) actor actorName action details ip createdAt in
  (bump_nextId (set_auditlogs (auditlogs db ++ [l]) db), tt).

(** ** controllers/auditController.js *)

(** [logAudit]: errors are logged to the console and swallowed. *)
Definition logAudit (actorId : ObjectId) (action details : string) : Handler unit :=
  try_catch
    (user <- await (auditctl 7) (User_findById actorId) ;;
     t <- clock ;;
     await (auditctl 8)
       (AuditLog_create actorId
          (match user with Some u => User.name u | None => "Unknown" end)
          action details "0.0.0.0" t))
    (fun _ => ret tt).

(** [.sort({ createdAt: -1 })]: newest first.  MongoDB does not say in which
    order documents of the same instant come; here they keep their order. *)
Fixpoint insertNewestFirst (x : AuditLog.t) (l : list AuditLog.t) : list AuditLog.t :=
  match l with
  | [] => [x]
  | y :: l' =>
      if AuditLog.createdAt x <? AuditLog.createdAt y
      then y :: insertNewestFirst x l'
      else x :: l
  end.

Definition sortNewestFirst (l : list AuditLog.t) : list AuditLog.t :=
  fold_right insertNewestFirst [] l.

Definition AuditLog_find_sort_limit (n : nat) (db : DB) : DB * list AuditLog.t :=
  (db, firstn n (sortNewestFirst (auditlogs db))).

Definition msg (m : string) : Body := Obj [("message", VStr m)].

Definition getAuditLogs : Handler unit :=
  try_catch
    (logs <- await (auditctl 25) (AuditLog_find_sort_limit 100) ;;
     send 200 (AuditDocs logs))
    (fun error => send 500 (msg (message error))).

(** ** controllers/circulationController.js *)

Record IssueReq := mkIssueReq {
  studentId : ObjectId;
  isbn : option string;
  copyId : option string;
  user : option ObjectId   (* req.user._id, set by the auth middleware *)
}.

Definition getConfig (site_find site_create : Site) : Handler SystemConfig.t :=
  config <- await site_find SystemConfig_findOne ;;
  match config with
  | Some c => ret c
  | None =>
      d <- asks SystemConfig_defaults ;;
      await site_create (SystemConfig_create d)
  end.

Definition copyIs (num st : string) (c : BookCopy.t) : bool :=
  String.eqb (BookCopy.copyNumber c) num && String.eqb (BookCopy.status c) st.

Definition copyOf (b : ObjectId) (st : string) (c : BookCopy.t) : bool :=
  N.eqb (BookCopy.book c) b && String.eqb (BookCopy.status c) st.

Definition hasNumber (num : string) (c : BookCopy.t) : bool :=
  String.eqb (BookCopy.copyNumber c) num.

(** Lines 15-71, the body of the [try]. *)
Definition issueBook_try (req : IssueReq) : Handler unit :=
    (config <- getConfig (circulation 15) (circulation 16) ;;
     student <- await (circulation 18) (User_findById (studentId req)) ;;
     match student with
     | None => send 404 (msg "Student not found")
     | Some student =>
     if negb (User.isActive student)
     then send 400 (msg "Student account is blocked")
     else
     activeCount <- await (circulation 22)
       (Transaction_countDocuments (isIssuedTo (User._id student))) ;;
     if activeCount >=? SystemConfig.maxBooksPerStudent config
     then send 400 (msg ("Limit reached ("
                         ++ show_Z (SystemConfig.maxBooksPerStudent config)
                         ++ " books max)"))
     else
     targetCopy <-
       (match given (copyId req) with
        | Some copyId =>
          c <- await (circulation 30)
                 (BookCopy_findOneAndUpdate (copyIs copyId "Available") "Issued") ;;
          match c with
          | None => send 400 (msg "Copy is not available (Already Issued or Lost)")
          | Some c => ret c
          end
        | None =>
          book <- await (circulation 37) (Book_findOne_isbn (isbn req)) ;;
          match book with
          | None => send 404 (msg "Book ISBN not found")
          | Some book =>
              c <- await (circulation 41)
                     (BookCopy_findOneAndUpdate
                        (copyOf (Book._id book) "Available") "Issued") ;;
              match c with
              | None => send 400 (msg "No copies currently available")
              | Some c => ret c
              end
          end
        end) ;;
     await (circulation 50)
       (Book_findByIdAndUpdate_inc (BookCopy.book targetCopy) (-1)) ;;;
     today <- clock ;;
     let dueDate := addDays today (SystemConfig.issueDaysLimit config) in
     transaction <- await (circulation 55)
       (Transaction_create (User._id student) (BookCopy.book targetCopy)
          (BookCopy.copyNumber targetCopy) dueDate "Issued" false) ;;
     match user req with
     | Some u => logAudit u "ISSUE_BOOK"
                   ("Issued " ++ BookCopy.copyNumber targetCopy ++ " to "
                    ++ User.registerNumber student)
     | None => ret tt
     end ;;;
     send 201 (Obj [("message", VStr "Book Issued Successfully");
                    ("copy", VStr (BookCopy.copyNumber targetCopy));
                    ("transaction", VTransaction transaction);
                    ("dueDate", VNum dueDate)])
     end).

(** Lines 74-77, the [catch]. *)
Definition issueBook_catch (req : IssueReq) (error : Error) : Handler unit :=
  match given (copyId req) with
  | Some copyId =>
      await (circulation 75)
        (BookCopy_findOneAndUpdate (hasNumber copyId) "Available") ;;;
      ret tt
  | None => ret tt
  end ;;;
  send 500 (msg (message error)).

Definition issueBook (req : IssueReq) : Handler unit :=
  try_catch (issueBook_try req) (issueBook_catch req).

Record ReturnReq := mkReturnReq {
  ret_copyId : string;
  ret_user : option ObjectId
}.

(** The fine of lines 100-111. *)
Definition computeFine (tz today dueDate finePerDay : Z) : Z :=
  let todayMidnight := setHours0 tz today in
  let dueMidnight := setHours0 tz dueDate in
  if todayMidnight >? dueMidnight then
    let diffTime := Z.abs (todayMidnight - dueMidnight) in
    let diffDays := ceil_div diffTime msPerDay in
    diffDays * finePerDay
  else 0.

Definition returnBook (req : ReturnReq) : Handler unit :=
  let copyId := ret_copyId req in
  try_catch
    (config <- getConfig (circulation 87) (circulation 88) ;;
     found <- await (circulation 90) (Transaction_findOne_populate copyId) ;;
     match found with
     | None =>
         checkCopy <- await (circulation 93) (BookCopy_findOne copyId) ;;
         match checkCopy with
         | Some c =>
             if String.eqb (BookCopy.status c) "Available"
             then send 400 (msg "Book is already marked Returned.")
             else send 404 (msg "No active Issue record found for this copy.")
         | None => send 404 (msg "No active Issue record found for this copy.")
         end
     | Some (transaction, student) =>
         today <- clock ;;
         tz <- asks tzOffset ;;
         let fine := computeFine tz today (Transaction.dueDate transaction)
                       (SystemConfig.finePerDay config) in
         let transaction :=
           Transaction.mk (Transaction._id transaction)
             (Transaction.student transaction) (Transaction.book transaction)
             (Transaction.copyId transaction) (Transaction.dueDate transaction)
             "Returned" (fine =? 0) (Some today) (Some fine) in
         await (circulation 117) (Transaction_save transaction) ;;;
         await (circulation 119)
           (BookCopy_findOneAndUpdate (hasNumber copyId) "Available") ;;;
         copy <- await (circulation 121) (BookCopy_findOne copyId) ;;
         copy <- deref copy "book" ;;
         await (circulation 122)
           (Book_findByIdAndUpdate_inc (BookCopy.book copy) 1) ;;;
         match ret_user req with
         | Some u => logAudit u "RETURN_BOOK"
                       ("Returned " ++ copyId ++ ". Fine: ₹" ++ show_Z fine)
         | None => ret tt
         end ;;;
         student <- deref student "name" ;;
         send 200 (Obj [("message", VStr "Book Returned Successfully");
                        ("fine", VNum fine);
                        ("student", VStr (User.name student))])
     end)
    (fun error => send 500 (msg (message error))).

(** ** controllers/bookController.js *)

(** Modelled from the spec: the values the BookCopy schema accepts for
    [status].  models/BookCopy.js is not among the sources; the spec's
    glossary gives the states of a copy as Available/Issued/Lost.  Mongoose
    checks the enum when a document is saved or inserted, not on
    [findOneAndUpdate]. *)
Definition BookCopy_status_enum : list string := ["Available"; "Issued"; "Lost"].

Definition validStatus (s : string) : bool :=
  existsb (String.eqb s) BookCopy_status_enum.

Definition ValidationError (s : string) : Error :=
  mkError None ("BookCopy validation failed: status: `" ++ s
                ++ "` is not a valid enum value for path `status`.").

(** A copy before it is inserted: [{ book, copyNumber, status }]. *)
Record NewCopy := mkNewCopy {
  nc_book : ObjectId; nc_copyNumber : string; nc_status : string
}.

Fixpoint withIds (id : ObjectId) (l : list NewCopy) : list BookCopy.t :=
  match l with
  | [] => []
  | c :: l' => BookCopy.mk id (nc_book c) (nc_copyNumber c) (nc_status c)
               :: withIds (N.succ id) l'
  end.

Definition BookCopy_insertMany (l : list NewCopy) (db : DB) : DB * (Error + unit) :=
  match find (fun c => negb (validStatus (nc_status c))) l with
  | Some c => (db, inl (ValidationError (nc_status c)))
  | None =>
      (mkDB (systemconfigs db) (users db) (departments db) (books db)
            (bookcopies db ++ withIds (nextId db) l)
            (transactions db) (auditlogs db)
            (nextId db + N.of_nat (List.length l))%N,
       inr tt)
  end.

(** [copy.save()] *)
Definition BookCopy_save (c : BookCopy.t) (db : DB) : DB * (Error + unit) :=
  if validStatus (BookCopy.status c) then
    (set_bookcopies
       (fst (updateFirst (fun x => N.eqb (BookCopy._id x) (BookCopy._id c))
                         (fun _ => c) (bookcopies db))) db, inr tt)
  else (db, inl (ValidationError (BookCopy.status c))).

(** [new Book({ ... })]: the document gets its [_id] when it is made. *)
Definition new_Book (title : string) (author : option string) (isbn department : string)
    (total avail : Z) : Handler Book.t :=
  fun _ db => (bump_nextId db,
               Next (Book.mk (nextId db) title author isbn department total avail)).

Record CreateBookReq := mkCreateBookReq {
  cb_title : string; cb_author : option string; cb_isbn : string;
  cb_department : string; cb_quantity : Z
}.

(** [for (let i = from; i < from + n; i++)] collecting [f i]. *)
Definition forRange {A} (from : Z) (n : Z) (f : Z -> A) : list A :=
  map (fun k => f (from + Z.of_nat k)) (seq 0 (Z.to_nat n)).

Definition createBook (req : CreateBookReq) : Handler unit :=
  try_catch
    (validDept <- await (bookctl 13) (Department_findOne (cb_department req)) ;;
     match validDept with
     | None => send 400 (msg ("Invalid Department Code: '" ++ cb_department req ++ "'"))
     | Some _ =>
     existingBook <- await (bookctl 19) (Book_findOne_isbn (Some (cb_isbn req))) ;;
     match existingBook with
     | Some _ => send 400 (msg "Book with this ISBN already exists")
     | None =>
     newBook <- new_Book (cb_title req) (cb_author req) (cb_isbn req)
                  (cb_department req) (cb_quantity req) (cb_quantity req) ;;
     await (bookctl 27) (Book_insert newBook) ;;;
     let copies :=
       forRange 1 (cb_quantity req)
         (fun i => mkNewCopy (Book._id newBook)
                     (cb_isbn req ++ "-" ++ show_Z i) "Available") in
     await_checked (bookctl 38) (BookCopy_insertMany copies) ;;;
     send 201 (BookDoc newBook)
     end
     end)
    (fun error => send 500 (msg (message error))).

Record AddCopiesReq := mkAddCopiesReq { ac_bookId : ObjectId; ac_count : Z }.

Definition addCopies (req : AddCopiesReq) : Handler unit :=
  let count := ac_count req in
  try_catch
    (book <- await (bookctl 233) (Book_findById (ac_bookId req)) ;;
     match book with
     | None => send 404 (msg "Book not found")
     | Some book =>
     let startNum := Book.totalCopies book + 1 in
     let copies :=
       forRange 0 count
         (fun i => mkNewCopy (Book._id book)
                     (Book.isbn book ++ "-" ++ show_Z (startNum + i)) "Available") in
     await_checked (bookctl 247) (BookCopy_insertMany copies) ;;;
     let book := Book.set_counts book (Book.totalCopies book + count)
                                 (Book.availableCopies book + count) in
     await (bookctl 252) (Book_save book) ;;;
     send 200 (msg (show_Z count ++ " Copies Added"))
     end)
    (fun error => send 500 (msg (message error))).

Definition deleteCopy (id : ObjectId) : Handler unit :=
  try_catch
    (copy <- await (bookctl 262) (BookCopy_findById id) ;;
     match copy with
     | None => send 404 (msg "Copy not found")
     | Some copy =>
     book <- await (bookctl 265) (Book_findById (BookCopy.book copy)) ;;
     await (bookctl 267) (BookCopy_findByIdAndDelete id) ;;;
     match book with
     | Some book =>
         let total := Book.totalCopies book - 1 in
         let avail := if String.eqb (BookCopy.status copy) "Available"
                      then Book.availableCopies book - 1
                      else Book.availableCopies book in
         await (bookctl 275) (Book_save (Book.set_counts book total avail))
     | None => ret tt
     end ;;;
     send 200 (msg "Copy deleted")
     end)
    (fun error => send 500 (msg (message error))).

Definition updateCopyStatus (id : ObjectId) (status : string) : Handler unit :=
  try_catch
    (copy <- await (bookctl 287) (BookCopy_findById id) ;;
     match copy with
     | None => send 404 (msg "Copy not found")
     | Some copy =>
     book <- await (bookctl 290) (Book_findById (BookCopy.book copy)) ;;
     book <-
       (if String.eqb (BookCopy.status copy) "Available"
           && negb (String.eqb status "Available")
        then b <- deref book "availableCopies" ;;
             ret (Some (Book.inc_availableCopies (-1) b))
        else if negb (String.eqb (BookCopy.status copy) "Available")
                && String.eqb status "Available"
        then b <- deref book "availableCopies" ;;
             ret (Some (Book.inc_availableCopies 1 b))
        else ret book) ;;
     let copy := BookCopy.set_status status copy in
     await_checked (bookctl 300) (BookCopy_save copy) ;;;
     book <- deref book "save" ;;
     await (bookctl 301) (Book_save book) ;;;
     send 200 (CopyDoc copy)
     end)
    (fun error => send 500 (msg (message error))).

(** *** The CSV upload *)

(** A parsed CSV row: the columns the handler looks at, under both
    spellings of the header. *)
Module CsvRow.
Record t := mk {
  Title : option string; title : option string;
  Author : option string; author : option string;
  ISBN : option string; isbn : option string;
  Department : option string; department : option string;
  Quantity : option string; quantity : option string
}.
End CsvRow.

(** The handler's local variables [errors], [addedCount], [updatedCount]. *)
Record Counters := mkCounters {
  errors : list string; addedCount : Z; updatedCount : Z
}.

Definition UploadState : Type := DB * Counters.

Definition liftDB {A} (m : Handler A) : M UploadState A :=
  fun env s => let (db', r) := m env (fst s) in ((db', snd s), r).

Definition modify (f : Counters -> Counters) : M UploadState unit :=
  fun _ s => ((fst s, f (snd s)), Next tt).

Definition pushError (e : string) : M UploadState unit :=
  modify (fun c => mkCounters (errors c ++ [e]) (addedCount c) (updatedCount c)).
Definition incAdded : M UploadState unit :=
  modify (fun c => mkCounters (errors c) (addedCount c + 1) (updatedCount c)).
Definition incUpdated : M UploadState unit :=
  modify (fun c => mkCounters (errors c) (addedCount c) (updatedCount c + 1)).

(** Lines 177-189: the copies whose number is not taken yet. *)
Fixpoint collectCopies (row : nat) (book : ObjectId) (isbn : string)
    (startCopyNum : Z) (indices : list Z) : M UploadState (list NewCopy) :=
  match indices with
  | [] => ret []
  | i :: rest =>
      let copyNumString := isbn ++ "-" ++ show_Z (startCopyNum + i) in
      exists_ <- liftDB (await (upload row 181) (BookCopy_findOne copyNumString)) ;;
      more <- collectCopies row book isbn startCopyNum rest ;;
      ret (match exists_ with
           | None => mkNewCopy book copyNumString "Available" :: more
           | Some _ => more
           end)
  end.

(** [parseInt(row.Quantity || row.quantity || 1)] *)
Definition rowQuantity (row : CsvRow.t) : option Z :=
  match given (orElse (CsvRow.Quantity row) (CsvRow.quantity row)) with
  | Some s => parseInt s
  | None => Some 1
  end.

(** Lines 152-170: the book of the row, found or made. *)
Definition findOrCreateBook (idx : nat) (title : string) (author : option string)
    (isbn dept : string) : M UploadState Book.t :=
  found <- liftDB (await (upload idx 152) (Book_findOne_isbn (Some isbn))) ;;
  match found with
  | Some book => incUpdated ;;; ret book
  | None =>
      book <- liftDB (new_Book title author isbn (toUpperCase dept) 0 0) ;;
      liftDB (await (upload idx 168) (Book_insert book)) ;;;
      incAdded ;;;
      ret book
  end.

(** Lines 173-198: the copies of the row. *)
Definition insertRowCopies (idx : nat) (book : Book.t) (isbn : string)
    (quantity : option Z) : M UploadState unit :=
  let startCopyNum := Book.totalCopies book + 1 in
  copiesToInsert <-
    collectCopies idx (Book._id book) isbn startCopyNum
      (forRange 0 (match quantity with Some q => q | None => 0 end) (fun i => i)) ;;
  let n := Z.of_nat (List.length copiesToInsert) in
  if n >? 0 then
    liftDB (await_checked (upload idx 192) (BookCopy_insertMany copiesToInsert)) ;;;
    liftDB (await (upload idx 197)
              (Book_save (Book.set_counts book (Book.totalCopies book + n)
                                          (Book.availableCopies book + n))))
  else ret tt.

(** Lines 151-198, the body of the [try]. *)
Definition saveRow (idx : nat) (title : string) (author : option string)
    (isbn dept : string) (quantity : option Z) : M UploadState unit :=
  book <- findOrCreateBook idx title author isbn dept ;;
  insertRowCopies idx book isbn quantity.

(** Lines 200-207, the [catch]. *)
Definition rowError (isbn : string) (err : Error) : M UploadState unit :=
  if match err_code err with Some c => c =? 11000 | None => false end
  then pushError ("ISBN " ++ isbn
                  ++ ": Duplicate Entry Detected (ISBN or Copy Number)")
  else pushError ("ISBN " ++ isbn ++ ": " ++ message err).

Definition deptError (isbn : string) (dept : option string) : string :=
  "ISBN " ++ isbn ++ ": Invalid or Missing Department '" ++ show_field dept
  ++ "'. Please add Dept first.".

(** Lines 129-207, the body of the loop over the rows. *)
Definition uploadRow (validDeptCodes : list string) (idx : nat) (row : CsvRow.t)
  : M UploadState unit :=
  let title := orElse (CsvRow.Title row) (CsvRow.title row) in
  let author := orElse (CsvRow.Author row) (CsvRow.author row) in
  let isbn := orElse (CsvRow.ISBN row) (CsvRow.isbn row) in
  let dept := orElse (CsvRow.Department row) (CsvRow.department row) in
  let quantity := rowQuantity row in
  match given isbn, given title with
  | Some isbn, Some title =>
      match given dept with
      | Some d =>
          if includes validDeptCodes (toUpperCase d) then
            try_catch (saveRow idx title author isbn d quantity) (rowError isbn)
          else pushError (deptError isbn dept)
      | None => pushError (deptError isbn dept)
      end
  | _, _ => pushError "Row missing ISBN or Title"
  end.

Fixpoint uploadRows (validDeptCodes : list string) (idx : nat) (rows : list CsvRow.t)
  : M UploadState unit :=
  match rows with
  | [] => ret tt
  | row :: rest =>
      uploadRow validDeptCodes idx row ;;;
      uploadRows validDeptCodes (S idx) rest
  end.

Definition uploadBody (file : option (list CsvRow.t)) : M UploadState unit :=
  match file with
  | None => send 400 (msg "No file uploaded")
  | Some results =>
      allDepts <- liftDB (await (bookctl 121) Department_find) ;;
      let validDeptCodes :=
        map (fun d => toUpperCase (Department.code d)) allDepts in
      uploadRows validDeptCodes 0 results ;;;
      fun _ s =>
        (s, Sent (mkResponse 200
                    (Obj [("message", VStr "Process Complete");
                          ("added", VNum (addedCount (snd s)));
                          ("updated", VNum (updatedCount (snd s)));
                          ("errors", VStrs (errors (snd s)))])))
  end.

Definition uploadBookCSV (file : option (list CsvRow.t)) : Handler unit :=
  fun env db =>
    let '((db', _), r) := uploadBody file env (db, mkCounters [] 0 0) in (db', r).

(** ** The other handlers of the two controllers *)

(** A handler that ends with [res.json(value)] for a document or a list is
    written with the value as its result: [Next v] is the answer 200 with
    body [v]. *)
Inductive Reply (A : Type) : Type :=
| Json (a : A)              (* res.json(a) *)
| Failed (r : Response)     (* an error response was sent *)
| Silent.                   (* the promise of the handler rejected *)
Arguments Json {A} a.
Arguments Failed {A} r.
Arguments Silent {A}.

Definition reply {A} (h : Handler A) (env : Env) (db : DB) : DB * Reply A :=
  match h env db with
  | (db', Next a) => (db', Json a)
  | (db', Sent r) => (db', Failed r)
  | (db', Threw _) => (db', Silent)
  end.

(** *** bookController.js: updateBook, deleteBook, bulkDeleteBooks,
    getBookCopies *)

(** [req.body] of updateBook: the fields of a book that it can carry. *)
Record BookPatch := mkBookPatch {
  bp_title : option string; bp_author : option string; bp_isbn : option string;
  bp_department : option string;
  bp_totalCopies : option Z; bp_availableCopies : option Z
}.

Definition patched {A} (o : option A) (old : A) : A :=
  match o with Some v => v | None => old end.

Definition applyPatch (p : BookPatch) (b : Book.t) : Book.t :=
  Book.mk (Book._id b)
          (patched (bp_title p) (Book.title b))
          (match bp_author p with Some a => Some a | None => Book.author b end)
          (patched (bp_isbn p) (Book.isbn b))
          (patched (bp_department p) (Book.department b))
          (patched (bp_totalCopies p) (Book.totalCopies b))
          (patched (bp_availableCopies p) (Book.availableCopies b)).

(** [Book.findByIdAndUpdate(id, req.body, { new: true })] *)
Definition Book_findByIdAndUpdate (id : ObjectId) (p : BookPatch) (db : DB)
  : DB * option Book.t :=
  let r := updateFirst (fun b => N.eqb (Book._id b) id) (applyPatch p) (books db) in
  (set_books (fst r) db, snd r).

Definition updateBook (id : ObjectId) (body : BookPatch) : Handler (option Book.t) :=
  try_catch
    (match given (bp_department body) with
     | Some department =>
         validDept <- await (bookctl 63) (Department_findOne department) ;;
         match validDept with
         | None => send 400 (msg "Invalid Department Code")
         | Some _ => ret tt
         end
     | None => ret tt
     end ;;;
     await (bookctl 67) (Book_findByIdAndUpdate id body))
    (fun error => send 500 (msg (message error))).

(** [BookCopy.deleteMany(filter)] *)
Definition BookCopy_deleteMany (p : BookCopy.t -> bool) (db : DB) : DB * unit :=
  (set_bookcopies (filter (fun c => negb (p c)) (bookcopies db)) db, tt).

Definition Book_findByIdAndDelete (id : ObjectId) (db : DB) : DB * unit :=
  (set_books (removeFirst (fun b => N.eqb (Book._id b) id) (books db)) db, tt).

Definition Book_deleteMany (p : Book.t -> bool) (db : DB) : DB * unit :=
  (set_books (filter (fun b => negb (p b)) (books db)) db, tt).

Definition deleteBook (bookId : ObjectId) : Handler unit :=
  try_catch
    (await (bookctl 80)
       (BookCopy_deleteMany (fun c => N.eqb (BookCopy.book c) bookId)) ;;;
     await (bookctl 83) (Book_findByIdAndDelete bookId) ;;;
     send 200 (msg "Book and all its copies deleted"))
    (fun error => send 500 (msg (message error))).

(** [{ $in: ids }] *)
Definition inIds (ids : list ObjectId) (id : ObjectId) : bool :=
  existsb (N.eqb id) ids.

Definition bulkDeleteBooks (bookIds : option (list ObjectId)) : Handler unit :=
  try_catch
    (match bookIds with
     | None => send 400 (msg "No books selected")
     | Some [] => send 400 (msg "No books selected")
     | Some bookIds =>
         await (bookctl 100)
           (BookCopy_deleteMany (fun c => inIds bookIds (BookCopy.book c))) ;;;
         await (bookctl 103)
           (Book_deleteMany (fun b => inIds bookIds (Book._id b))) ;;;
         send 200 (msg (show_Z (Z.of_nat (List.length bookIds))
                        ++ " books and their copies deleted."))
     end)
    (fun error =>
       send 500 (Obj [("message", VStr "Bulk delete failed");
                      ("error", VStr (message error))])).

Definition BookCopy_find_book (bookId : ObjectId) (db : DB) : DB * list BookCopy.t :=
  (db, filter (fun c => N.eqb (BookCopy.book c) bookId) (bookcopies db)).

Definition getBookCopies (bookId : ObjectId) : Handler (list BookCopy.t) :=
  try_catch
    (await (bookctl 223) (BookCopy_find_book bookId))
    (fun error => send 500 (msg (message error))).

(** *** circulationController.js: getUnpaidFines, collectFine *)

(** [{ fine: { $gt: 0 }, isFinePaid: false }] *)
Definition isUnpaid (t : Transaction.t) : bool :=
  match Transaction.fine t with
  | Some f => 0 <? f
  | None => false
  end && negb (Transaction.isFinePaid t).

(** [.sort({ dueDate: 1 })]: earliest first; transactions with one due date
    keep their order. *)
Fixpoint insertByDueDate (x : Transaction.t) (l : list Transaction.t)
  : list Transaction.t :=
  match l with
  | [] => [x]
  | y :: l' =>
      if Transaction.dueDate y <? Transaction.dueDate x
      then y :: insertByDueDate x l'
      else x :: l
  end.

Definition sortByDueDate (l : list Transaction.t) : list Transaction.t :=
  fold_right insertByDueDate [] l.

(** A transaction with [student] and [book] populated. *)
Definition Populated : Type := Transaction.t * option User.t * option Book.t.

Definition populate (db : DB) (t : Transaction.t) : Populated :=
  (t, snd (User_findById (Transaction.student t) db),
      snd (Book_findById (Transaction.book t) db)).

Definition Transaction_find_unpaid (db : DB) : DB * list Populated :=
  (db, map (populate db) (sortByDueDate (filter isUnpaid (transactions db)))).

Definition getUnpaidFines : Handler (list Populated) :=
  try_catch
    (await (circulation 203) Transaction_find_unpaid)
    (fun error => send 500 (msg (message error))).

Definition Transaction_findById (id : ObjectId) (db : DB) : DB * option Transaction.t :=
  (db, find (fun x => N.eqb (Transaction._id x) id) (transactions db)).

Definition set_isFinePaid (b : bool) (t : Transaction.t) : Transaction.t :=
  Transaction.mk (Transaction._id t) (Transaction.student t) (Transaction.book t)
                 (Transaction.copyId t) (Transaction.dueDate t) (Transaction.status t)
                 b (Transaction.returnDate t) (Transaction.fine t).

(** How [`${transaction.fine}`] prints.  For a fine that no controller has
    set, it is what the schema left there (models/Transaction.js is not
    among the sources), written [undefined] here; only the text of the audit
    entry depends on it. *)
Definition show_fine (o : option Z) : string :=
  match o with Some f => show_Z f | None => "undefined" end.

(** The populated [student] and [book] of line 216 are only read by the
    empty branch of lines 225-228. *)
Definition collectFine (id : ObjectId) (user : option ObjectId) : Handler unit :=
  try_catch
    (transaction <- await (circulation 216) (Transaction_findById id) ;;
     match transaction with
     | None => send 404 (msg "Transaction not found")
     | Some transaction =>
         let transaction := set_isFinePaid true transaction in
         await (circulation 223) (Transaction_save transaction) ;;;
         match user with
         | Some u => logAudit u "FINE_COLLECT"
                       ("Collected ₹" ++ show_fine (Transaction.fine transaction))
         | None => ret tt
         end ;;;
         send 200 (msg "Payment Collected")
     end)
    (fun error => send 500 (msg (message error))).

(** ** Vocabulary of the properties *)

Open Scope list_scope.

(** [stable R m]: whatever path [m] takes (return, response sent, exception),
    the state it leaves is related by [R] to the state it started from. *)
Definition stable {S A} (R : S -> S -> Prop) (m : M S A) : Prop :=
  forall env s, R s (fst (m env s)).

(** The status of every copy is one of the states of the enum. *)
Definition allValid (db : DB) : Prop :=
  Forall (fun c => In (BookCopy.status c) BookCopy_status_enum) (bookcopies db).

Definition keepsValid (a b : DB) : Prop := allValid a -> allValid b.

(** The configuration a request works with: the stored one, or the schema
    defaults that [SystemConfig.create({})] stores when there is none. *)
Definition effectiveConfig (env : Env) (db : DB) : SystemConfig.t :=
  match systemconfigs db with
  | c :: _ => c
  | [] => SystemConfig_defaults env
  end.

Definition ensureConfig (env : Env) (db : DB) : DB :=
  match systemconfigs db with
  | _ :: _ => db
  | [] => set_systemconfigs (systemconfigs db ++ [SystemConfig_defaults env]) db
  end.



Definition findTransaction (id : ObjectId) (db : DB) : option Transaction.t :=
  find (fun x => N.eqb (Transaction._id x) id) (transactions db).

(** The transaction that returnBook picks for a copy number. *)
Definition activeIssue (copyId : string) (db : DB) : option Transaction.t :=
  find (isIssuedCopy copyId) (transactions db).

Definition sameTransactions (a b : DB) : Prop := transactions a = transactions b.

Definition findBook (id : ObjectId) (db : DB) : option Book.t :=
  find (fun b => N.eqb (Book._id b) id) (books db).

(** Books, copies and transactions are the same in both states. *)
Definition sameHoldings (a b : DB) : Prop :=
  books a = books b /\ bookcopies a = bookcopies b /\ transactions a = transactions b.

(** The copy that an issue request asks for: the one with the given copy
    number, or any copy of the book with the given ISBN. *)
Definition requested (req : IssueReq) (db : DB) (c : BookCopy.t) : Prop :=
  match given (copyId req) with
  | Some n => BookCopy.copyNumber c = n
  | None => exists b, snd (Book_findOne_isbn (isbn req) db) = Some b /\
                      BookCopy.book c = Book._id b
  end.

(** The copy numbers in the collection are the same, in the same order. *)
Definition sameNumbers (a b : DB) : Prop :=
  map BookCopy.copyNumber (bookcopies a) = map BookCopy.copyNumber (bookcopies b).

(** [a] was created no earlier than [b]. *)
Definition newerOrSame (a b : AuditLog.t) : Prop :=
  AuditLog.createdAt b <= AuditLog.createdAt a.

(** The shape of a failure response: 400, 404 or 500 and a [message]. *)
Definition failureShape (r : Response) : Prop :=
  (statusCode r = 400 \/ statusCode r = 404 \/ statusCode r = 500) /\
  has_field "message" (body r) = true.

(** Every database call rejects. *)
Definition databaseDown : Site -> option Error :=
  fun _ => Some (mkError None "connection refused").

(** The copies of a book, and those of them that are 'Available'. *)
Definition copiesOf (b : ObjectId) (l : list BookCopy.t) : list BookCopy.t :=
  filter (fun c => N.eqb (BookCopy.book c) b) l.

Definition isAvailable (c : BookCopy.t) : bool :=
  String.eqb (BookCopy.status c) "Available".

Definition countTotal (b : ObjectId) (l : list BookCopy.t) : Z :=
  Z.of_nat (List.length (copiesOf b l)).

Definition countAvailable (b : ObjectId) (l : list BookCopy.t) : Z :=
  Z.of_nat (List.length (filter isAvailable (copiesOf b l))).

(** The counters of a book agree with its copies. *)
Definition countersOf (l : list BookCopy.t) (b : Book.t) : Prop :=
  Book.totalCopies b = countTotal (Book._id b) l /\
  Book.availableCopies b = countAvailable (Book._id b) l.

Definition countersOk (db : DB) : Prop :=
  Forall (countersOf (bookcopies db)) (books db).

(** Book identifiers are unique, as [_id] is in a collection. *)
Definition uniqueBookIds (db : DB) : Prop := NoDup (map Book._id (books db)).

(** What one copy contributes to the counters of book [b]. *)
Definition oneTotal (b : ObjectId) (c : BookCopy.t) : Z :=
  if N.eqb (BookCopy.book c) b then 1 else 0.
Definition oneAvailable (b : ObjectId) (c : BookCopy.t) : Z :=
  if N.eqb (BookCopy.book c) b && isAvailable c then 1 else 0.
Definition available1 (c : BookCopy.t) : Z := if isAvailable c then 1 else 0.

(** The stored counters of a book moved by [dT] and [dA]. *)
Definition shiftCounts (dT dA : Z) (x : Book.t) : Book.t :=
  Book.set_counts x (Book.totalCopies x + dT) (Book.availableCopies x + dA).

(** The fields of a CSV row as the loop reads them. *)
Definition rowISBN (row : CsvRow.t) : option string :=
  given (orElse (CsvRow.ISBN row) (CsvRow.isbn row)).
Definition rowTitle (row : CsvRow.t) : option string :=
  given (orElse (CsvRow.Title row) (CsvRow.title row)).
Definition rowDept (row : CsvRow.t) : option string :=
  given (orElse (CsvRow.Department row) (CsvRow.department row)).
Definition rowAuthor (row : CsvRow.t) : option string :=
  orElse (CsvRow.Author row) (CsvRow.author row).

(** Line 122: the codes of the departments, in upper case. *)
Definition deptCodes (depts : list Department.t) : list string :=
  map (fun d => toUpperCase (Department.code d)) depts.

(** [d] is the code of one of the departments, up to the case of letters. *)
Definition knownDept (depts : list Department.t) (d : string) : Prop :=
  exists dep, In dep depts /\ toUpperCase (Department.code dep) = toUpperCase d.

(** The copies the loop of lines 177-189 collects for [q] wanted copies
    numbered from [start]: those whose number no copy has yet. *)
Definition wantedCopies (db : DB) (book : ObjectId) (isbn : string) (start q : Z)
  : list NewCopy :=
  filter (fun c => match snd (BookCopy_findOne (nc_copyNumber c) db) with
                   | None => true
                   | Some _ => false
                   end)
         (forRange 0 q (fun i => mkNewCopy book (isbn ++ "-" ++ show_Z (start + i))%string
                                           "Available")).

(** A row leaves the counters of added and updated books as they were. *)
Definition sameCounts (a b : UploadState) : Prop :=
  addedCount (snd a) = addedCount (snd b) /\
  updatedCount (snd a) = updatedCount (snd b).

(** The transaction of an entry of the list of unpaid fines, and the order
    of that list: by due date. *)
Definition transactionOf (p : Populated) : Transaction.t := fst (fst p).

Definition dueBefore (a b : Transaction.t) : Prop :=
  Transaction.dueDate a <= Transaction.dueDate b.

Definition dueNoLater (a b : Populated) : Prop :=
  dueBefore (transactionOf a) (transactionOf b).

(** What [n] rows of a CSV file do to the handler's counters, from [a] to
    [b]: at most [n] new messages, at most [n] books counted as added or
    updated, and no row that is neither counted nor has a message. *)
Definition accountsRows (n : Z) (a b : UploadState) : Prop :=
  let dE := Z.of_nat (List.length (errors (snd b)))
            - Z.of_nat (List.length (errors (snd a))) in
  let dA := addedCount (snd b) - addedCount (snd a) in
  let dU := updatedCount (snd b) - updatedCount (snd a) in
  0 <= dE <= n /\ 0 <= dA /\ 0 <= dU /\ dA + dU <= n /\ n <= dE + dA + dU.

(** *** A small library for the examples *)

(** A library with one student and one department, at one instant. *)
Definition demoConfig : SystemConfig.t := SystemConfig.mk 3 5 14.
Definition demoEnv : Env := mkEnv 1700000000000 19800000 (fun _ => None) demoConfig.
Definition demoDB : DB :=
  mkDB [demoConfig] [User.mk 100%N "Asha" "asha@example.org" "21CS001" true]
       [Department.mk "CSE"] [] [] [] [] 1%N.

(** One title with one copy; the copy is issued; an administrator marks it
    'Available' by hand. *)
Definition demoCreated : DB :=
  fst (run (createBook (mkCreateBookReq "Algorithms" (Some "Knuth") "978" "CSE" 1))
           demoEnv demoDB).
Definition demoIssued : DB :=
  fst (run (issueBook (mkIssueReq 100%N None (Some "978-1") None)) demoEnv demoCreated).
Definition demoMarked : DB :=
  fst (run (updateCopyStatus 2%N "Available") demoEnv demoIssued).

(** Twenty days later, six days after the due date. *)
Definition demoLateEnv : Env :=
  mkEnv (1700000000000 + 20 * msPerDay) 19800000 (fun _ => None) demoConfig.

(** The transaction of the issue in [demoIssued]. *)
Definition demoTransaction : Transaction.t :=
  Transaction.mk 3 100 1 "978-1" (1700000000000 + 14 * msPerDay) "Issued" false
                 None None.

(** No stored configuration, and schema defaults that allow one book. *)
Definition demoStrictEnv : Env :=
  mkEnv 1700000000000 19800000 (fun _ => None) (SystemConfig.mk 1 5 14).
Definition demoUnconfigured : DB := set_systemconfigs [] demoIssued.

(** The update of the book counter (line 50) rejects. *)
Definition demoFaultEnv : Env :=
  mkEnv 1700000000000 19800000
        (fun s => match s with
                  | circulation n =>
                      if Nat.eqb n 50 then Some (mkError None "timed out") else None
                  | _ => None
                  end)
        demoConfig.

(** The update of the book counter (line 50) and the write of the error
    handler (line 75) both reject: the connection is lost after the copy was
    taken. *)
Definition demoLostEnv : Env :=
  mkEnv 1700000000000 19800000
        (fun s => match s with
                  | circulation n =>
                      if Nat.eqb n 50 || Nat.eqb n 75
                      then Some (mkError None "timed out") else None
                  | _ => None
                  end)
        demoConfig.

(** A CSV row for a new title, with the department in lower case. *)
Definition demoRow : CsvRow.t :=
  CsvRow.mk (Some "Compilers") None None (Some "Aho") (Some "111") None
         None (Some "cse") (Some "2") None.

(** A row without a department, and a row for the title of [demoCreated]. *)
Definition demoRowNoDept : CsvRow.t :=
  CsvRow.mk (Some "Networks") None None None (Some "222") None None None None None.
Definition demoRowAgain : CsvRow.t :=
  CsvRow.mk None (Some "Algorithms") None None None (Some "978") (Some "CSE") None
         None None.

(** The first database call of issueBook (line 15) rejects. *)
Definition demoDownEnv : Env :=
  mkEnv 1700000000000 19800000
        (fun s => match s with
                  | circulation n =>
                      if Nat.eqb n 15 then Some (mkError None "timed out") else None
                  | _ => None
                  end)
        demoConfig.

(** The title is deleted while its copy is out on loan. *)
Definition demoOrphaned : DB := fst (run (deleteBook 1) demoEnv demoIssued).

(** The copy comes back six days late: a fine of 30 is due. *)
Definition demoReturnedLate : DB :=
  fst (run (returnBook (mkReturnReq "978-1" None)) demoLateEnv demoIssued).

(** A new title for the book, and a patch that also sets a counter. *)
Definition demoRetitle : BookPatch :=
  mkBookPatch (Some "Algorithms, 2nd ed.") None None (Some "CSE") None None.
Definition demoMiscount : BookPatch :=
  mkBookPatch None None None None (Some 5) None.

(** * Properties *)

(** ** Frame reasoning for handlers *)

Section Stable.
Context {S : Type} (R : S -> S -> Prop).
Hypothesis R_refl : forall s, R s s.
Hypothesis R_trans : forall a b c, R a b -> R b c -> R a c.

Lemma stable_ret {A} (a : A) : stable R (ret a).
Proof. intros env s; apply R_refl. Qed.

Lemma stable_send {A} c b : stable R (@send S A c b).
Proof. intros env s; apply R_refl. Qed.

Lemma stable_throw {A} e : stable R (@throw S A e).
Proof. intros env s; apply R_refl. Qed.

Lemma stable_clock : stable R (@clock S).
Proof. intros env s; apply R_refl. Qed.

Lemma stable_asks {A} (f : Env -> A) : stable R (@asks S A f).
Proof. intros env s; apply R_refl. Qed.

Lemma stable_deref {A} (o : option A) p : stable R (@deref S A o p).
Proof. destruct o; [apply stable_ret | apply stable_throw]. Qed.

Lemma stable_bind {A B} (m : M S A) (k : A -> M S B) :
  stable R m -> (forall a, stable R (k a)) -> stable R (bind m k).
Proof.
  intros Hm Hk env s. unfold bind.
  specialize (Hm env s). destruct (m env s) as [s' [a | r | e]]; simpl in *; auto.
  eapply R_trans; [exact Hm | apply Hk].
Qed.

Lemma stable_try_catch {A} (m : M S A) (h : Error -> M S A) :
  stable R m -> (forall e, stable R (h e)) -> stable R (try_catch m h).
Proof.
  intros Hm Hh env s. unfold try_catch.
  specialize (Hm env s). destruct (m env s) as [s' [a | r | e]]; simpl in *; auto.
  eapply R_trans; [exact Hm | apply Hh].
Qed.
End Stable.

Section StableDB.
Context (R : DB -> DB -> Prop).
Hypothesis R_refl : forall s, R s s.

Lemma stable_await {A} site (op : DB -> DB * A) :
  (forall db, R db (fst (op db))) -> stable R (await site op).
Proof.
  intros Hop env db. unfold await. destruct (fails env site); simpl; auto.
Qed.

Lemma stable_await_checked {A} site (op : DB -> DB * (Error + A)) :
  (forall db, R db (fst (op db))) -> stable R (await_checked site op).
Proof.
  intros Hop env db. unfold await_checked. destruct (fails env site); simpl; auto.
  specialize (Hop db). destruct (snd (op db)); auto.
Qed.
End StableDB.

(** Breaks a [stable] goal down along the structure of the handler; what is
    left are the database calls. *)
Ltac stable_step :=
  match goal with
  | |- stable _ (bind _ _) => apply stable_bind; [assumption | | intro]
  | |- stable _ (try_catch _ _) => apply stable_try_catch; [assumption | | intro]
  | |- stable _ (ret _) => apply stable_ret; assumption
  | |- stable _ (send _ _) => apply stable_send; assumption
  | |- stable _ (throw _) => apply stable_throw; assumption
  | |- stable _ clock => apply stable_clock; assumption
  | |- stable _ (asks _) => apply stable_asks; assumption
  | |- stable _ (deref _ _) => apply stable_deref; assumption
  | |- stable _ (await _ _) => apply stable_await; [assumption | intro]
  | |- stable _ (await_checked _ _) => apply stable_await_checked; [assumption | intro]
  | |- stable _ (match ?x with _ => _ end) => destruct x
  | |- stable _ (let _ := _ in _) => cbv zeta
  end.

Lemma run_fst {S} (h : M S unit) env s : fst (run h env s) = fst (h env s).
Proof. unfold run. destruct (h env s) as [s' [a | r | e]]; reflexivity. Qed.

(** ** Facts about the queries *)

Section QueryFacts.
Context {A : Type}.
Implicit Types (p : A -> bool) (f : A -> A) (l : list A).

Lemma updateFirst_Forall (P : A -> Prop) p f l :
  (forall x, P x -> P (f x)) -> Forall P l -> Forall P (fst (updateFirst p f l)).
Proof.
  intros Hf. induction 1 as [| x l Hx Hl IH]; simpl; [constructor |].
  destruct (p x); simpl; [constructor; auto |].
  destruct (updateFirst p f l); simpl in *. constructor; auto.
Qed.

Lemma removeFirst_Forall (P : A -> Prop) p l :
  Forall P l -> Forall P (removeFirst p l).
Proof.
  induction 1 as [| x l Hx Hl IH]; simpl; [constructor |].
  destruct (p x); [assumption | constructor; auto].
Qed.

(** [updateFirst] rewrites exactly the first match. *)
Lemma updateFirst_split p f l :
  match snd (updateFirst p f l) with
  | Some y =>
      exists l1 x l2,
        l = l1 ++ x :: l2 /\ p x = true /\ y = f x /\
        Forall (fun z => p z = false) l1 /\
        fst (updateFirst p f l) = l1 ++ f x :: l2
  | None => Forall (fun z => p z = false) l /\ fst (updateFirst p f l) = l
  end.
Proof.
  induction l as [| x l IH]; simpl; [split; [constructor | reflexivity] |].
  destruct (p x) eqn:Hp; simpl.
  - exists [], x, l. repeat split; auto.
  - destruct (updateFirst p f l) as [l' [y |]]; simpl in *.
    + destruct IH as (l1 & x0 & l2 & -> & Hx0 & -> & Hl1 & ->).
      exists (x :: l1), x0, l2. repeat split; auto.
    + destruct IH as [Hl ->]. split; [constructor; auto | reflexivity].
Qed.

Lemma updateFirst_snd p f l :
  snd (updateFirst p f l) = option_map f (find p l).
Proof.
  induction l as [| x l IH]; simpl; [reflexivity |].
  destruct (p x); simpl; [reflexivity |].
  destruct (updateFirst p f l); simpl in *. exact IH.
Qed.

Lemma find_In_some p l x :
  In x l -> p x = true -> exists y, find p l = Some y.
Proof.
  intros Hin Hp. destruct (find p l) eqn:E; [eauto |].
  rewrite (find_none _ _ E x Hin) in Hp. discriminate.
Qed.

(** After [doc.save()] a lookup with the same key finds the saved document. *)
Lemma find_updateFirst_const p (y : A) l :
  p y = true ->
  find p (fst (updateFirst p (fun _ => y) l)) =
  match find p l with Some _ => Some y | None => None end.
Proof.
  intros Hy. induction l as [| x l IH]; simpl; [reflexivity |].
  destruct (p x) eqn:Hx; simpl; [rewrite Hy; reflexivity |].
  destruct (updateFirst p (fun _ => y) l); simpl in *. rewrite Hx. exact IH.
Qed.
(** A lookup by key after the first document with key [j] was rewritten
    by a function that keeps the key. *)
Lemma find_updateFirst_key (key : A -> N) f (j k : N) l :
  (forall x, key (f x) = key x) ->
  find (fun x => N.eqb (key x) k) (fst (updateFirst (fun x => N.eqb (key x) j) f l)) =
  if N.eqb k j then option_map f (find (fun x => N.eqb (key x) k) l)
  else find (fun x => N.eqb (key x) k) l.
Proof.
  intros Hf. induction l as [| x l IH]; simpl; [destruct (N.eqb k j); reflexivity |].
  destruct (N.eqb_spec (key x) j) as [Hj | Hj]; simpl.
  - rewrite Hf. destruct (N.eqb_spec (key x) k) as [Hk | Hk].
    + assert (k = j) as -> by congruence. rewrite N.eqb_refl. reflexivity.
    + destruct (N.eqb_spec k j) as [E | E]; [congruence | reflexivity].
  - destruct (updateFirst _ f l) as [l' r]; simpl in *.
    destruct (N.eqb_spec (key x) k) as [Hk | Hk]; [| exact IH].
    destruct (N.eqb_spec k j) as [E | E]; [congruence | reflexivity].
Qed.
(** A lookup with the filter of the update, when the update does not
    change what the filter looks at. *)
Lemma find_updateFirst_stable p f l :
  (forall x, p (f x) = p x) ->
  find p (fst (updateFirst p f l)) = option_map f (find p l).
Proof.
  intros Hf. induction l as [| x l IH]; simpl; [reflexivity |].
  destruct (p x) eqn:Hx; simpl; [rewrite Hf, Hx; reflexivity |].
  destruct (updateFirst p f l); simpl in *. rewrite Hx. exact IH.
Qed.
Lemma map_updateFirst {B} (g : A -> B) p f l :
  (forall x, g (f x) = g x) -> map g (fst (updateFirst p f l)) = map g l.
Proof.
  intros Hg. induction l as [| x l IH]; simpl; [reflexivity |].
  destruct (p x); simpl; [rewrite Hg; reflexivity |].
  destruct (updateFirst p f l); simpl in *. rewrite IH. reflexivity.
Qed.
Lemma updateFirst_found p f l y :
  find p l = Some y ->
  exists l1 l2, l = l1 ++ y :: l2 /\ fst (updateFirst p f l) = l1 ++ f y :: l2 /\
                Forall (fun z => p z = false) l1.
Proof.
  induction l as [| x l IH]; simpl; [discriminate |].
  destruct (p x) eqn:Hx.
  - intros [= <-]. exists [], l. repeat split. constructor.
  - intros Hy. destruct (IH Hy) as (l1 & l2 & -> & Hu & Hl1).
    destruct (updateFirst p f (l1 ++ y :: l2)); simpl in *. subst.
    exists (x :: l1), l2. repeat split. constructor; assumption.
Qed.

Lemma updateFirst_none p f l : find p l = None -> fst (updateFirst p f l) = l.
Proof.
  induction l as [| x l IH]; simpl; [reflexivity |].
  destruct (p x); [discriminate |]. intros H.
  destruct (updateFirst p f l); simpl in *. rewrite IH by exact H. reflexivity.
Qed.

Lemma removeFirst_found p l y :
  find p l = Some y ->
  exists l1 l2, l = l1 ++ y :: l2 /\ removeFirst p l = l1 ++ l2.
Proof.
  induction l as [| x l IH]; simpl; [discriminate |].
  destruct (p x) eqn:Hx.
  - intros [= <-]. exists [], l. split; reflexivity.
  - intros Hy. destruct (IH Hy) as (l1 & l2 & -> & Hr).
    exists (x :: l1), l2. simpl. rewrite Hr. split; reflexivity.
Qed.

Lemma updateFirst_ext p f g l :
  (forall x, f x = g x) -> fst (updateFirst p f l) = fst (updateFirst p g l).
Proof.
  intros H. induction l as [| x l IH]; simpl; [reflexivity |].
  destruct (p x); simpl; [rewrite H; reflexivity |].
  destruct (updateFirst p f l), (updateFirst p g l); simpl in *. congruence.
Qed.

(** [doc.save()] after changing the document that a lookup returned. *)
Lemma updateFirst_saved p (g : A -> A) l y :
  find p l = Some y ->
  fst (updateFirst p (fun _ => g y) l) = fst (updateFirst p g l).
Proof.
  induction l as [| x l IH]; simpl; [discriminate |].
  destruct (p x); simpl.
  - intros [= <-]. reflexivity.
  - intros H. specialize (IH H).
    destruct (updateFirst p (fun _ => g y) l), (updateFirst p g l); simpl in *. congruence.
Qed.
End QueryFacts.

(** ** The status enum is respected by every write *)

Lemma validStatus_In s : validStatus s = true <-> In s BookCopy_status_enum.
Proof.
  unfold validStatus. rewrite existsb_exists. split.
  - intros (x & Hx & E). apply String.eqb_eq in E. subst. exact Hx.
  - intros H. exists s. split; [exact H | apply String.eqb_refl].
Qed.

Lemma status_enum_three s :
  In s BookCopy_status_enum <-> s = "Available" \/ s = "Issued" \/ s = "Lost".
Proof. unfold BookCopy_status_enum. simpl. intuition congruence. Qed.

Lemma keepsValid_refl db : keepsValid db db.
Proof. intros H; exact H. Qed.

Lemma keepsValid_trans a b c : keepsValid a b -> keepsValid b c -> keepsValid a c.
Proof. unfold keepsValid; auto. Qed.

Lemma keepsValid_same a b : bookcopies b = bookcopies a -> keepsValid a b.
Proof. unfold keepsValid, allValid. intros ->. auto. Qed.

Lemma keepsValid_findOneAndUpdate p s db :
  In s BookCopy_status_enum ->
  keepsValid db (fst (BookCopy_findOneAndUpdate p s db)).
Proof.
  intros Hs Hdb. unfold BookCopy_findOneAndUpdate.
  exact (updateFirst_Forall (fun c => In (BookCopy.status c) BookCopy_status_enum)
           p (BookCopy.set_status s) (bookcopies db) (fun _ _ => Hs) Hdb).
Qed.

Lemma withIds_Forall id l :
  Forall (fun c => In (nc_status c) BookCopy_status_enum) l ->
  Forall (fun c => In (BookCopy.status c) BookCopy_status_enum) (withIds id l).
Proof.
  intros H. revert id. induction H; intros id; simpl; constructor; auto.
Qed.

Lemma keepsValid_insertMany l db : keepsValid db (fst (BookCopy_insertMany l db)).
Proof.
  intros Hdb. unfold BookCopy_insertMany.
  destruct (find _ l) eqn:E; [exact Hdb |].
  unfold allValid; simpl. apply Forall_app. split; [exact Hdb |].
  apply withIds_Forall. apply Forall_forall. intros c Hc.
  pose proof (find_none _ _ E c Hc) as Hv. simpl in Hv.
  apply validStatus_In. destruct (validStatus (nc_status c)); [reflexivity | discriminate].
Qed.

Lemma keepsValid_save c db : keepsValid db (fst (BookCopy_save c db)).
Proof.
  intros Hdb. unfold BookCopy_save.
  destruct (validStatus (BookCopy.status c)) eqn:E; [| exact Hdb].
  apply validStatus_In in E. unfold allValid; simpl.
  apply updateFirst_Forall; auto.
Qed.

Lemma keepsValid_delete id db : keepsValid db (fst (BookCopy_findByIdAndDelete id db)).
Proof. intros Hdb. unfold allValid; simpl. apply removeFirst_Forall. exact Hdb. Qed.


Ltac valid_op :=
  first
    [ apply keepsValid_findOneAndUpdate; simpl; tauto
    | apply keepsValid_insertMany
    | apply keepsValid_save
    | apply keepsValid_delete
    | apply keepsValid_same; reflexivity ].

Create HintDb stable_valid.

Ltac stable_valid :=
  repeat (first [ stable_step | valid_op | solve [auto with stable_valid] ]).

Lemma keepsValid_logAudit a act d : stable keepsValid (logAudit a act d).
Proof.
  pose proof keepsValid_refl. pose proof keepsValid_trans.
  unfold logAudit. stable_valid.
Qed.

Lemma keepsValid_getConfig s1 s2 : stable keepsValid (getConfig s1 s2).
Proof.
  pose proof keepsValid_refl. pose proof keepsValid_trans.
  unfold getConfig. stable_valid.
Qed.

Lemma keepsValid_new_Book t a i d x y : stable keepsValid (new_Book t a i d x y).
Proof. intros env db. apply keepsValid_same. reflexivity. Qed.

#[local] Hint Resolve keepsValid_logAudit keepsValid_getConfig keepsValid_new_Book
  : stable_valid.

(** C4: if every copy has one of the statuses Available, Issued, Lost, then
    so has every copy after createBook, addCopies, updateCopyStatus,
    issueBook or returnBook, whatever the request and whichever database
    calls reject. *)
Theorem copy_status_stays_in_enum (env : Env) (db : DB) :
  allValid db ->
  (forall req, allValid (fst (run (createBook req) env db))) /\
  (forall req, allValid (fst (run (addCopies req) env db))) /\
  (forall id status, allValid (fst (run (updateCopyStatus id status) env db))) /\
  (forall req, allValid (fst (run (issueBook req) env db))) /\
  (forall req, allValid (fst (run (returnBook req) env db))).
Proof.
  pose proof keepsValid_refl. pose proof keepsValid_trans.
  intros Hdb.
  assert (forall h : Handler unit, stable keepsValid h -> allValid (fst (run h env db)))
    as Hrun by (intros h Hh; rewrite run_fst; apply Hh; exact Hdb).
  repeat split; intros; apply Hrun.
  - unfold createBook. stable_valid.
  - unfold addCopies. stable_valid.
  - unfold updateCopyStatus. stable_valid.
  - unfold issueBook, issueBook_try, issueBook_catch. stable_valid.
  - unfold returnBook. stable_valid.
Qed.

(** ** Running a handler step by step *)

Lemma await_ok {A} site (op : DB -> DB * A) env db :
  fails env site = None ->
  await site op env db = (fst (op db), Next (snd (op db))).
Proof. intros H. unfold await. rewrite H. reflexivity. Qed.

Lemma getConfig_ok s1 s2 env db :
  fails env s1 = None -> fails env s2 = None ->
  getConfig s1 s2 env db = (ensureConfig env db, Next (effectiveConfig env db)).
Proof.
  intros H1 H2. unfold getConfig, bind, asks, await, ensureConfig, effectiveConfig.
  rewrite H1. unfold SystemConfig_findOne. simpl.
  destruct (systemconfigs db) eqn:E; simpl; [| reflexivity].
  rewrite H2. unfold SystemConfig_create. rewrite E. reflexivity.
Qed.

Lemma ensureConfig_frame env db :
  users (ensureConfig env db) = users db /\
  books (ensureConfig env db) = books db /\
  bookcopies (ensureConfig env db) = bookcopies db /\
  transactions (ensureConfig env db) = transactions db /\
  auditlogs (ensureConfig env db) = auditlogs db.
Proof. unfold ensureConfig. destruct (systemconfigs db); repeat split. Qed.

(** ** The borrow limit *)

(** C2: when the student exists and already holds at least
    maxBooksPerStudent transactions with status 'Issued', and the lookups
    before the limit check do not reject, issueBook answers 400 and leaves
    every copy, every book and the transactions as they were. *)
Theorem issueBook_limit_reached (env : Env) (req : IssueReq) (db : DB) (student : User.t) :
  fails env (circulation 15) = None ->
  fails env (circulation 16) = None ->
  fails env (circulation 18) = None ->
  fails env (circulation 22) = None ->
  snd (User_findById (studentId req) db) = Some student ->
  countDocuments (isIssuedTo (studentId req)) (transactions db)
    >= SystemConfig.maxBooksPerStudent (effectiveConfig env db) ->
  exists r,
    snd (run (issueBook req) env db) = Some r /\
    statusCode r = 400 /\
    bookcopies (fst (run (issueBook req) env db)) = bookcopies db /\
    books (fst (run (issueBook req) env db)) = books db /\
    transactions (fst (run (issueBook req) env db)) = transactions db.
Proof.
  intros H15 H16 H18 H22 Hstudent Hcount.
  destruct (ensureConfig_frame env db) as (Hu & Hb & Hc & Ht & _).
  assert (User._id student = studentId req) as Hid.
  { simpl in Hstudent. apply find_some in Hstudent. apply N.eqb_eq, Hstudent. }
  unfold run, issueBook, issueBook_try, try_catch, bind.
  rewrite (getConfig_ok _ _ _ _ H15 H16).
  rewrite (await_ok _ _ _ _ H18). simpl fst; simpl snd.
  unfold User_findById in *. simpl in Hstudent. rewrite Hu, Hstudent.
  destruct (User.isActive student); simpl.
  - rewrite (await_ok _ _ _ _ H22). simpl. rewrite Ht, Hid.
    destruct (Z.geb_spec (countDocuments (isIssuedTo (studentId req)) (transactions db))
                (SystemConfig.maxBooksPerStudent (effectiveConfig env db))) as [_ | Hlt];
      [| lia].
    simpl. eexists. repeat split; assumption.
  - eexists. repeat split; assumption.
Qed.

Lemma bind_next {S A B} (m : M S A) (k : A -> M S B) env s s' a :
  m env s = (s', Next a) -> bind m k env s = k a env s'.
Proof. intros H. unfold bind. rewrite H. reflexivity. Qed.

(** ** The fine *)





Lemma sameTransactions_refl db : sameTransactions db db.
Proof. reflexivity. Qed.

Lemma sameTransactions_trans a b c :
  sameTransactions a b -> sameTransactions b c -> sameTransactions a c.
Proof. unfold sameTransactions. congruence. Qed.

Ltac same_tx_op := reflexivity.

Lemma sameTransactions_logAudit a act d : stable sameTransactions (logAudit a act d).
Proof.
  pose proof sameTransactions_refl. pose proof sameTransactions_trans.
  unfold logAudit. repeat (first [ stable_step | same_tx_op ]).
Qed.

(** What returnBook leaves in the transactions once it has saved the
    transaction: the later steps, and the error handler, do not touch them. *)
Lemma returnBook_transactions env req db t :
  fails env (circulation 87) = None ->
  fails env (circulation 88) = None ->
  fails env (circulation 90) = None ->
  fails env (circulation 117) = None ->
  activeIssue (ret_copyId req) db = Some t ->
  let fine := computeFine (tzOffset env) (now env) (Transaction.dueDate t)
                (SystemConfig.finePerDay (effectiveConfig env db)) in
  let t' := Transaction.mk (Transaction._id t) (Transaction.student t)
              (Transaction.book t) (Transaction.copyId t) (Transaction.dueDate t)
              "Returned" (fine =? 0) (Some (now env)) (Some fine) in
  findTransaction (Transaction._id t) (fst (run (returnBook req) env db)) = Some t'.
Proof.
  intros H87 H88 H90 H117 Hact fine t'.
  pose proof sameTransactions_refl as Hrefl. pose proof sameTransactions_trans as Htrans.
  destruct (ensureConfig_frame env db) as (Hu & Hb & Hc & Ht & _).
  rewrite run_fst. unfold returnBook, try_catch.
  rewrite (bind_next _ _ _ _ _ _ (getConfig_ok _ _ _ _ H87 H88)).
  rewrite (bind_next _ _ _ _ _ _ (await_ok _ _ _ _ H90)).
  unfold Transaction_findOne_populate at 1 2. simpl fst; simpl snd.
  unfold activeIssue in Hact. rewrite Ht, Hact.
  unfold bind at 1, clock at 1. unfold bind at 1, asks at 1.
  rewrite (bind_next _ _ _ _ _ _ (await_ok _ _ _ _ H117)).
  fold fine. fold t'.
  match goal with
  | |- findTransaction _ (fst (match ?tail env ?db2 with _ => _ end)) = _ =>
      assert (stable sameTransactions tail) as Htail;
      [| pose proof (stable_try_catch sameTransactions Htrans tail
                       (fun error => send 500 (msg (message error))) Htail
                       (fun e => stable_send sameTransactions Hrefl _ _) env db2) as Hfin ]
  end.
  { repeat (first [ stable_step | same_tx_op | apply sameTransactions_logAudit ]). }
  unfold try_catch in Hfin. unfold findTransaction. rewrite <- Hfin.
  simpl. rewrite find_updateFirst_const by (simpl; apply N.eqb_refl).
  rewrite Ht.
  destruct (find_In_some (fun x => N.eqb (Transaction._id x) (Transaction._id t))
              (transactions db) t) as [y ->];
    [ apply (find_some _ _ Hact) | apply N.eqb_refl | reflexivity ].
Qed.

(** ** What a successful issue and a successful return did *)

Lemma logAudit_next a act d env db :
  logAudit a act d env db = (fst (logAudit a act d env db), Next tt).
Proof.
  unfold logAudit, try_catch, bind, await, clock, ret.
  destruct (fails env (auditctl 7)); simpl; [reflexivity |].
  destruct (fails env (auditctl 8)); reflexivity.
Qed.

Lemma sameHoldings_refl db : sameHoldings db db.
Proof. repeat split. Qed.

Lemma sameHoldings_trans a b c :
  sameHoldings a b -> sameHoldings b c -> sameHoldings a c.
Proof. unfold sameHoldings. intuition congruence. Qed.

Lemma sameHoldings_logAudit a act d : stable sameHoldings (logAudit a act d).
Proof.
  pose proof sameHoldings_refl. pose proof sameHoldings_trans.
  unfold logAudit. repeat (first [ stable_step | solve [repeat split] ]).
Qed.

(** Unfolds the monad in a hypothesis about a run. *)
Ltac run_in H :=
  cbv beta iota zeta delta
    [bind await await_checked send ret throw try_catch clock asks deref
     getConfig run] in H;
  cbn [fst snd] in H.

(** Case analysis on the innermost decision of the run in [H].  [logAudit]
    always goes on; what it leaves is only known through [sameHoldings]. *)
Ltac split_inner H :=
  match type of H with
  | context [match ?x with _ => _ end] =>
      lazymatch x with
      | context [match _ with _ => _ end] => fail
      | logAudit ?a ?b ?c ?e ?d =>
          let E := fresh "Haudit" in
          let F := fresh "Hframe" in
          pose proof (logAudit_next a b c e d) as E;
          pose proof (sameHoldings_logAudit a b c e d) as F;
          destruct (logAudit a b c e d) as [? ?]; cbn [fst] in E, F;
          injection E as E; subst
      | _ => destruct x eqn:?
      end
  end.

(** The run in [H] sent nothing, or a status other than the one of [Hcode]. *)
Ltac done_in H Hcode :=
  solve [ discriminate H | injection H as _ <-; discriminate Hcode ].

Ltac invert_run H Hcode :=
  run_in H; repeat (split_inner H; run_in H; try done_in H Hcode).

Lemma issueBook_success env req db db' r :
  run (issueBook req) env db = (db', Some r) -> statusCode r = 201 ->
  exists student c l1 l2,
    snd (User_findById (studentId req) db) = Some student /\
    bookcopies db = l1 ++ c :: l2 /\
    BookCopy.status c = "Available" /\
    requested req db c /\
    bookcopies db' = l1 ++ BookCopy.set_status "Issued" c :: l2 /\
    books db' = fst (updateFirst (fun b => N.eqb (Book._id b) (BookCopy.book c))
                       (Book.inc_availableCopies (-1)) (books db)) /\
    let t := Transaction.mk (nextId db) (User._id student) (BookCopy.book c)
               (BookCopy.copyNumber c)
               (addDays (now env) (SystemConfig.issueDaysLimit (effectiveConfig env db)))
               "Issued" false None None in
    transactions db' = transactions db ++ [t] /\
    body r = Obj [("message", VStr "Book Issued Successfully");
                  ("copy", VStr (BookCopy.copyNumber c));
                  ("transaction", VTransaction t);
                  ("dueDate", VNum (Transaction.dueDate t))].
Proof.
  intros H Hcode.
  unfold issueBook, issueBook_try, issueBook_catch in H.
  invert_run H Hcode.
  all: injection H as Hdb Hr; subst db' r.
  all: match goal with
       | Hc : snd (BookCopy_findOneAndUpdate ?p _ ?d) = Some ?c |- _ =>
           unfold BookCopy_findOneAndUpdate in Hc; cbn [fst snd] in Hc;
           pose proof (updateFirst_split p (BookCopy.set_status "Issued") (bookcopies d))
             as Hsplit;
           rewrite Hc in Hsplit;
           destruct Hsplit as (l1 & c0 & l2 & Hl & Hp & -> & Hl1 & Hupd)
       end.
  all: match goal with
       | Hu : snd (User_findById _ _) = Some ?u |- _ => exists u, c0, l1, l2
       end.
  all: try match goal with
       | Hf : sameHoldings _ _ |- _ =>
           destruct Hf as (Hf1 & Hf2 & Hf3); rewrite <- Hf1, <- Hf2, <- Hf3;
           clear Hf1 Hf2 Hf3
       end.
  all: unfold copyIs, copyOf in Hp; apply andb_prop in Hp; destruct Hp as [Hp1 Hp2];
       apply String.eqb_eq in Hp2.
  all: unfold effectiveConfig, requested; simpl in *.
  all: destruct (systemconfigs db) eqn:Hcfg; simpl in *; try discriminate.
  all: repeat match goal with
       | Hs : Some _ = Some _ |- _ => injection Hs as ->
       | Hg : given _ = _ |- _ => rewrite Hg; clear Hg
       end.
  all: repeat split; auto.
  all: try (apply String.eqb_eq; assumption).
  all: try (eexists; split; [eassumption | apply N.eqb_eq; assumption]).
Qed.

Lemma returnBook_success env req db db' r :
  run (returnBook req) env db = (db', Some r) -> statusCode r = 200 ->
  exists t student c l1 l2,
    activeIssue (ret_copyId req) db = Some t /\
    snd (User_findById (Transaction.student t) db) = Some student /\
    bookcopies db = l1 ++ c :: l2 /\
    BookCopy.copyNumber c = ret_copyId req /\
    bookcopies db' = l1 ++ BookCopy.set_status "Available" c :: l2 /\
    books db' = fst (updateFirst (fun b => N.eqb (Book._id b) (BookCopy.book c))
                       (Book.inc_availableCopies 1) (books db)) /\
    let fine := computeFine (tzOffset env) (now env) (Transaction.dueDate t)
                  (SystemConfig.finePerDay (effectiveConfig env db)) in
    transactions db' =
      fst (updateFirst (fun x => N.eqb (Transaction._id x) (Transaction._id t))
             (fun _ => Transaction.mk (Transaction._id t) (Transaction.student t)
                         (Transaction.book t) (Transaction.copyId t)
                         (Transaction.dueDate t) "Returned" (fine =? 0)
                         (Some (now env)) (Some fine))
             (transactions db)) /\
    body r = Obj [("message", VStr "Book Returned Successfully");
                  ("fine", VNum fine);
                  ("student", VStr (User.name student))].
Proof.
  intros H Hcode.
  unfold returnBook in H.
  invert_run H Hcode.
  all: injection H as Hdb Hr; subst db' r.
  all: try match goal with
       | Hf : sameHoldings _ _ |- _ =>
           destruct Hf as (Hf1 & Hf2 & Hf3); rewrite <- Hf1, <- Hf2, <- Hf3;
           clear Hf1 Hf2 Hf3
       end.
  all: unfold Transaction_findOne_populate, activeIssue, effectiveConfig in *;
       simpl in *.
  all: match goal with
       | Hq : match find ?p ?l with _ => _ end = Some _ |- _ =>
           destruct (find p l) as [tx |] eqn:Hact; [| discriminate Hq];
           injection Hq as -> Hstudent
       end.
  all: match goal with
       | Hq : find ?q (fst (updateFirst ?p ?f ?l)) = Some _ |- _ =>
           change q with p in Hq;
           rewrite find_updateFirst_stable in Hq by (intros; reflexivity);
           pose proof (updateFirst_split p f l) as Hsplit;
           rewrite updateFirst_snd in Hsplit;
           destruct (find p l) as [c |]; [| discriminate Hq];
           simpl in Hq, Hsplit; injection Hq as <-;
           destruct Hsplit as (l1 & c0 & l2 & Hl & Hp & Hc0 & Hl1 & Hupd)
       end.
  all: apply (f_equal BookCopy.book) in Hc0; simpl in Hc0; simpl; rewrite Hc0.
  all: match goal with
       | Hu : find _ (users _) = Some ?u,
         Ha : find (isIssuedCopy _) _ = Some ?t |- _ => exists t, u, c0, l1, l2
       end.
  all: destruct (systemconfigs db) eqn:Hcfg; simpl in *; try discriminate.
  all: repeat match goal with
       | Hs : Some _ = Some _ |- _ => injection Hs as ->
       end.
  all: repeat split; auto.
  all: try (apply String.eqb_eq; assumption).
Qed.



(** ** The available-copy counter *)

(** How [$inc: { availableCopies: d }] on the book [id] shows in lookups. *)
Lemma findBook_inc id d db db' :
  books db' = fst (updateFirst (fun b => N.eqb (Book._id b) id)
                     (Book.inc_availableCopies d) (books db)) ->
  (forall b, findBook id db = Some b ->
     exists b', findBook id db' = Some b' /\
                Book.availableCopies b' = Book.availableCopies b + d /\
                Book.totalCopies b' = Book.totalCopies b) /\
  (forall other, other <> id -> findBook other db' = findBook other db).
Proof.
  intros Hb. unfold findBook. rewrite Hb. split.
  - intros b Hfind.
    rewrite (find_updateFirst_key Book._id) by reflexivity.
    rewrite N.eqb_refl, Hfind. simpl. eexists. repeat split.
  - intros other Hne.
    rewrite (find_updateFirst_key Book._id) by reflexivity.
    destruct (N.eqb_spec other id); [contradiction | reflexivity].
Qed.

(** C3: a successful issueBook turns the chosen copy, which was 'Available',
    to 'Issued' and takes exactly 1 from the availableCopies of that copy's
    book; a successful returnBook turns the copy with the given number to
    'Available' and adds exactly 1 to the availableCopies of its book.  No
    other copy and no other book changes. *)
Theorem issue_return_counter :
  (forall env req db db' r,
     run (issueBook req) env db = (db', Some r) -> statusCode r = 201 ->
     exists c l1 l2,
       bookcopies db = l1 ++ c :: l2 /\
       requested req db c /\
       BookCopy.status c = "Available" /\
       bookcopies db' = l1 ++ BookCopy.set_status "Issued" c :: l2 /\
       (forall b, findBook (BookCopy.book c) db = Some b ->
          exists b', findBook (BookCopy.book c) db' = Some b' /\
                     Book.availableCopies b' = Book.availableCopies b - 1 /\
                     Book.totalCopies b' = Book.totalCopies b) /\
       (forall other, other <> BookCopy.book c -> findBook other db' = findBook other db))
  /\
  (forall env req db db' r,
     run (returnBook req) env db = (db', Some r) -> statusCode r = 200 ->
     exists c l1 l2,
       bookcopies db = l1 ++ c :: l2 /\
       BookCopy.copyNumber c = ret_copyId req /\
       bookcopies db' = l1 ++ BookCopy.set_status "Available" c :: l2 /\
       (forall b, findBook (BookCopy.book c) db = Some b ->
          exists b', findBook (BookCopy.book c) db' = Some b' /\
                     Book.availableCopies b' = Book.availableCopies b + 1 /\
                     Book.totalCopies b' = Book.totalCopies b) /\
       (forall other, other <> BookCopy.book c -> findBook other db' = findBook other db)).
Proof.
  split; intros env req db db' r Hrun Hcode.
  - destruct (issueBook_success _ _ _ _ _ Hrun Hcode)
      as (student & c & l1 & l2 & _ & Hl & Hst & Hreq & Hcopies & Hbooks & _).
    destruct (findBook_inc _ _ _ _ Hbooks) as [Hinc Hother].
    exists c, l1, l2. repeat split; auto.
  - destruct (returnBook_success _ _ _ _ _ Hrun Hcode)
      as (t & student & c & l1 & l2 & _ & _ & Hl & Hnum & Hcopies & Hbooks & _).
    destruct (findBook_inc _ _ _ _ Hbooks) as [Hinc Hother].
    exists c, l1, l2. repeat split; auto.
Qed.

(** ** The transaction of an issue and of a return *)



(** ** The rollback of a failed issue *)

Lemma sameNumbers_refl db : sameNumbers db db.
Proof. reflexivity. Qed.

Lemma sameNumbers_trans a b c : sameNumbers a b -> sameNumbers b c -> sameNumbers a c.
Proof. unfold sameNumbers. congruence. Qed.

Lemma sameNumbers_findOneAndUpdate p s db :
  sameNumbers db (fst (BookCopy_findOneAndUpdate p s db)).
Proof.
  unfold sameNumbers. simpl. symmetry. apply map_updateFirst. reflexivity.
Qed.

Lemma sameNumbers_issueBook_try req : stable sameNumbers (issueBook_try req).
Proof.
  pose proof sameNumbers_refl. pose proof sameNumbers_trans.
  unfold issueBook_try, getConfig, logAudit.
  repeat (first [ stable_step | apply sameNumbers_findOneAndUpdate | reflexivity ]).
Qed.

(** C6, as amended: when the [try] of issueBook throws, the request named a
    copy, and the write of the error handler does not reject, the handler
    answers 500 and the copy with that number is 'Available' afterwards: the
    one a lookup by the number returns and, when copy numbers are unique,
    every copy with the number. *)
Theorem issueBook_rollback (env : Env) (req : IssueReq) (db : DB) (n : string) (e : Error) :
  given (copyId req) = Some n ->
  snd (issueBook_try req env db) = Threw e ->
  fails env (circulation 75) = None ->
  snd (run (issueBook req) env db) = Some (mkResponse 500 (msg (message e))) /\
  (forall c, snd (BookCopy_findOne n (fst (run (issueBook req) env db))) = Some c ->
             BookCopy.status c = "Available") /\
  (NoDup (map BookCopy.copyNumber (bookcopies db)) ->
   forall c, In c (bookcopies (fst (run (issueBook req) env db))) ->
             BookCopy.copyNumber c = n -> BookCopy.status c = "Available").
Proof.
  intros Hgiven Hthrow H75.
  pose proof (sameNumbers_issueBook_try req env db) as Hnum.
  unfold run, issueBook, try_catch.
  destruct (issueBook_try req env db) as [db1 st]. simpl in Hthrow, Hnum. subst st.
  unfold issueBook_catch, bind. rewrite Hgiven. unfold await. rewrite H75. simpl.
  split; [reflexivity |].
  pose proof (updateFirst_split (hasNumber n) (BookCopy.set_status "Available")
                (bookcopies db1)) as Hsplit.
  split.
  - intros c Hc. change (fun c0 => String.eqb (BookCopy.copyNumber c0) n)
      with (hasNumber n) in Hc.
    rewrite find_updateFirst_stable in Hc by reflexivity.
    destruct (find (hasNumber n) (bookcopies db1)); [| discriminate].
    injection Hc as <-. reflexivity.
  - intros Hnodup c Hin Hc.
    unfold sameNumbers in Hnum. rewrite Hnum in Hnodup.
    destruct (snd (updateFirst (hasNumber n) (BookCopy.set_status "Available")
                     (bookcopies db1))).
    + destruct Hsplit as (l1 & x & l2 & Hl & Hx & _ & Hl1 & Hupd).
      rewrite Hupd in Hin. rewrite Hl, map_app in Hnodup. simpl in Hnodup.
      apply NoDup_remove_2 in Hnodup.
      apply in_app_or in Hin. destruct Hin as [Hin | [<- | Hin]].
      * rewrite Forall_forall in Hl1. specialize (Hl1 c Hin).
        unfold hasNumber in Hl1. rewrite Hc, String.eqb_refl in Hl1. discriminate.
      * reflexivity.
      * exfalso. apply Hnodup. apply in_or_app. right.
        unfold hasNumber in Hx. apply String.eqb_eq in Hx. rewrite Hx, <- Hc.
        apply in_map. exact Hin.
    + destruct Hsplit as [Hall Hupd]. rewrite Hupd in Hin.
      rewrite Forall_forall in Hall. specialize (Hall c Hin).
      unfold hasNumber in Hall. rewrite Hc, String.eqb_refl in Hall. discriminate.
Qed.

(** ** The audit log *)

Lemma insertNewestFirst_perm x l : Permutation (insertNewestFirst x l) (x :: l).
Proof.
  induction l as [| y l IH]; simpl; [reflexivity |].
  destruct (AuditLog.createdAt x <? AuditLog.createdAt y); [| reflexivity].
  rewrite IH. apply perm_swap.
Qed.

Lemma sortNewestFirst_perm l : Permutation (sortNewestFirst l) l.
Proof.
  induction l as [| x l IH]; simpl; [reflexivity |].
  rewrite insertNewestFirst_perm. constructor. exact IH.
Qed.

Lemma insertNewestFirst_sorted x l :
  StronglySorted newerOrSame l -> StronglySorted newerOrSame (insertNewestFirst x l).
Proof.
  induction 1 as [| y l Hl IH Hy]; simpl; [repeat constructor |].
  destruct (Z.ltb_spec (AuditLog.createdAt x) (AuditLog.createdAt y)) as [Hlt | Hge].
  - constructor; [exact IH |].
    rewrite Forall_forall in *. intros z Hz.
    apply (Permutation_in _ (insertNewestFirst_perm x l)) in Hz.
    destruct Hz as [<- | Hz]; [unfold newerOrSame; lia | auto].
  - constructor; [constructor; assumption |].
    constructor; [exact Hge |].
    rewrite Forall_forall in *. intros z Hz. specialize (Hy z Hz).
    unfold newerOrSame in *. lia.
Qed.

Lemma sortNewestFirst_sorted l : StronglySorted newerOrSame (sortNewestFirst l).
Proof.
  induction l as [| x l IH]; simpl; [constructor |].
  apply insertNewestFirst_sorted. exact IH.
Qed.

Lemma firstn_sorted {A} (R : A -> A -> Prop) n l :
  StronglySorted R l -> StronglySorted R (firstn n l).
Proof.
  intros H. revert n. induction H as [| x l Hl IH Hx]; intros [| n]; simpl;
    try constructor; auto.
  rewrite Forall_forall in *. intros y Hy. apply Hx.
  rewrite <- (firstn_skipn n l). apply in_or_app. left. exact Hy.
Qed.

Lemma sorted_firstn_skipn {A} (R : A -> A -> Prop) n l :
  StronglySorted R l ->
  forall x y, In x (firstn n l) -> In y (skipn n l) -> R x y.
Proof.
  intros H. revert n. induction H as [| z l Hl IH Hz]; intros n x y Hx Hy.
  - destruct n; contradiction.
  - destruct n as [| n]; simpl in Hx, Hy; [contradiction |].
    destruct Hx as [<- | Hx]; [| eauto].
    rewrite Forall_forall in Hz. apply Hz.
    rewrite <- (firstn_skipn n l). apply in_or_app. right. exact Hy.
Qed.

(** C10: getAuditLogs either fails with 500 (the query rejected) or sends
    at most 100 entries, newest first; they are entries of the collection,
    none of those left out is newer than one that is sent, and nothing is
    left out when there are at most 100.  The collection is not changed. *)
Theorem getAuditLogs_newest_100 (env : Env) (db : DB) :
  exists r,
    run getAuditLogs env db = (db, Some r) /\
    match body r with
    | AuditDocs logs =>
        statusCode r = 200 /\
        (List.length logs <= 100)%nat /\
        StronglySorted newerOrSame logs /\
        exists rest,
          Permutation (logs ++ rest) (auditlogs db) /\
          (forall x y, In x logs -> In y rest -> newerOrSame x y) /\
          ((List.length (auditlogs db) <= 100)%nat -> rest = [])
    | _ => statusCode r = 500 /\ fails env (auditctl 25) <> None
    end.
Proof.
  unfold run, getAuditLogs, try_catch, bind, await, send, AuditLog_find_sort_limit.
  destruct (fails env (auditctl 25)) as [e |]; cbn [fst snd].
  - eexists. split; [reflexivity |]. simpl. split; [reflexivity | discriminate].
  - eexists. split; [reflexivity |]. cbn [body statusCode].
    pose proof (sortNewestFirst_sorted (auditlogs db)) as Hs.
    split; [reflexivity |]. split; [apply firstn_le_length |].
    split; [apply firstn_sorted; exact Hs |].
    exists (skipn 100 (sortNewestFirst (auditlogs db))).
    split; [rewrite firstn_skipn; apply sortNewestFirst_perm |].
    split; [apply sorted_firstn_skipn; exact Hs |].
    intros Hlen. apply skipn_all2.
    rewrite (Permutation_length (sortNewestFirst_perm (auditlogs db))). exact Hlen.
Qed.

(** ** Failure responses of issueBook and returnBook *)

Ltac run_goal :=
  cbv beta iota zeta delta
    [bind await await_checked send ret throw try_catch clock asks deref
     getConfig run];
  cbn [fst snd].

Ltac split_goal :=
  match goal with
  | |- context [match ?x with _ => _ end] =>
      lazymatch x with
      | context [match _ with _ => _ end] => fail
      | logAudit ?a ?b ?c ?e ?d => rewrite (logAudit_next a b c e d)
      | _ => destruct x eqn:?
      end
  end.

Ltac answered :=
  first [ congruence
        | eexists; split; [reflexivity |]; unfold failureShape; cbn; tauto ].

(** X1: returnBook always answers, whatever the request, the database and
    the calls that reject: with 200, or with 400, 404 or 500 and a
    message. *)
Lemma returnBook_always_answers (env : Env) (req : ReturnReq) (db : DB) :
  exists r, snd (run (returnBook req) env db) = Some r /\
            (statusCode r = 200 \/ failureShape r).
Proof.
  unfold returnBook. run_goal. repeat (split_goal; run_goal). all: answered.
Qed.

(** X2: issueBook answers with 201, or with 400, 404 or 500 and a message,
    when the request names no copy or the write of its error handler
    (line 75) does not reject. *)
Lemma issueBook_answers (env : Env) (req : IssueReq) (db : DB) :
  given (copyId req) = None \/ fails env (circulation 75) = None ->
  exists r, snd (run (issueBook req) env db) = Some r /\
            (statusCode r = 201 \/ failureShape r).
Proof.
  intros [H | H]; unfold issueBook, issueBook_try, issueBook_catch; run_goal;
    repeat (split_goal; run_goal).
  all: answered.
Qed.

(** C8 fails on the code: when the database is unreachable and the request
    names a copy, the [try] of issueBook throws, the write of the error
    handler throws as well, and no response is sent.  The same request
    without a copy number is answered with 500. *)
Theorem issueBook_rejection_escapes
    (t tz : Z) (defaults : SystemConfig.t) (db : DB)
    (sid : ObjectId) (i : option string) (u : option ObjectId) :
  run (issueBook (mkIssueReq sid i (Some "978-1") u))
      (mkEnv t tz databaseDown defaults) db = (db, None) /\
  run (issueBook (mkIssueReq sid i None u))
      (mkEnv t tz databaseDown defaults) db
    = (db, Some (mkResponse 500 (msg "connection refused"))).
Proof. split; reflexivity. Qed.

(** ** The counters of a book and its copies *)

Lemma countTotal_app b l1 l2 :
  countTotal b (l1 ++ l2) = countTotal b l1 + countTotal b l2.
Proof.
  unfold countTotal, copiesOf. rewrite filter_app, length_app. lia.
Qed.

Lemma countAvailable_app b l1 l2 :
  countAvailable b (l1 ++ l2) = countAvailable b l1 + countAvailable b l2.
Proof.
  unfold countAvailable, copiesOf. rewrite !filter_app, length_app. lia.
Qed.

Lemma countTotal_cons b c l : countTotal b (c :: l) = oneTotal b c + countTotal b l.
Proof.
  unfold countTotal, copiesOf, oneTotal. cbn [filter].
  destruct (N.eqb (BookCopy.book c) b); cbn [Datatypes.length]; lia.
Qed.

Lemma countAvailable_cons b c l :
  countAvailable b (c :: l) = oneAvailable b c + countAvailable b l.
Proof.
  unfold countAvailable, copiesOf, oneAvailable. cbn [filter].
  destruct (N.eqb (BookCopy.book c) b); cbn [filter andb]; [| lia].
  destruct (isAvailable c); cbn [Datatypes.length]; lia.
Qed.

(** The counters of the books when the counts of the copies of book [j]
    move by [dT] and [dA] and the stored counters of [j] move with them. *)
Lemma countersOf_shift (copies copies' : list BookCopy.t) (l : list Book.t)
    (j : ObjectId) (dT dA : Z) :
  (forall b, countTotal b copies' = countTotal b copies + if N.eqb b j then dT else 0) ->
  (forall b, countAvailable b copies'
             = countAvailable b copies + if N.eqb b j then dA else 0) ->
  NoDup (map Book._id l) ->
  Forall (countersOf copies) l ->
  Forall (countersOf copies')
    (fst (updateFirst (fun x => N.eqb (Book._id x) j)
            (fun x => Book.set_counts x (Book.totalCopies x + dT)
                                      (Book.availableCopies x + dA)) l)).
Proof.
  intros HT HA Hnd Hl.
  assert (forall x, Book._id x <> j -> countersOf copies x -> countersOf copies' x) as Hother.
  { intros x Hx [H1 H2]. unfold countersOf. rewrite HT, HA.
    destruct (N.eqb_spec (Book._id x) j); [contradiction | lia]. }
  induction Hl as [| x l Hx Hl IH]; simpl; [constructor |].
  inversion Hnd as [| ? ? Hnotin Hnd']; subst.
  destruct (N.eqb_spec (Book._id x) j) as [E | E]; simpl.
  - constructor.
    + destruct Hx as [H1 H2]. unfold countersOf. simpl. rewrite HT, HA, E, N.eqb_refl.
      rewrite E in H1, H2. lia.
    + rewrite Forall_forall in *. intros y Hy. apply Hother; [| apply Hl; exact Hy].
      intros Ey. apply Hnotin. rewrite E, <- Ey. apply in_map. exact Hy.
  - destruct (updateFirst _ _ l) eqn:Eu. simpl in *. constructor; auto.
Qed.

Lemma countersOf_same (copies copies' : list BookCopy.t) (l : list Book.t) :
  (forall b, In b (map Book._id l) -> countTotal b copies' = countTotal b copies) ->
  (forall b, In b (map Book._id l) -> countAvailable b copies' = countAvailable b copies) ->
  Forall (countersOf copies) l -> Forall (countersOf copies') l.
Proof.
  intros HT HA Hl. rewrite Forall_forall in *. intros x Hx.
  destruct (Hl x Hx) as [H1 H2]. unfold countersOf.
  rewrite HT, HA by (apply in_map; exact Hx). split; assumption.
Qed.



Lemma one_eqb b c :
  oneTotal b c = (if N.eqb b (BookCopy.book c) then 1 else 0) /\
  oneAvailable b c = (if N.eqb b (BookCopy.book c) then available1 c else 0).
Proof.
  unfold oneTotal, oneAvailable, available1. rewrite (N.eqb_sym b).
  destruct (N.eqb (BookCopy.book c) b); simpl; [| split; reflexivity].
  destruct (isAvailable c); split; reflexivity.
Qed.

(** One copy is rewritten and stays with its book. *)
Lemma counts_replace l1 c c' l2 b :
  BookCopy.book c' = BookCopy.book c ->
  countTotal b (l1 ++ c' :: l2)
    = countTotal b (l1 ++ c :: l2) + (if N.eqb b (BookCopy.book c) then 0 else 0) /\
  countAvailable b (l1 ++ c' :: l2)
    = countAvailable b (l1 ++ c :: l2)
      + (if N.eqb b (BookCopy.book c) then available1 c' - available1 c else 0).
Proof.
  intros Hb. rewrite !countTotal_app, !countAvailable_app, !countTotal_cons,
    !countAvailable_cons.
  destruct (one_eqb b c) as [-> ->]. destruct (one_eqb b c') as [-> ->]. rewrite Hb.
  destruct (N.eqb b (BookCopy.book c)); lia.
Qed.

(** One copy is removed. *)
Lemma counts_remove l1 c l2 b :
  countTotal b (l1 ++ l2)
    = countTotal b (l1 ++ c :: l2) + (if N.eqb b (BookCopy.book c) then -1 else 0) /\
  countAvailable b (l1 ++ l2)
    = countAvailable b (l1 ++ c :: l2)
      + (if N.eqb b (BookCopy.book c) then - available1 c else 0).
Proof.
  rewrite !countTotal_app, !countAvailable_app, !countTotal_cons, !countAvailable_cons.
  destruct (one_eqb b c) as [-> ->].
  destruct (N.eqb b (BookCopy.book c)); lia.
Qed.

(** Available copies of book [j] are added. *)
Lemma counts_append l news j b :
  Forall (fun c => BookCopy.book c = j /\ isAvailable c = true) news ->
  countTotal b (l ++ news)
    = countTotal b l + (if N.eqb b j then Z.of_nat (List.length news) else 0) /\
  countAvailable b (l ++ news)
    = countAvailable b l + (if N.eqb b j then Z.of_nat (List.length news) else 0).
Proof.
  intros H. rewrite countTotal_app, countAvailable_app.
  assert (countTotal b news = (if N.eqb b j then Z.of_nat (List.length news) else 0) /\
          countAvailable b news = (if N.eqb b j then Z.of_nat (List.length news) else 0))
    as [-> ->]; [| split; reflexivity].
  induction H as [| c news [Hc Ha] _ [IH1 IH2]].
  - destruct (N.eqb b j); split; reflexivity.
  - rewrite countTotal_cons, countAvailable_cons, IH1, IH2.
    destruct (one_eqb b c) as [-> ->]. unfold available1. rewrite Hc, Ha.
    destruct (N.eqb b j); cbn [Datatypes.length]; lia.
Qed.


(** The invariant after a step that moves the copies of one book [j] and its
    stored counters by the same amounts. *)
Lemma countersOk_step (db db' : DB) (j : ObjectId) (dT dA : Z) :
  (forall b, countTotal b (bookcopies db')
             = countTotal b (bookcopies db) + if N.eqb b j then dT else 0) ->
  (forall b, countAvailable b (bookcopies db')
             = countAvailable b (bookcopies db) + if N.eqb b j then dA else 0) ->
  books db' = fst (updateFirst (fun x => N.eqb (Book._id x) j) (shiftCounts dT dA)
                               (books db)) ->
  uniqueBookIds db -> countersOk db ->
  countersOk db' /\ uniqueBookIds db'.
Proof.
  intros HT HA Hb Hu Hok. unfold countersOk, uniqueBookIds. rewrite Hb. split.
  - apply (countersOf_shift (bookcopies db)); assumption.
  - rewrite map_updateFirst by reflexivity. exact Hu.
Qed.

Lemma shiftCounts_0 x : shiftCounts 0 0 x = x.
Proof. destruct x. unfold shiftCounts, Book.set_counts. simpl. rewrite !Z.add_0_r. reflexivity. Qed.

Lemma updateFirst_id {A} (p : A -> bool) (f : A -> A) l :
  (forall x, f x = x) -> fst (updateFirst p f l) = l.
Proof.
  intros H. induction l as [| x l IH]; simpl; [reflexivity |].
  destruct (p x); simpl; [rewrite H; reflexivity |].
  destruct (updateFirst p f l); simpl in *. congruence.
Qed.

(** The same when no book has the identifier [j], or nothing moves. *)
Lemma countersOk_step_same (db db' : DB) (j : ObjectId) (dT dA : Z) :
  (forall b, countTotal b (bookcopies db')
             = countTotal b (bookcopies db) + if N.eqb b j then dT else 0) ->
  (forall b, countAvailable b (bookcopies db')
             = countAvailable b (bookcopies db) + if N.eqb b j then dA else 0) ->
  books db' = books db ->
  findBook j db = None \/ (dT = 0 /\ dA = 0) ->
  uniqueBookIds db -> countersOk db ->
  countersOk db' /\ uniqueBookIds db'.
Proof.
  intros HT HA Hb Hcase. apply (countersOk_step db db' j dT dA HT HA).
  rewrite Hb. destruct Hcase as [Hnone | [-> ->]].
  - symmetry. apply updateFirst_none. exact Hnone.
  - symmetry. apply updateFirst_id. apply shiftCounts_0.
Qed.

(** X5: with unique book identifiers, a successful issueBook keeps the
    counters of every book in agreement with its copies. *)
Lemma issueBook_keeps_counters env req db db' r :
  run (issueBook req) env db = (db', Some r) -> statusCode r = 201 ->
  uniqueBookIds db -> countersOk db ->
  countersOk db' /\ uniqueBookIds db'.
Proof.
  intros Hrun Hcode.
  destruct (issueBook_success _ _ _ _ _ Hrun Hcode)
    as (student & c & l1 & l2 & _ & Hl & Hst & _ & Hcopies & Hbooks & _).
  apply (countersOk_step db db' (BookCopy.book c) 0 (-1)).
  - intros b. rewrite Hl, Hcopies. apply counts_replace. reflexivity.
  - intros b. rewrite Hl, Hcopies.
    rewrite (proj2 (counts_replace l1 c (BookCopy.set_status "Issued" c) l2 b eq_refl)).
    unfold available1, isAvailable. simpl. rewrite Hst. reflexivity.
  - rewrite Hbooks. apply updateFirst_ext. intros x. unfold shiftCounts, Book.inc_availableCopies.
    rewrite Z.add_0_r. reflexivity.
Qed.

(** X6: with unique book identifiers, a successful returnBook keeps the
    counters of every book in agreement with its copies when no copy with
    the returned number was marked 'Available' before. *)
Lemma returnBook_keeps_counters env req db db' r :
  run (returnBook req) env db = (db', Some r) -> statusCode r = 200 ->
  (forall c, In c (bookcopies db) -> BookCopy.copyNumber c = ret_copyId req ->
             BookCopy.status c <> "Available") ->
  uniqueBookIds db -> countersOk db ->
  countersOk db' /\ uniqueBookIds db'.
Proof.
  intros Hrun Hcode Hnot.
  destruct (returnBook_success _ _ _ _ _ Hrun Hcode)
    as (t & student & c & l1 & l2 & _ & _ & Hl & Hnum & Hcopies & Hbooks & _).
  assert (isAvailable c = false) as Hc.
  { unfold isAvailable. apply String.eqb_neq. apply Hnot; [| exact Hnum].
    rewrite Hl. apply in_elt. }
  apply (countersOk_step db db' (BookCopy.book c) 0 1).
  - intros b. rewrite Hl, Hcopies. apply counts_replace. reflexivity.
  - intros b. rewrite Hl, Hcopies.
    rewrite (proj2 (counts_replace l1 c (BookCopy.set_status "Available" c) l2 b eq_refl)).
    unfold available1. rewrite Hc. reflexivity.
  - rewrite Hbooks. apply updateFirst_ext. intros x. unfold shiftCounts, Book.inc_availableCopies.
    rewrite Z.add_0_r. reflexivity.
Qed.

(** [book.save()] after the counters of the book found under [j] moved. *)
Lemma books_saved db j dT dA bk T A :
  findBook j db = Some bk ->
  T = Book.totalCopies bk + dT -> A = Book.availableCopies bk + dA ->
  fst (updateFirst (fun x => N.eqb (Book._id x) (Book._id bk))
         (fun _ => Book.set_counts bk T A) (books db))
  = fst (updateFirst (fun x => N.eqb (Book._id x) j) (shiftCounts dT dA) (books db)).
Proof.
  intros Hfind -> ->. pose proof (find_some _ _ Hfind) as [_ Hid].
  apply N.eqb_eq in Hid. rewrite Hid.
  apply (updateFirst_saved _ (shiftCounts dT dA)). exact Hfind.
Qed.

(** X7: with unique book identifiers, a successful deleteCopy keeps the
    counters of every book in agreement with its copies: the book of the
    copy loses one from totalCopies, and one from availableCopies when the
    copy was 'Available'. *)
Lemma deleteCopy_keeps_counters env id db db' r :
  run (deleteCopy id) env db = (db', Some r) -> statusCode r = 200 ->
  uniqueBookIds db -> countersOk db ->
  countersOk db' /\ uniqueBookIds db'.
Proof.
  intros H Hcode. unfold deleteCopy in H. invert_run H Hcode.
  all: injection H as <- _.
  all: match goal with
       | Hc : snd (BookCopy_findById _ _) = Some ?c |- _ =>
           simpl in Hc; destruct (removeFirst_found _ _ _ Hc) as (l1 & l2 & Hl & Hrem);
           rename c into copy
       end.
  all: match goal with
       | Hb : snd (Book_findById _ _) = _ |- _ => simpl in Hb
       end.
  all: [> apply (countersOk_step db _ (BookCopy.book copy) (-1) (- available1 copy))
        | apply (countersOk_step db _ (BookCopy.book copy) (-1) (- available1 copy))
        | apply (countersOk_step_same db _ (BookCopy.book copy) (-1) (- available1 copy)) ].
  all: try (intros b; simpl; rewrite Hrem, Hl; apply counts_remove).
  all: try (left; assumption).
  all: try reflexivity.
  all: simpl; apply books_saved; try assumption.
  all: unfold available1, isAvailable;
       try match goal with Hs : String.eqb _ _ = _ |- _ => rewrite Hs end; lia.
Qed.

Lemma BookCopy_save_ok c db u :
  snd (BookCopy_save c db) = inr u ->
  bookcopies (fst (BookCopy_save c db))
  = fst (updateFirst (fun x => N.eqb (BookCopy._id x) (BookCopy._id c)) (fun _ => c)
                     (bookcopies db)) /\
  books (fst (BookCopy_save c db)) = books db.
Proof.
  unfold BookCopy_save. destruct (validStatus (BookCopy.status c)); [| discriminate].
  intros _. split; reflexivity.
Qed.

(** X8: with unique book identifiers, a successful updateCopyStatus keeps
    the counters of every book in agreement with its copies, whatever the
    old and the new status are. *)
Lemma updateCopyStatus_keeps_counters env id st db db' r :
  run (updateCopyStatus id st) env db = (db', Some r) -> statusCode r = 200 ->
  uniqueBookIds db -> countersOk db ->
  countersOk db' /\ uniqueBookIds db'.
Proof.
  intros H Hcode. unfold updateCopyStatus in H. invert_run H Hcode.
  all: injection H as Hdb _.
  all: match goal with
       | Hs : snd (BookCopy_save _ _) = inr _ |- _ =>
           destruct (BookCopy_save_ok _ _ _ Hs) as [Hcopies Hbooks]; clear Hs
       end.
  all: match goal with
       | Hc : snd (BookCopy_findById _ _) = Some ?c |- _ =>
           simpl in Hc; rename c into copy;
           destruct (updateFirst_found _ (fun _ => BookCopy.set_status st copy) _ _ Hc)
             as (l1 & l2 & Hl & Hupd & _);
           pose proof (proj2 (find_some _ _ Hc)) as Hid; apply N.eqb_eq in Hid
       end.
  all: match goal with
       | Hb : snd (Book_findById _ _) = Some ?b |- _ => simpl in Hb; rename b into bk
       end.
  all: simpl in Hcopies, Hbooks; rewrite Hid, Hupd in Hcopies.
  all: subst db'.
  all: intros Hu Hok;
       apply (countersOk_step db _ (BookCopy.book copy) 0
                (available1 (BookCopy.set_status st copy) - available1 copy));
       try assumption.
  all: try (intros b; simpl; rewrite Hcopies, Hl; apply counts_replace; reflexivity).
  all: simpl; rewrite Hbooks.
  3: replace (fun _ : Book.t => bk)
       with (fun _ : Book.t =>
               Book.set_counts bk (Book.totalCopies bk) (Book.availableCopies bk))
       by (destruct bk; reflexivity).
  all: apply books_saved; try assumption; try (simpl; lia).
  all: unfold available1, isAvailable; simpl.
  all: repeat match goal with
       | Hb : andb _ _ = true |- _ => apply andb_prop in Hb; destruct Hb
       | Hb : negb _ = true |- _ => apply negb_true_iff in Hb
       end.
  all: repeat match goal with
       | Hb : String.eqb _ _ = _ |- _ => rewrite Hb in *; clear Hb
       end.
  all: try lia.
  destruct (String.eqb st "Available"), (String.eqb (BookCopy.status copy) "Available");
    simpl in *; try discriminate; lia.
Qed.

Lemma withIds_length id l : List.length (withIds id l) = List.length l.
Proof. revert id. induction l; intros id; simpl; [reflexivity | rewrite IHl; reflexivity]. Qed.

Lemma withIds_available id l j :
  Forall (fun c => nc_book c = j /\ nc_status c = "Available") l ->
  Forall (fun c => BookCopy.book c = j /\ isAvailable c = true) (withIds id l).
Proof.
  intros H. revert id. induction H as [| c l [Hb Hs] _ IH]; intros id; simpl;
    constructor; auto.
  split; [exact Hb |]. unfold isAvailable. simpl. rewrite Hs. reflexivity.
Qed.

Lemma forRange_length {A} from n (f : Z -> A) :
  0 <= n -> Z.of_nat (List.length (forRange from n f)) = n.
Proof.
  intros H. unfold forRange. rewrite length_map, length_seq. apply Z2Nat.id. exact H.
Qed.

Lemma forRange_Forall {A} (P : A -> Prop) from n (f : Z -> A) :
  (forall i, P (f i)) -> Forall P (forRange from n f).
Proof.
  intros H. unfold forRange. apply Forall_forall. intros x Hx.
  apply in_map_iff in Hx. destruct Hx as (k & <- & _). apply H.
Qed.

Lemma insertMany_ok l db u :
  snd (BookCopy_insertMany l db) = inr u ->
  bookcopies (fst (BookCopy_insertMany l db)) = bookcopies db ++ withIds (nextId db) l /\
  books (fst (BookCopy_insertMany l db)) = books db.
Proof.
  unfold BookCopy_insertMany. destruct (find _ l); [discriminate |].
  intros _. split; reflexivity.
Qed.

(** X9: with unique book identifiers, a successful addCopies of a count
    that is not negative keeps the counters of every book in agreement with
    its copies. *)
Lemma addCopies_keeps_counters env req db db' r :
  run (addCopies req) env db = (db', Some r) -> statusCode r = 200 ->
  0 <= ac_count req ->
  uniqueBookIds db -> countersOk db ->
  countersOk db' /\ uniqueBookIds db'.
Proof.
  intros H Hcode Hcount. unfold addCopies in H. invert_run H Hcode.
  pose proof (f_equal fst H) as Hdb; cbn [fst] in Hdb; clear H.
  match goal with
  | Hs : snd (BookCopy_insertMany _ _) = inr _ |- _ =>
      destruct (insertMany_ok _ _ _ Hs) as [Hcopies Hbooks]; clear Hs
  end.
  match goal with
  | Hb : snd (Book_findById _ _) = Some ?b |- _ => simpl in Hb; rename b into bk
  end.
  assert (bookcopies db' = bookcopies db ++ withIds (nextId db)
            (forRange 0 (ac_count req)
               (fun i => mkNewCopy (Book._id bk)
                           (Book.isbn bk ++ "-" ++ show_Z (Book.totalCopies bk + 1 + i))
                           "Available"))) as Hc'
    by (rewrite <- Hdb; exact Hcopies).
  assert (books db' = fst (updateFirst (fun x => N.eqb (Book._id x) (Book._id bk))
                             (fun _ => Book.set_counts bk
                                         (Book.totalCopies bk + ac_count req)
                                         (Book.availableCopies bk + ac_count req))
                             (books db))) as Hb'
    by (rewrite <- Hdb; unfold Book_save; cbn [fst books set_books]; rewrite Hbooks;
        reflexivity).
  clear Hdb Hcopies Hbooks. intros Hu Hok.
  apply (countersOk_step db _ (Book._id bk) (ac_count req) (ac_count req)); try assumption.
  1, 2: intros b; rewrite Hc';
        rewrite <- (forRange_length 0 (ac_count req)
                      (fun i => mkNewCopy (Book._id bk)
                                  (Book.isbn bk ++ "-" ++ show_Z (Book.totalCopies bk + 1 + i))
                                  "Available") Hcount) at 2;
        rewrite <- (withIds_length (nextId db));
        apply counts_append; apply withIds_available; apply forRange_Forall;
        intros i; split; reflexivity.
  rewrite Hb'. apply books_saved; try reflexivity.
  pose proof (proj2 (find_some _ _ Heqo0)) as Hid. apply N.eqb_eq in Hid.
  unfold findBook. rewrite Hid. exact Heqo0.
Qed.

Lemma count_none b l :
  Forall (fun c => BookCopy.book c <> b) l -> countTotal b l = 0 /\ countAvailable b l = 0.
Proof.
  induction 1 as [| c l Hc _ [IH1 IH2]]; [split; reflexivity |].
  rewrite countTotal_cons, countAvailable_cons, IH1, IH2.
  unfold oneTotal, oneAvailable.
  destruct (N.eqb_spec (BookCopy.book c) b); [contradiction | split; reflexivity].
Qed.

(** X10: a successful createBook keeps book identifiers unique and the
    counters of every book in agreement with its copies, when the quantity
    is not negative and the identifier the new book gets is not in use. *)
Lemma createBook_keeps_counters env req db db' r :
  run (createBook req) env db = (db', Some r) -> statusCode r = 201 ->
  0 <= cb_quantity req ->
  Forall (fun b => Book._id b <> nextId db) (books db) ->
  Forall (fun c => BookCopy.book c <> nextId db) (bookcopies db) ->
  uniqueBookIds db -> countersOk db ->
  countersOk db' /\ uniqueBookIds db'.
Proof.
  intros H Hcode Hq Hfresh Hrefs. unfold createBook, new_Book in H. invert_run H Hcode.
  pose proof (f_equal fst H) as Hdb; cbn [fst] in Hdb; clear H.
  match goal with
  | Hs : snd (BookCopy_insertMany _ _) = inr _ |- _ =>
      destruct (insertMany_ok _ _ _ Hs) as [Hcopies Hbooks]; clear Hs
  end.
  rewrite Hdb in Hcopies, Hbooks. simpl in Hcopies, Hbooks. clear Hdb.
  intros Hu Hok. unfold countersOk, uniqueBookIds. rewrite Hbooks, Hcopies.
  set (news := withIds _ _) in *.
  assert (forall b, countTotal b (bookcopies db ++ news)
                    = countTotal b (bookcopies db)
                      + (if N.eqb b (nextId db) then cb_quantity req else 0) /\
                    countAvailable b (bookcopies db ++ news)
                    = countAvailable b (bookcopies db)
                      + (if N.eqb b (nextId db) then cb_quantity req else 0)) as Hcounts.
  { intros b.
    rewrite <- (forRange_length 1 (cb_quantity req)
                  (fun i => mkNewCopy (nextId db) (cb_isbn req ++ "-" ++ show_Z i)
                                      "Available") Hq).
    rewrite <- (withIds_length (N.succ (nextId db))).
    apply counts_append. apply withIds_available. apply forRange_Forall.
    intros i; split; reflexivity. }
  split.
  - apply Forall_app. split.
    + apply (countersOf_same (bookcopies db)); [| | exact Hok].
      * intros b Hb. rewrite (proj1 (Hcounts b)).
        destruct (N.eqb_spec b (nextId db)) as [-> | _]; [| lia].
        apply in_map_iff in Hb. destruct Hb as (x & Hx & Hin).
        rewrite Forall_forall in Hfresh. destruct (Hfresh x Hin Hx).
      * intros b Hb. rewrite (proj2 (Hcounts b)).
        destruct (N.eqb_spec b (nextId db)) as [-> | _]; [| lia].
        apply in_map_iff in Hb. destruct Hb as (x & Hx & Hin).
        rewrite Forall_forall in Hfresh. destruct (Hfresh x Hin Hx).
    + constructor; [| constructor]. unfold countersOf. simpl.
      rewrite (proj1 (Hcounts _)), (proj2 (Hcounts _)), N.eqb_refl.
      destruct (count_none _ _ Hrefs) as [-> ->]. split; reflexivity.
  - rewrite map_app. simpl.
    apply (Permutation.Permutation_NoDup (Permutation.Permutation_cons_append _ _)).
    constructor; [| exact Hu].
    intros Hin. apply in_map_iff in Hin. destruct Hin as (x & Hx & Hin).
    rewrite Forall_forall in Hfresh. exact (Hfresh x Hin Hx).
Qed.

(** C9 fails on the code: after createBook, issueBook and updateCopyStatus
    the counters agree with the copies; the return of the copy, which an
    administrator had marked 'Available', succeeds and leaves the book with
    availableCopies 2 for its single copy. *)
Theorem returnBook_breaks_counters :
  countersOk demoDB /\ countersOk demoCreated /\ countersOk demoIssued /\
  countersOk demoMarked /\
  exists db' r,
    run (returnBook (mkReturnReq "978-1" None)) demoEnv demoMarked = (db', Some r) /\
    statusCode r = 200 /\
    List.length (bookcopies db') = 1%nat /\
    option_map Book.availableCopies (findBook 1%N db') = Some 2 /\
    ~ countersOk db'.
Proof.
  split; [constructor |].
  split; [repeat constructor |].
  split; [repeat constructor |].
  split; [repeat constructor |].
  eexists _, _. split; [vm_compute; reflexivity |].
  split; [reflexivity |]. split; [reflexivity |]. split; [reflexivity |].
  intros H. inversion H as [| b l [_ Havail] _]; subst. discriminate Havail.
Qed.

(** ** The CSV upload, row by row *)

Lemma includes_deptCodes depts d :
  includes (deptCodes depts) (toUpperCase d) = true <-> knownDept depts d.
Proof.
  unfold includes, deptCodes, knownDept. rewrite existsb_exists. split.
  - intros (x & Hin & E). apply in_map_iff in Hin. destruct Hin as (dep & <- & Hdep).
    apply String.eqb_eq in E. exists dep. split; [exact Hdep | congruence].
  - intros (dep & Hdep & E). exists (toUpperCase (Department.code dep)). split.
    + apply in_map_iff. exists dep. split; [reflexivity | exact Hdep].
    + apply String.eqb_eq. congruence.
Qed.

Lemma liftDB_await_ok {A} site (op : DB -> DB * A) env (s : UploadState) :
  fails env site = None ->
  liftDB (await site op) env s = ((fst (op (fst s)), snd s), Next (snd (op (fst s)))).
Proof. intros H. unfold liftDB, await. rewrite H. reflexivity. Qed.

Lemma collectCopies_ok env idx book isbn start indices db cnt :
  fails env (upload idx 181) = None ->
  collectCopies idx book isbn start indices env (db, cnt) =
  ((db, cnt),
   Next (filter (fun c => match snd (BookCopy_findOne (nc_copyNumber c) db) with
                          | None => true | Some _ => false end)
           (map (fun i => mkNewCopy book (isbn ++ "-" ++ show_Z (start + i))%string "Available")
                indices))).
Proof.
  intros H. induction indices as [| i rest IH]; simpl; [reflexivity |].
  unfold bind at 1. rewrite liftDB_await_ok by exact H. simpl fst; simpl snd.
  unfold bind at 1. rewrite IH. unfold ret.
  destruct (find _ (bookcopies db)); reflexivity.
Qed.

Lemma wantedCopies_valid db book isbn start q :
  find (fun c => negb (validStatus (nc_status c))) (wantedCopies db book isbn start q) = None.
Proof.
  unfold wantedCopies, forRange.
  induction (seq 0 (Z.to_nat q)) as [| k l IH]; simpl; [reflexivity |].
  destruct (find _ (bookcopies db)); simpl; exact IH.
Qed.

Lemma updateFirst_last {A} (p : A -> bool) f l x :
  Forall (fun z => p z = false) l -> p x = true ->
  fst (updateFirst p f (l ++ [x])) = l ++ [f x].
Proof.
  intros Hl Hx. induction Hl as [| y l Hy Hl IH]; simpl.
  - rewrite Hx. reflexivity.
  - rewrite Hy. destruct (updateFirst p f (l ++ [x])); simpl in *. congruence.
Qed.

Lemma uploadRow_new env depts idx row db cnt i t d :
  rowISBN row = Some i -> rowTitle row = Some t -> rowDept row = Some d ->
  knownDept depts d ->
  snd (Book_findOne_isbn (Some i) db) = None ->
  (forall line, fails env (upload idx line) = None) ->
  Forall (fun b => Book._id b <> nextId db) (books db) ->
  let copies := wantedCopies db (nextId db) i 1
                  (match rowQuantity row with Some q => q | None => 0 end) in
  let k := Z.of_nat (List.length copies) in
  exists db',
    uploadRow (deptCodes depts) idx row env (db, cnt) =
      ((db', mkCounters (errors cnt) (addedCount cnt + 1) (updatedCount cnt)), Next tt) /\
    books db' = books db ++ [Book.mk (nextId db) t (rowAuthor row) i (toUpperCase d) k k] /\
    bookcopies db' = bookcopies db ++ withIds (N.succ (nextId db)) copies.
Proof.
  intros Hi Ht Hd Hknown Hnew Hok Hfresh copies k.
  unfold uploadRow. unfold rowISBN, rowTitle, rowDept in Hi, Ht, Hd.
  rewrite Hi, Ht, Hd.
  apply includes_deptCodes in Hknown. rewrite Hknown.
  unfold try_catch, saveRow, findOrCreateBook, insertRowCopies.
  unfold bind at 1. unfold bind at 1. rewrite liftDB_await_ok by apply Hok.
  cbn [fst snd]. rewrite Hnew.
  set (b0 := Book.mk (nextId db) t (rowAuthor row) i (toUpperCase d) 0 0).
  set (db1 := set_books (books db ++ [b0]) (bump_nextId db)).
  set (cnt1 := mkCounters (errors cnt) (addedCount cnt + 1) (updatedCount cnt)).
  assert ((book <- liftDB (new_Book t (orElse (CsvRow.Author row) (CsvRow.author row)) i
                             (toUpperCase d) 0 0) ;;
           liftDB (await (upload idx 168) (Book_insert book)) ;;;
           incAdded ;;; ret book) env (fst (Book_findOne_isbn (Some i) db), cnt)
          = ((db1, cnt1), Next b0)) as Hbook.
  { unfold bind, liftDB, new_Book, await. rewrite Hok. reflexivity. }
  rewrite Hbook.
  rewrite (bind_next _ _ _ _ _ _ (collectCopies_ok _ _ _ _ _ _ _ _ (Hok 181%nat))).
  match goal with
  | |- context [Z.of_nat (List.length ?l) >? 0] =>
      replace l with copies
        by (unfold copies, wantedCopies, forRange; rewrite map_map; reflexivity)
  end.
  fold k.
  destruct (Z.gtb_spec k 0) as [Hpos | Hzero].
  - unfold bind, liftDB, await, await_checked. rewrite !Hok.
    assert (BookCopy_insertMany copies db1 =
            (mkDB (systemconfigs db1) (users db1) (departments db1) (books db1)
                  (bookcopies db1 ++ withIds (nextId db1) copies)
                  (transactions db1) (auditlogs db1)
                  (nextId db1 + N.of_nat (List.length copies))%N, inr tt)) as Hins.
    { unfold BookCopy_insertMany. unfold copies at 1. rewrite wantedCopies_valid.
      reflexivity. }
    cbn [fst snd]. rewrite Hins. cbn [fst snd].
    eexists. split; [reflexivity |]. cbn [books bookcopies Book_save set_books fst].
    split.
    + cbn. rewrite updateFirst_last.
      * reflexivity.
      * apply Forall_forall. intros b Hb. rewrite Forall_forall in Hfresh.
        apply N.eqb_neq. apply Hfresh. exact Hb.
      * apply N.eqb_refl.
    + reflexivity.
  - assert (copies = []) as Hnil by (destruct copies; [reflexivity | simpl in k; lia]).
    exists db1. split; [reflexivity |].
    assert (k = 0) as -> by (unfold k; rewrite Hnil; reflexivity).
    rewrite Hnil. simpl. split; [reflexivity | rewrite app_nil_r; reflexivity].
Qed.

Lemma uploadRow_skips env depts idx row db cnt :
  rowISBN row = None \/ rowTitle row = None \/
  (forall d, rowDept row = Some d -> ~ knownDept depts d) ->
  exists e,
    uploadRow (deptCodes depts) idx row env (db, cnt) =
      ((db, mkCounters (errors cnt ++ [e]) (addedCount cnt) (updatedCount cnt)), Next tt).
Proof.
  intros H. unfold uploadRow.
  fold (rowISBN row). fold (rowTitle row). fold (rowDept row).
  destruct (rowISBN row) as [i |]; [| eexists; reflexivity].
  destruct (rowTitle row) as [t |]; [| eexists; reflexivity].
  destruct (rowDept row) as [d |]; [| eexists; reflexivity].
  destruct (includes (deptCodes depts) (toUpperCase d)) eqn:E; [| eexists; reflexivity].
  apply includes_deptCodes in E.
  destruct H as [H | [H | H]]; try discriminate.
  exfalso. exact (H d eq_refl E).
Qed.

Lemma sameCounts_refl s : sameCounts s s.
Proof. split; reflexivity. Qed.

Lemma sameCounts_trans a b c : sameCounts a b -> sameCounts b c -> sameCounts a c.
Proof. unfold sameCounts. intuition congruence. Qed.

Lemma sameCounts_liftDB {A} (m : Handler A) : stable sameCounts (liftDB m).
Proof.
  intros env s. unfold liftDB. destruct (m env (fst s)). split; reflexivity.
Qed.

Lemma sameCounts_pushError e : stable sameCounts (pushError e).
Proof. intros env s. split; reflexivity. Qed.

Lemma sameCounts_rowError i e : stable sameCounts (rowError i e).
Proof.
  unfold rowError. destruct (match err_code e with Some c => c =? 11000 | None => false end);
    apply sameCounts_pushError.
Qed.

Lemma sameCounts_collectCopies idx book isbn start indices :
  stable sameCounts (collectCopies idx book isbn start indices).
Proof.
  pose proof sameCounts_refl. pose proof sameCounts_trans.
  induction indices as [| i rest IH]; simpl.
  - apply stable_ret; assumption.
  - repeat (first [ apply sameCounts_liftDB | exact IH | stable_step ]).
Qed.

Lemma uploadRow_existing env depts idx row db cnt i t d b :
  rowISBN row = Some i -> rowTitle row = Some t -> rowDept row = Some d ->
  knownDept depts d ->
  snd (Book_findOne_isbn (Some i) db) = Some b ->
  fails env (upload idx 152) = None ->
  addedCount (snd (fst (uploadRow (deptCodes depts) idx row env (db, cnt))))
    = addedCount cnt /\
  updatedCount (snd (fst (uploadRow (deptCodes depts) idx row env (db, cnt))))
    = updatedCount cnt + 1.
Proof.
  intros Hi Ht Hd Hknown Hold Hok.
  pose proof sameCounts_refl as Hrefl. pose proof sameCounts_trans as Htrans.
  assert (sameCounts
            (db, mkCounters (errors cnt) (addedCount cnt) (updatedCount cnt + 1))
            (fst (uploadRow (deptCodes depts) idx row env (db, cnt)))) as Hfin.
  { unfold uploadRow. unfold rowISBN, rowTitle, rowDept in Hi, Ht, Hd.
    rewrite Hi, Ht, Hd.
    apply includes_deptCodes in Hknown. rewrite Hknown.
    unfold try_catch, saveRow, findOrCreateBook.
    unfold bind at 1. rewrite (bind_next _ _ _ _ _ _ (liftDB_await_ok _ _ _ _ Hok)).
    cbn [fst snd]. rewrite Hold.
    unfold bind at 1, incUpdated at 1, modify at 1, ret at 1. cbn [fst snd].
    assert (stable sameCounts (insertRowCopies idx b i (rowQuantity row))) as Htail.
    { unfold insertRowCopies.
      repeat (first [ apply sameCounts_liftDB | apply sameCounts_collectCopies
                    | stable_step ]). }
    exact (stable_try_catch sameCounts Htrans _ (rowError i) Htail
             (sameCounts_rowError i) env _). }
  destruct Hfin as [Ha Hu]. split; symmetry; [exact Ha | exact Hu].
Qed.

(** A row never stops the loop: whatever happens, the next row is read. *)
Lemma collectCopies_cases env idx book isbn start indices s :
  (exists l, collectCopies idx book isbn start indices env s = (s, Next l)) \/
  (exists e, collectCopies idx book isbn start indices env s = (s, Threw e)).
Proof.
  destruct s as [db cnt].
  destruct (fails env (upload idx 181)) as [e |] eqn:F.
  - destruct indices as [| i rest]; [left; eexists; reflexivity |].
    right. exists e. simpl. unfold bind, liftDB, await. rewrite F. reflexivity.
  - left. eexists. apply collectCopies_ok. exact F.
Qed.

Ltac upload_goal :=
  cbv beta iota zeta delta
    [bind liftDB await await_checked send ret throw try_catch new_Book
     incAdded incUpdated pushError modify rowError];
  cbn [fst snd].

Lemma uploadRow_goes_on codes idx row env s :
  snd (uploadRow codes idx row env s) = Next tt.
Proof.
  unfold uploadRow.
  destruct (given _) as [i |]; [| reflexivity].
  destruct (given _) as [t |]; [| reflexivity].
  destruct (given _) as [d |]; [| reflexivity].
  destruct (includes codes (toUpperCase d)); [| reflexivity].
  unfold saveRow, findOrCreateBook, insertRowCopies. upload_goal.
  repeat (match goal with
          | |- context [collectCopies ?a ?b ?c ?d ?l env ?st] =>
              destruct (collectCopies_cases env a b c d l st) as [[? ->] | [? ->]]
          | _ => split_goal
          end; upload_goal).
  all: try reflexivity.
  all: try (destruct u; reflexivity).
Qed.

Lemma uploadRows_goes_on codes rows : forall idx env s,
  snd (uploadRows codes idx rows env s) = Next tt.
Proof.
  induction rows as [| row rest IH]; intros idx env s; simpl; [reflexivity |].
  unfold bind. pose proof (uploadRow_goes_on codes idx row env s) as H.
  destruct (uploadRow codes idx row env s) as [s' st]. simpl in H. subst st.
  apply IH.
Qed.

(** The response of the upload reports the counters the loop ends with. *)
Lemma uploadBookCSV_answers env rows db :
  fails env (bookctl 121) = None ->
  let s' := fst (uploadRows (deptCodes (departments db)) 0 rows env
                            (db, mkCounters [] 0 0)) in
  run (uploadBookCSV (Some rows)) env db =
    (fst s',
     Some (mkResponse 200
             (Obj [("message", VStr "Process Complete");
                   ("added", VNum (addedCount (snd s')));
                   ("updated", VNum (updatedCount (snd s')));
                   ("errors", VStrs (errors (snd s')))]))).
Proof.
  intros H s'. unfold run, uploadBookCSV, uploadBody, bind, liftDB, await.
  rewrite H. cbn [fst snd Department_find].
  fold (deptCodes (departments db)).
  pose proof (uploadRows_goes_on (deptCodes (departments db)) rows 0%nat env
                (db, mkCounters [] 0 0)) as Hgo.
  subst s'.
  destruct (uploadRows (deptCodes (departments db)) 0 rows env (db, mkCounters [] 0 0))
    as [[db' cnt] st].
  simpl in Hgo. subst st. reflexivity.
Qed.

(** C7: in the loop of the CSV upload, a row without ISBN or title, or whose
    department is missing or is not the code of an existing department up to
    the case of letters, only adds one message to the errors: database and
    counts stay.  A row that passes, for an ISBN no book has, adds the book
    (department in upper case) and the wanted copies whose numbers are free,
    all 'Available', and adds 1 to the count of added books, when no call
    rejects.  A row that passes, for an ISBN some book has, adds 1 to the
    count of updated books. *)
Theorem uploadRow_validation (env : Env) (depts : list Department.t) (idx : nat)
    (row : CsvRow.t) (db : DB) (cnt : Counters) :
  (rowISBN row = None \/ rowTitle row = None \/
   (forall d, rowDept row = Some d -> ~ knownDept depts d) ->
   exists e,
     uploadRow (deptCodes depts) idx row env (db, cnt) =
       ((db, mkCounters (errors cnt ++ [e]) (addedCount cnt) (updatedCount cnt)),
        Next tt))
  /\
  (forall i t d,
     rowISBN row = Some i -> rowTitle row = Some t -> rowDept row = Some d ->
     knownDept depts d ->
     (snd (Book_findOne_isbn (Some i) db) = None ->
      (forall line, fails env (upload idx line) = None) ->
      Forall (fun b => Book._id b <> nextId db) (books db) ->
      let copies := wantedCopies db (nextId db) i 1
                      (match rowQuantity row with Some q => q | None => 0 end) in
      let k := Z.of_nat (List.length copies) in
      exists db',
        uploadRow (deptCodes depts) idx row env (db, cnt) =
          ((db', mkCounters (errors cnt) (addedCount cnt + 1) (updatedCount cnt)),
           Next tt) /\
        books db' =
          books db ++ [Book.mk (nextId db) t (rowAuthor row) i (toUpperCase d) k k] /\
        bookcopies db' = bookcopies db ++ withIds (N.succ (nextId db)) copies)
     /\
     (forall b,
        snd (Book_findOne_isbn (Some i) db) = Some b ->
        fails env (upload idx 152) = None ->
        addedCount (snd (fst (uploadRow (deptCodes depts) idx row env (db, cnt))))
          = addedCount cnt /\
        updatedCount (snd (fst (uploadRow (deptCodes depts) idx row env (db, cnt))))
          = updatedCount cnt + 1)).
Proof.
  split; [apply uploadRow_skips |].
  intros i t d Hi Ht Hd Hknown. split.
  - intros Hnew Hok Hfresh. apply uploadRow_new; assumption.
  - intros b Hold Hok. apply (uploadRow_existing env depts idx row db cnt i t d b);
      assumption.
Qed.

(** ** Requests that are refused *)

Lemma updateFirst_unmatched {A} (p : A -> bool) f l :
  snd (updateFirst p f l) = None -> fst (updateFirst p f l) = l.
Proof.
  intros H. pose proof (updateFirst_split p f l) as Hs. rewrite H in Hs. apply Hs.
Qed.

(** The run in [H] sent nothing, or not one of the two statuses of [Hcode]. *)
Ltac refused_in H Hcode :=
  solve [ discriminate H
        | injection H as _ <-; destruct Hcode as [Hcode | Hcode]; discriminate Hcode ].

Ltac invert_refusal H Hcode :=
  run_in H; repeat (split_inner H; run_in H; try refused_in H Hcode).

(** X3: an issue that is answered with 400 or 404 (student not found or
    blocked, limit reached, copy or title not available) leaves every book,
    every copy and every transaction as it was. *)
Theorem issueBook_refusal_changes_nothing env req db db' r :
  run (issueBook req) env db = (db', Some r) ->
  statusCode r = 400 \/ statusCode r = 404 ->
  sameHoldings db db'.
Proof.
  intros H Hcode. unfold issueBook, issueBook_try, issueBook_catch in H.
  invert_refusal H Hcode.
  all: injection H as <- _.
  all: repeat split; simpl; try reflexivity.
  all: symmetry; apply updateFirst_unmatched; assumption.
Qed.

(** X4: a return that is answered with 400 or 404 found no 'Issued'
    transaction for the copy number and leaves books, copies and transactions
    as they were; the answer is 400 exactly when a copy with the number
    exists and is 'Available', and 404 otherwise. *)
Theorem returnBook_refusal_changes_nothing env req db db' r :
  run (returnBook req) env db = (db', Some r) ->
  statusCode r = 400 \/ statusCode r = 404 ->
  activeIssue (ret_copyId req) db = None /\ sameHoldings db db' /\
  (statusCode r = 400 <->
   exists c, snd (BookCopy_findOne (ret_copyId req) db) = Some c /\
             BookCopy.status c = "Available").
Proof.
  intros H Hcode. unfold returnBook in H.
  invert_refusal H Hcode.
  all: injection H as <- <-.
  all: match goal with
       | Hq : snd (Transaction_findOne_populate _ _) = None |- _ =>
           unfold Transaction_findOne_populate in Hq; simpl in Hq;
           fold (activeIssue (ret_copyId req) db) in Hq;
           destruct (activeIssue (ret_copyId req) db) eqn:Hact; [discriminate Hq |]
       end.
  all: split; [reflexivity |]; split; [repeat split |].
  all: simpl in *; split; intros Hx; try discriminate Hx; try reflexivity.
  all: try (eexists; split; [eassumption | apply String.eqb_eq; assumption]).
  all: match goal with Hf : find _ _ = _ |- _ => rewrite Hf in Hx end.
  all: destruct Hx as (c & Hc & Hs).
  all: try discriminate Hc.
  all: injection Hc as <-.
  all: match goal with
       | Hb : String.eqb _ _ = false |- _ => rewrite Hs in Hb; discriminate Hb
       end.
Qed.

(** X13: the refusals of the catalogue handlers change nothing in the
    database: createBook answers 400 only for an unknown department or an
    ISBN some book has; addCopies answers 404 only when no book has the
    identifier; deleteCopy and updateCopyStatus answer 404 only when no copy
    has the identifier. *)
Theorem catalogue_refusals_change_nothing env db db' r :
  (forall req, run (createBook req) env db = (db', Some r) -> statusCode r = 400 ->
     db' = db /\
     (snd (Department_findOne (cb_department req) db) = None \/
      exists b, snd (Book_findOne_isbn (Some (cb_isbn req)) db) = Some b)) /\
  (forall req, run (addCopies req) env db = (db', Some r) -> statusCode r = 404 ->
     db' = db /\ findBook (ac_bookId req) db = None) /\
  (forall id, run (deleteCopy id) env db = (db', Some r) -> statusCode r = 404 ->
     db' = db /\ snd (BookCopy_findById id db) = None) /\
  (forall id st, run (updateCopyStatus id st) env db = (db', Some r) ->
     statusCode r = 404 ->
     db' = db /\ snd (BookCopy_findById id db) = None).
Proof.
  repeat split; intros.
  all: match goal with
       | H : run _ _ _ = _, Hcode : statusCode _ = _ |- _ =>
           unfold createBook, new_Book, addCopies, deleteCopy, updateCopyStatus in H;
           invert_run H Hcode; injection H as <- _
       end.
  all: try reflexivity; try assumption.
  all: try (left; assumption).
  all: try (left; reflexivity).
  all: try (right; eexists; eassumption).
Qed.

(** ** When a database call of issueBook or returnBook rejects *)

(** X14: the error handler of issueBook does not know whether the request
    had taken the copy.  When the first database call of an issue that names
    a copy rejects, the copy with that number is set to 'Available' whatever
    its status was, and the answer is 500; books and transactions stay, so a
    copy that is out on loan is 'Available' again while its transaction is
    still 'Issued'. *)
Theorem issueBook_failure_frees_a_lent_copy env req db n e c :
  given (copyId req) = Some n ->
  fails env (circulation 15) = Some e -> fails env (circulation 75) = None ->
  snd (BookCopy_findOne n db) = Some c ->
  exists db' l1 l2,
    run (issueBook req) env db = (db', Some (mkResponse 500 (msg (message e)))) /\
    bookcopies db = l1 ++ c :: l2 /\
    bookcopies db' = l1 ++ BookCopy.set_status "Available" c :: l2 /\
    books db' = books db /\ transactions db' = transactions db /\
    activeIssue n db' = activeIssue n db.
Proof.
  intros Hn H15 H75 Hc. cbn [BookCopy_findOne snd] in Hc.
  destruct (updateFirst_found _ (BookCopy.set_status "Available") _ _ Hc)
    as (l1 & l2 & Hl & Hupd & _).
  eexists _, l1, l2. split.
  - unfold run, issueBook, try_catch, issueBook_try, getConfig.
    unfold bind at 1. unfold bind at 1. unfold await at 1. rewrite H15.
    unfold issueBook_catch. rewrite Hn. unfold bind, await, send, ret. rewrite H75.
    cbn [fst snd]. reflexivity.
  - cbn [BookCopy_findOneAndUpdate fst bookcopies books transactions set_bookcopies].
    unfold activeIssue. cbn [transactions set_bookcopies].
    repeat split; assumption.
Qed.

(** X15: returnBook saves the transaction before it looks for the copy.
    When an 'Issued' transaction exists for the copy number but no copy has
    it (the copy was deleted while on loan), the answer is 500 with the
    TypeError of [copy.book], and yet the transaction is stored as
    'Returned'; books and copies stay. *)
Theorem returnBook_without_copy env req db t :
  fails env (circulation 87) = None -> fails env (circulation 88) = None ->
  fails env (circulation 90) = None -> fails env (circulation 117) = None ->
  fails env (circulation 119) = None -> fails env (circulation 121) = None ->
  activeIssue (ret_copyId req) db = Some t ->
  snd (BookCopy_findOne (ret_copyId req) db) = None ->
  exists db' t',
    run (returnBook req) env db
      = (db', Some (mkResponse 500 (msg (message (TypeError "book"))))) /\
    findTransaction (Transaction._id t) db' = Some t' /\
    Transaction.status t' = "Returned" /\
    books db' = books db /\ bookcopies db' = bookcopies db.
Proof.
  intros H87 H88 H90 H117 H119 H121 Hact Hnone.
  destruct (ensureConfig_frame env db) as (Hu & Hb & Hc & Ht & _).
  pose proof (returnBook_transactions env req db t H87 H88 H90 H117 Hact) as Hsaved.
  cbv zeta in Hsaved.
  remember (run (returnBook req) env db) as out eqn:Hout.
  unfold run, returnBook, try_catch in Hout.
  rewrite (bind_next _ _ _ _ _ _ (getConfig_ok _ _ _ _ H87 H88)) in Hout.
  rewrite (bind_next _ _ _ _ _ _ (await_ok _ _ _ _ H90)) in Hout.
  unfold Transaction_findOne_populate at 1 2 in Hout. cbn [fst snd] in Hout.
  unfold activeIssue in Hact. rewrite Ht, Hact in Hout.
  unfold bind at 1, clock at 1 in Hout. unfold bind at 1, asks at 1 in Hout.
  rewrite (bind_next _ _ _ _ _ _ (await_ok _ _ _ _ H117)) in Hout.
  rewrite (bind_next _ _ _ _ _ _ (await_ok _ _ _ _ H119)) in Hout.
  rewrite (bind_next _ _ _ _ _ _ (await_ok _ _ _ _ H121)) in Hout.
  cbn [BookCopy_findOne BookCopy_findOneAndUpdate Transaction_save fst snd
       bookcopies set_bookcopies set_transactions] in Hout.
  cbn [BookCopy_findOne snd] in Hnone. rewrite Hc in Hout.
  rewrite (updateFirst_none (hasNumber (ret_copyId req))) in Hout by exact Hnone.
  rewrite Hnone in Hout.
  unfold bind at 1, deref at 1, throw at 1, send in Hout. cbn [fst snd] in Hout.
  subst out. cbn [fst] in Hsaved.
  eexists _, _. split; [reflexivity |].
  split; [exact Hsaved |]. split; [reflexivity |].
  cbn [books bookcopies set_bookcopies set_transactions].
  split; [exact Hb | reflexivity].
Qed.

(** ** An issue followed by the return of the copy *)




(** ** What createBook and addCopies store *)

Lemma forRange_map {A B} (g : A -> B) from n (f : Z -> A) :
  map g (forRange from n f) = forRange from n (fun i => g (f i)).
Proof. unfold forRange. rewrite map_map. reflexivity. Qed.

Lemma withIds_numbers id l :
  map BookCopy.copyNumber (withIds id l) = map nc_copyNumber l.
Proof.
  revert id. induction l as [| c l IH]; intros id; simpl; [| rewrite IH]; reflexivity.
Qed.

Lemma withIds_fields id l j :
  Forall (fun c => nc_book c = j /\ nc_status c = "Available") l ->
  Forall (fun c => BookCopy.book c = j /\ BookCopy.status c = "Available") (withIds id l).
Proof.
  intros H. revert id. induction H as [| c l Hc _ IH]; intros id; simpl;
    constructor; auto.
Qed.

(** X16: a createBook that answers 201 found the department and no book
    with the ISBN; it appends one book, whose two counters are the quantity
    of the request, and the copies numbered ISBN-1, ISBN-2, ... up to the
    quantity, all 'Available' and all of the new book; the response is the
    new book. *)
Theorem createBook_makes_the_copies env req db db' r :
  run (createBook req) env db = (db', Some r) -> statusCode r = 201 ->
  let b := Book.mk (nextId db) (cb_title req) (cb_author req) (cb_isbn req)
             (cb_department req) (cb_quantity req) (cb_quantity req) in
  body r = BookDoc b /\
  snd (Department_findOne (cb_department req) db) <> None /\
  snd (Book_findOne_isbn (Some (cb_isbn req)) db) = None /\
  books db' = books db ++ [b] /\
  transactions db' = transactions db /\
  exists news,
    bookcopies db' = bookcopies db ++ news /\
    map BookCopy.copyNumber news
      = forRange 1 (cb_quantity req) (fun i => cb_isbn req ++ "-" ++ show_Z i)%string /\
    Forall (fun c => BookCopy.book c = nextId db /\ BookCopy.status c = "Available") news.
Proof.
  intros H Hcode b. unfold createBook, new_Book in H. invert_run H Hcode.
  pose proof (f_equal fst H) as Hdb. pose proof (f_equal snd H) as Hr.
  cbn [fst snd] in Hdb, Hr. injection Hr as Hr. clear H.
  match goal with
  | Hs : snd (BookCopy_insertMany _ _) = inr _ |- _ =>
      destruct (insertMany_ok _ _ _ Hs) as [Hcopies Hbooks];
      unfold BookCopy_insertMany in Hdb, Hs;
      destruct (find _ _); [discriminate Hs |]; clear Hs
  end.
  subst db' r.
  split; [reflexivity |].
  split; [discriminate |].
  split; [match goal with
          | Hi : snd (Book_findOne_isbn _ _) = None |- _ => exact Hi
          end |].
  cbn [fst bookcopies books transactions Book_insert set_books bump_nextId body
       snd nextId].
  split; [reflexivity |]. split; [reflexivity |].
  eexists. split; [reflexivity |]. split.
  - rewrite withIds_numbers, forRange_map. reflexivity.
  - apply withIds_fields. apply forRange_Forall. intros i. split; reflexivity.
Qed.

(** X17: an addCopies that answers 200 appends [count] copies of the book,
    all 'Available', numbered on from the book's totalCopies + 1 (from the
    stored counter, not from the copies that exist), and adds [count] to both
    counters of the book. *)
Theorem addCopies_continues_the_numbering env req db db' r :
  run (addCopies req) env db = (db', Some r) -> statusCode r = 200 ->
  exists bk news,
    findBook (ac_bookId req) db = Some bk /\
    body r = msg (show_Z (ac_count req) ++ " Copies Added") /\
    bookcopies db' = bookcopies db ++ news /\
    map BookCopy.copyNumber news
      = forRange 0 (ac_count req)
          (fun i => Book.isbn bk ++ "-" ++ show_Z (Book.totalCopies bk + 1 + i))%string /\
    Forall (fun c => BookCopy.book c = ac_bookId req /\ BookCopy.status c = "Available")
           news /\
    (forall b', findBook (ac_bookId req) db' = Some b' ->
       Book.totalCopies b' = Book.totalCopies bk + ac_count req /\
       Book.availableCopies b' = Book.availableCopies bk + ac_count req) /\
    transactions db' = transactions db.
Proof.
  intros H Hcode. unfold addCopies in H. invert_run H Hcode.
  pose proof (f_equal fst H) as Hdb. pose proof (f_equal snd H) as Hr.
  cbn [fst snd] in Hdb, Hr. injection Hr as Hr. clear H.
  match goal with
  | Hs : snd (BookCopy_insertMany _ _) = inr _ |- _ =>
      unfold BookCopy_insertMany in Hdb, Hs;
      destruct (find _ _); [discriminate Hs |]; clear Hs
  end.
  match goal with
  | Hb : snd (Book_findById _ _) = Some ?b |- _ =>
      cbn [Book_findById snd] in Hb; rename b into bk;
      pose proof (proj2 (find_some _ _ Hb)) as Hid; apply N.eqb_eq in Hid
  end.
  subst db' r. exists bk. eexists.
  cbn [fst bookcopies books transactions Book_save Book_findById set_books body].
  split; [assumption |]. split; [reflexivity |]. split; [reflexivity |].
  split; [rewrite withIds_numbers, forRange_map; reflexivity |].
  split.
  { apply withIds_fields. apply forRange_Forall. intros i. split; [exact Hid | reflexivity]. }
  split; [| reflexivity].
  intros b' Hb'. unfold findBook in Hb'. cbn [books set_books Book.set_counts Book._id] in Hb'.
  rewrite Hid in Hb'. rewrite find_updateFirst_const in Hb' by (cbn; rewrite Hid; apply N.eqb_refl).
  destruct (find _ (books db)); [| discriminate Hb'].
  injection Hb' as <-. split; reflexivity.
Qed.

(** ** Deleting books *)

Lemma copiesOf_filter_kept (q : BookCopy.t -> bool) b l :
  (forall c, BookCopy.book c = b -> q c = true) ->
  copiesOf b (filter q l) = copiesOf b l.
Proof.
  intros Hq. unfold copiesOf. induction l as [| c l IH]; simpl; [reflexivity |].
  destruct (N.eqb_spec (BookCopy.book c) b) as [E | E].
  - rewrite (Hq c E). simpl. destruct (N.eqb_spec (BookCopy.book c) b); [| contradiction].
    rewrite IH. reflexivity.
  - destruct (q c); simpl; [| exact IH].
    destruct (N.eqb_spec (BookCopy.book c) b); [contradiction | exact IH].
Qed.

Lemma copiesOf_filter_gone (q : BookCopy.t -> bool) b l :
  (forall c, BookCopy.book c = b -> q c = false) ->
  copiesOf b (filter q l) = [].
Proof.
  intros Hq. unfold copiesOf. induction l as [| c l IH]; simpl; [reflexivity |].
  destruct (q c) eqn:Hc; simpl; [| exact IH].
  destruct (N.eqb_spec (BookCopy.book c) b) as [E | E]; [| exact IH].
  rewrite (Hq c E) in Hc. discriminate.
Qed.

Lemma counts_of_copies b l l' :
  copiesOf b l' = copiesOf b l ->
  countTotal b l' = countTotal b l /\ countAvailable b l' = countAvailable b l.
Proof. intros H. unfold countTotal, countAvailable. rewrite H. split; reflexivity. Qed.

Lemma removeFirst_In {A} (p : A -> bool) l x : In x (removeFirst p l) -> In x l.
Proof.
  induction l as [| y l IH]; simpl; [tauto |].
  destruct (p y); simpl; [tauto |]. intros [-> | H]; auto.
Qed.

Section RemoveFirst.
Context {A : Type} (key : A -> N).

Lemma removeFirst_key_gone j l :
  NoDup (map key l) ->
  Forall (fun x => key x <> j) (removeFirst (fun x => N.eqb (key x) j) l).
Proof.
  induction l as [| y l IH]; simpl; intros Hnd; [constructor |].
  inversion Hnd as [| ? ? Hnotin Hnd']; subst.
  destruct (N.eqb_spec (key y) j) as [E | E].
  - apply Forall_forall. intros x Hx Ex. apply Hnotin. rewrite E, <- Ex.
    apply in_map. exact Hx.
  - constructor; [exact E | apply IH; exact Hnd'].
Qed.

Lemma find_removeFirst_other j k l :
  k <> j ->
  find (fun x => N.eqb (key x) k) (removeFirst (fun x => N.eqb (key x) j) l)
  = find (fun x => N.eqb (key x) k) l.
Proof.
  intros Hkj. induction l as [| y l IH]; simpl; [reflexivity |].
  destruct (N.eqb_spec (key y) j) as [E | E]; simpl.
  - destruct (N.eqb_spec (key y) k); [congruence | reflexivity].
  - destruct (N.eqb (key y) k); [reflexivity | exact IH].
Qed.

Lemma removeFirst_NoDup j l :
  NoDup (map key l) -> NoDup (map key (removeFirst (fun x => N.eqb (key x) j) l)).
Proof.
  induction l as [| y l IH]; simpl; intros Hnd; [constructor |].
  inversion Hnd as [| ? ? Hnotin Hnd']; subst.
  destruct (N.eqb (key y) j); [exact Hnd' |]. simpl. constructor; [| auto].
  intros Hin. apply Hnotin. apply in_map_iff in Hin. destruct Hin as (x & Hx & Hin).
  apply in_map_iff. exists x. split; [exact Hx | eapply removeFirst_In; exact Hin].
Qed.
End RemoveFirst.

Lemma find_none_Forall {A} (p : A -> bool) l :
  Forall (fun x => p x = false) l -> find p l = None.
Proof.
  induction 1 as [| x l Hx _ IH]; simpl; [reflexivity |]. rewrite Hx. exact IH.
Qed.

(** X18: a deleteBook that answers 200 has removed every copy of the book
    and touched no copy of another book, no other book and no transaction
    (the transactions of the deleted copies stay as they are).  With unique
    book identifiers the book is gone and the counters of the remaining books
    still agree with their copies. *)
Theorem deleteBook_cascade env id db db' r :
  run (deleteBook id) env db = (db', Some r) -> statusCode r = 200 ->
  copiesOf id (bookcopies db') = [] /\
  (forall b, b <> id -> copiesOf b (bookcopies db') = copiesOf b (bookcopies db) /\
                        findBook b db' = findBook b db) /\
  transactions db' = transactions db /\
  (uniqueBookIds db ->
   findBook id db' = None /\ uniqueBookIds db' /\ (countersOk db -> countersOk db')).
Proof.
  intros H Hcode. unfold deleteBook in H. invert_run H Hcode.
  injection H as <- _. cbn.
  split; [apply copiesOf_filter_gone; intros c ->; rewrite N.eqb_refl; reflexivity |].
  split.
  { intros b Hb. split.
    - apply copiesOf_filter_kept. intros c Hc. rewrite Hc.
      destruct (N.eqb_spec b id); [contradiction | reflexivity].
    - unfold findBook. cbn. apply (find_removeFirst_other Book._id). exact Hb. }
  split; [reflexivity |].
  intros Hu. unfold findBook, uniqueBookIds, countersOk. cbn.
  pose proof (removeFirst_key_gone Book._id id (books db) Hu) as Hgone.
  split.
  { apply find_none_Forall. eapply Forall_impl; [| exact Hgone].
    intros x Hx. apply N.eqb_neq. exact Hx. }
  split; [apply removeFirst_NoDup; exact Hu |].
  intros Hok. rewrite Forall_forall in *. intros x Hx.
  specialize (Hgone x Hx). apply removeFirst_In in Hx. destruct (Hok x Hx) as [H1 H2].
  unfold countersOf.
  destruct (counts_of_copies (Book._id x) (bookcopies db)
              (filter (fun c => negb (N.eqb (BookCopy.book c) id)) (bookcopies db)))
    as [-> ->]; [| split; assumption].
  apply copiesOf_filter_kept. intros c Hc. rewrite Hc.
  destruct (N.eqb_spec (Book._id x) id); [contradiction | reflexivity].
Qed.

Lemma inIds_In ids id : inIds ids id = true <-> In id ids.
Proof.
  unfold inIds. rewrite existsb_exists. split.
  - intros (x & Hx & E). apply N.eqb_eq in E. subst. exact Hx.
  - intros H. exists id. split; [exact H | apply N.eqb_refl].
Qed.

(** X19: bulkDeleteBooks answers 400 only for a missing or empty list, and
    then changes nothing.  When it answers 200, no listed book and no copy of
    a listed book is left, the other books and their copies are as before,
    transactions are untouched, the counters of the remaining books still
    agree with their copies, and the message reports the length of the list,
    whether or not the identifiers were those of books. *)
Theorem bulkDeleteBooks_cascade env ids db db' r :
  run (bulkDeleteBooks ids) env db = (db', Some r) ->
  (statusCode r = 400 -> db' = db /\ (ids = None \/ ids = Some [])) /\
  (statusCode r = 200 ->
   exists l, ids = Some l /\ l <> [] /\
     body r = msg (show_Z (Z.of_nat (List.length l)) ++ " books and their copies deleted.") /\
     (forall b, In b l -> findBook b db' = None /\ copiesOf b (bookcopies db') = []) /\
     (forall b, ~ In b l -> findBook b db' = findBook b db /\
                            copiesOf b (bookcopies db') = copiesOf b (bookcopies db)) /\
     transactions db' = transactions db /\
     (countersOk db -> countersOk db')).
Proof.
  intros H. unfold bulkDeleteBooks in H. destruct ids as [[| o l0] |].
  1, 3: split; intros Hcode; run_in H; try done_in H Hcode;
        injection H as <- _; split; auto.
  assert (o :: l0 <> []) as Hne by discriminate.
  remember (o :: l0) as l eqn:El. clear El. split; intros Hcode.
  { invert_run H Hcode. }
  invert_run H Hcode.
  pose proof (f_equal fst H) as Hdb. pose proof (f_equal snd H) as Hr.
  cbn [fst snd] in Hdb, Hr. injection Hr as Hr. clear H. subst db' r.
  exists l. split; [reflexivity |]. split; [exact Hne |].
  split; [reflexivity |].
  cbn [bookcopies books transactions fst
      BookCopy_deleteMany Book_deleteMany set_bookcopies set_books].
    split; [| split; [| split; [reflexivity |]]].
    + intros b Hb. apply inIds_In in Hb. split.
      * unfold findBook. cbn [books set_books set_bookcopies]. apply find_none_Forall. apply Forall_forall.
        intros x Hx. apply filter_In in Hx. destruct Hx as [_ Hx].
        destruct (N.eqb_spec (Book._id x) b) as [E |]; [| reflexivity].
        rewrite E, Hb in Hx. discriminate.
      * apply copiesOf_filter_gone. intros c ->. rewrite Hb. reflexivity.
    + intros b Hb. assert (inIds l b = false) as Hb'.
      { destruct (inIds l b) eqn:E; [| reflexivity]. apply inIds_In in E. contradiction. }
      split.
      * unfold findBook. cbn [books set_books set_bookcopies]. induction (books db) as [| x bs IH]; [reflexivity |].
        cbn [filter find]. destruct (N.eqb_spec (Book._id x) b) as [E | E].
        -- rewrite E, Hb'. cbn [negb find]. rewrite E, N.eqb_refl. reflexivity.
        -- destruct (negb (inIds l (Book._id x))); [| exact IH].
           cbn [find]. destruct (N.eqb_spec (Book._id x) b); [contradiction | exact IH].
      * apply copiesOf_filter_kept. intros c ->. rewrite Hb'. reflexivity.
    + unfold countersOk. cbn [bookcopies books set_books set_bookcopies]. intros Hok.
      rewrite Forall_forall in *. intros x Hx. apply filter_In in Hx.
      destruct Hx as [Hx Hnot]. apply negb_true_iff in Hnot.
      destruct (Hok x Hx) as [H1 H2]. unfold countersOf.
      destruct (counts_of_copies (Book._id x) (bookcopies db)
              (filter (fun c => negb (inIds l (BookCopy.book c))) (bookcopies db)))
        as [-> ->]; [| split; assumption].
      apply copiesOf_filter_kept. intros c ->. rewrite Hnot. reflexivity.
Qed.

(** ** Listing the copies of a book and the unpaid fines *)

(** X20: getBookCopies changes nothing; it fails with 500 when the query
    rejects and otherwise sends exactly the copies of the book, so that for a
    book whose counters agree with its copies the list has totalCopies
    entries, availableCopies of them 'Available'. *)
Theorem getBookCopies_lists_the_copies env id db :
  exists out,
    reply (getBookCopies id) env db = (db, out) /\
    match out with
    | Json l =>
        fails env (bookctl 223) = None /\
        (forall c, In c l <-> In c (bookcopies db) /\ BookCopy.book c = id) /\
        (forall b, countersOk db -> findBook id db = Some b ->
           Z.of_nat (List.length l) = Book.totalCopies b /\
           Z.of_nat (List.length (filter isAvailable l)) = Book.availableCopies b)
    | Failed r => statusCode r = 500 /\ fails env (bookctl 223) <> None
    | Silent => False
    end.
Proof.
  unfold reply, getBookCopies, try_catch, await, send, BookCopy_find_book.
  destruct (fails env (bookctl 223)) as [e |]; cbn [fst snd].
  - eexists. split; [reflexivity |]. split; [reflexivity | discriminate].
  - eexists. split; [reflexivity |]. split; [reflexivity |]. split.
    + intros c. rewrite filter_In. split; intros [H1 H2]; split; auto;
        apply N.eqb_eq; assumption.
    + intros b Hok Hb. unfold findBook in Hb. pose proof (find_some _ _ Hb) as [Hin Hid].
      apply N.eqb_eq in Hid. unfold countersOk in Hok. rewrite Forall_forall in Hok.
      destruct (Hok b Hin) as [H1 H2]. rewrite Hid in H1, H2.
      rewrite H1, H2. split; reflexivity.
Qed.

Lemma insertByDueDate_perm x l : Permutation (insertByDueDate x l) (x :: l).
Proof.
  induction l as [| y l IH]; simpl; [reflexivity |].
  destruct (Transaction.dueDate y <? Transaction.dueDate x); [| reflexivity].
  rewrite IH. apply perm_swap.
Qed.

Lemma sortByDueDate_perm l : Permutation (sortByDueDate l) l.
Proof.
  induction l as [| x l IH]; simpl; [reflexivity |].
  rewrite insertByDueDate_perm. constructor. exact IH.
Qed.

Lemma insertByDueDate_sorted x l :
  StronglySorted dueBefore l -> StronglySorted dueBefore (insertByDueDate x l).
Proof.
  induction 1 as [| y l Hl IH Hy]; simpl; [repeat constructor |].
  destruct (Z.ltb_spec (Transaction.dueDate y) (Transaction.dueDate x)) as [Hlt | Hge].
  - constructor; [exact IH |].
    rewrite Forall_forall in *. intros z Hz.
    apply (Permutation_in _ (insertByDueDate_perm x l)) in Hz.
    destruct Hz as [<- | Hz]; [unfold dueBefore; lia | auto].
  - constructor; [constructor; assumption |].
    constructor; [exact Hge |].
    rewrite Forall_forall in *. intros z Hz. specialize (Hy z Hz).
    unfold dueBefore in *. lia.
Qed.

Lemma sortByDueDate_sorted l : StronglySorted dueBefore (sortByDueDate l).
Proof.
  induction l as [| x l IH]; simpl; [constructor |].
  apply insertByDueDate_sorted. exact IH.
Qed.

Lemma map_sorted {A B} (R : A -> A -> Prop) (Q : B -> B -> Prop) (f : A -> B) l :
  (forall x y, R x y -> Q (f x) (f y)) ->
  StronglySorted R l -> StronglySorted Q (map f l).
Proof.
  intros Hf. induction 1 as [| x l Hl IH Hx]; simpl; constructor; [exact IH |].
  rewrite Forall_forall in *. intros y Hy. apply in_map_iff in Hy.
  destruct Hy as (z & <- & Hz). apply Hf, Hx, Hz.
Qed.

(** X21: getUnpaidFines changes nothing; it fails with 500 when the query
    rejects and otherwise sends, earliest due date first, exactly the
    transactions with a fine above 0 that is not paid, each with its student
    and book as the database has them. *)
Theorem getUnpaidFines_lists_unpaid env db :
  exists out,
    reply getUnpaidFines env db = (db, out) /\
    match out with
    | Json l =>
        fails env (circulation 203) = None /\
        StronglySorted dueNoLater l /\
        Permutation (map transactionOf l) (filter isUnpaid (transactions db)) /\
        (forall p, In p l ->
           p = populate db (transactionOf p) /\
           Transaction.isFinePaid (transactionOf p) = false /\
           exists f, Transaction.fine (transactionOf p) = Some f /\ 0 < f)
    | Failed r => statusCode r = 500 /\ fails env (circulation 203) <> None
    | Silent => False
    end.
Proof.
  unfold reply, getUnpaidFines, try_catch, await, send, Transaction_find_unpaid.
  destruct (fails env (circulation 203)) as [e |]; cbn [fst snd].
  - eexists. split; [reflexivity |]. split; [reflexivity | discriminate].
  - eexists. split; [reflexivity |]. split; [reflexivity |].
    pose proof (sortByDueDate_perm (filter isUnpaid (transactions db))) as Hperm.
    split; [| split].
    + apply (map_sorted dueBefore); [| apply sortByDueDate_sorted].
      intros x y H. exact H.
    + rewrite map_map. unfold transactionOf, populate. cbn [fst]. rewrite map_id.
      exact Hperm.
    + intros p Hp. apply in_map_iff in Hp. destruct Hp as (t & <- & Ht).
      split; [reflexivity |].
      apply (Permutation_in _ Hperm) in Ht. apply filter_In in Ht.
      destruct Ht as [_ Ht]. unfold isUnpaid in Ht. apply andb_prop in Ht.
      destruct Ht as [Hf Hpaid]. apply negb_true_iff in Hpaid.
      unfold transactionOf, populate. cbn [fst]. split; [exact Hpaid |].
      destruct (Transaction.fine t) as [f |]; [| discriminate].
      exists f. split; [reflexivity |]. apply Z.ltb_lt. exact Hf.
Qed.

(** ** Collecting a fine *)

Lemma collectFine_saved env id user db db' r :
  run (collectFine id user) env db = (db', Some r) -> statusCode r = 200 ->
  exists t l1 l2,
    transactions db = l1 ++ t :: l2 /\ Transaction._id t = id /\
    Forall (fun x => Transaction._id x <> id) l1 /\
    transactions db' = l1 ++ set_isFinePaid true t :: l2 /\
    books db' = books db /\ bookcopies db' = bookcopies db.
Proof.
  intros H Hcode. unfold collectFine in H. invert_run H Hcode.
  all: pose proof (f_equal fst H) as Hdb; cbn [fst] in Hdb; clear H; subst db'.
  all: match goal with
       | Hf : snd (Transaction_findById _ _) = Some ?t |- _ =>
           cbn in Hf; rename t into tx;
           destruct (updateFirst_found _ (fun _ => set_isFinePaid true tx) _ _ Hf)
             as (l1 & l2 & Hl & Hupd & Hl1);
           pose proof (proj2 (find_some _ _ Hf)) as Hid; apply N.eqb_eq in Hid
       end.
  all: exists tx, l1, l2.
  all: try match goal with
       | Hf : sameHoldings _ _ |- _ =>
           destruct Hf as (Hf1 & Hf2 & Hf3); rewrite <- Hf1, <- Hf2, <- Hf3;
           clear Hf1 Hf2 Hf3
       end.
  all: cbn [Transaction_save Transaction_findById fst transactions books bookcopies
            set_transactions set_isFinePaid Transaction._id].
  all: rewrite Hid, Hupd.
  all: repeat split; auto.
  all: eapply Forall_impl; [| exact Hl1]; intros x Hx; apply N.eqb_neq; exact Hx.
Qed.

(** X22: collectFine answers 404 only when no transaction has the
    identifier, and then changes nothing.  When it answers 200, the first
    transaction with the identifier has isFinePaid set and is otherwise as it
    was (its fine and its status are not looked at: any transaction can be
    collected), and no other transaction, no book and no copy changes. *)
Theorem collectFine_marks_paid env id user db db' r :
  run (collectFine id user) env db = (db', Some r) ->
  (statusCode r = 404 -> db' = db /\ findTransaction id db = None) /\
  (statusCode r = 200 ->
   exists t l1 l2,
     transactions db = l1 ++ t :: l2 /\ Transaction._id t = id /\
     Forall (fun x => Transaction._id x <> id) l1 /\
     transactions db' = l1 ++ set_isFinePaid true t :: l2 /\
     books db' = books db /\ bookcopies db' = bookcopies db).
Proof.
  intros H. split; intros Hcode.
  - unfold collectFine in H. invert_run H Hcode. injection H as <- _.
    split; [reflexivity | assumption].
  - exact (collectFine_saved _ _ _ _ _ _ H Hcode).
Qed.

(** X23: collectFine and the list of getUnpaidFines.  With unique
    transaction identifiers, after a collectFine that answers 200 the unpaid
    fines are those of before without the collected transaction. *)
Theorem collectFine_clears_the_fine env id user db db' r :
  run (collectFine id user) env db = (db', Some r) -> statusCode r = 200 ->
  NoDup (map Transaction._id (transactions db)) ->
  forall t, In t (filter isUnpaid (transactions db')) <->
            In t (filter isUnpaid (transactions db)) /\ Transaction._id t <> id.
Proof.
  intros H Hcode Hnd t.
  destruct (collectFine_saved _ _ _ _ _ _ H Hcode)
    as (t0 & l1 & l2 & Hl & Hid & _ & Hl' & _).
  rewrite Hl in Hnd. rewrite map_app in Hnd. cbn [map] in Hnd.
  pose proof (NoDup_remove_2 _ _ _ Hnd) as Hnot. rewrite Hid in Hnot.
  assert (forall x, In x l1 \/ In x l2 -> Transaction._id x <> id) as Hother.
  { intros x Hx E. apply Hnot. apply in_or_app. rewrite <- E.
    destruct Hx as [Hx | Hx]; [left | right]; apply in_map; exact Hx. }
  assert (isUnpaid (set_isFinePaid true t0) = false) as Hpaid.
  { unfold isUnpaid. cbn. apply andb_false_r. }
  rewrite Hl, Hl', !filter_In, !in_app_iff. cbn [In]. split.
  - intros [[H1 | [<- | H2]] Hu].
    + repeat split; auto.
    + rewrite Hpaid in Hu. discriminate.
    + repeat split; auto.
  - intros [[[H1 | [<- | H2]] Hu] Hne]; auto. contradiction.
Qed.

(** ** Updating a book *)

Lemma find_first {A} (p : A -> bool) l1 x l2 :
  Forall (fun z => p z = false) l1 -> p x = true -> find p (l1 ++ x :: l2) = Some x.
Proof.
  intros Hl Hx. induction Hl as [| y l Hy _ IH]; simpl; [rewrite Hx | rewrite Hy]; auto.
Qed.

(** X24: updateBook never touches copies or transactions.  It fails with
    400 only when the body carries a department that no Department document
    has, and a failure changes nothing; for an identifier no book has it
    changes nothing and sends [null] (not 404); otherwise the first book with
    the identifier gets the fields of the body and is sent back. *)
Theorem updateBook_outcomes env id body db db' out :
  reply (updateBook id body) env db = (db', out) ->
  bookcopies db' = bookcopies db /\ transactions db' = transactions db /\
  match out with
  | Json None => db' = db /\ findBook id db = None
  | Json (Some b) =>
      exists old l1 l2,
        books db = l1 ++ old :: l2 /\ findBook id db = Some old /\
        b = applyPatch body old /\ Book._id b = id /\
        books db' = l1 ++ b :: l2
  | Failed r =>
      db' = db /\
      (statusCode r = 500 \/
       statusCode r = 400 /\
       exists d, given (bp_department body) = Some d /\
                 snd (Department_findOne d db) = None)
  | Silent => False
  end.
Proof.
  unfold reply, updateBook, try_catch, bind, await, send, ret.
  destruct (given (bp_department body)) as [d |] eqn:Hd.
  1: destruct (fails env (bookctl 63)) as [e |]; cbn [fst snd];
     [| destruct (snd (Department_findOne d db)) eqn:Hdep ].
  all: try destruct (fails env (bookctl 67)) as [e |]; cbn [fst snd].
  all: intros [= <- <-]; cbn [bookcopies transactions fst Department_findOne
                              Book_findByIdAndUpdate set_books].
  all: split; [reflexivity |]; split; [reflexivity |].
  all: try (split; [reflexivity |]; cbn [statusCode]).
  all: try (left; reflexivity).
  all: try (right; split; [reflexivity |]; exists d; split; [reflexivity | exact Hdep]).
  all: pose proof (updateFirst_split (fun b => N.eqb (Book._id b) id) (applyPatch body)
                     (books db)) as Hs.
  all: pose proof (updateFirst_snd (fun b => N.eqb (Book._id b) id) (applyPatch body)
                     (books db)) as Hf.
  all: destruct (snd (updateFirst _ _ (books db))) as [b |].
  all: try (destruct Hs as (l1 & old & l2 & Hl & Hp & -> & Hl1 & Hupd);
            exists old, l1, l2; unfold findBook; rewrite Hl at 2;
            rewrite (find_first _ l1 old l2 Hl1 Hp); apply N.eqb_eq in Hp;
            repeat split; auto).
  all: try (destruct Hs as [_ Hs]; rewrite Hs; split; [destruct db; reflexivity |];
            unfold findBook; destruct (find _ (books db)); [discriminate Hf | reflexivity]).
Qed.

(** X25: updateBook stores the counters of the body unchecked.  After an
    update that found the book, in a database whose counters agreed with the
    copies, they still agree exactly when the body carries no counter or the
    counters it carries are the counts of the copies of the book. *)
Theorem updateBook_counters env id body db db' b :
  reply (updateBook id body) env db = (db', Json (Some b)) ->
  countersOk db ->
  (countersOk db' <->
   (forall n, bp_totalCopies body = Some n -> n = countTotal id (bookcopies db)) /\
   (forall n, bp_availableCopies body = Some n ->
              n = countAvailable id (bookcopies db))).
Proof.
  intros H Hok.
  assert (db' = fst (Book_findByIdAndUpdate id body db) /\
          Some b = snd (Book_findByIdAndUpdate id body db)) as [-> Hb].
  { revert H. unfold reply, updateBook, try_catch, bind, await, send, ret.
    repeat (split_goal; cbn [fst snd]); intros [= <- <-]; split; reflexivity. }
  cbn [Book_findByIdAndUpdate fst snd] in *.
  pose proof (updateFirst_split (fun b => N.eqb (Book._id b) id) (applyPatch body)
                (books db)) as Hs.
  rewrite <- Hb in Hs. destruct Hs as (l1 & old & l2 & Hl & Hp & -> & _ & Hupd).
  apply N.eqb_eq in Hp.
  unfold countersOk in *. cbn [books bookcopies set_books]. rewrite Hupd.
  rewrite Hl in Hok. apply Forall_app in Hok. destruct Hok as [Hok1 Hok2].
  inversion Hok2 as [| ? ? [HT HA] Hok3]; subst.
  rewrite Forall_app, Forall_cons_iff. unfold countersOf at 2.
  cbn [applyPatch Book._id Book.totalCopies Book.availableCopies]. unfold patched.
  split.
  - intros (_ & [HT' HA'] & _). split; intros n Hn; rewrite Hn in *; congruence.
  - intros [H1 H2]. repeat split; try assumption.
    + destruct (bp_totalCopies body) as [n |]; [apply H1; reflexivity | exact HT].
    + destruct (bp_availableCopies body) as [n |]; [apply H2; reflexivity | exact HA].
Qed.

(** ** The audit helper *)

(** X12: logAudit never throws and never answers: the handler that calls
    it goes on.  It leaves users, books, copies and transactions; when both
    of its database calls succeed it appends one entry, with the name of the
    actor or 'Unknown' when no user has the identifier, the address
    '0.0.0.0' and the time of the request; when one rejects nothing is
    written. *)
Theorem logAudit_never_fails actor action details env db :
  exists db',
    logAudit actor action details env db = (db', Next tt) /\
    users db' = users db /\ sameHoldings db db' /\
    match fails env (auditctl 7), fails env (auditctl 8) with
    | None, None =>
        auditlogs db' = auditlogs db ++
          [AuditLog.mk (nextId db) actor
             (match snd (User_findById actor db) with
              | Some u => User.name u
              | None => "Unknown"
              end)
             action details "0.0.0.0" (now env)]
    | _, _ => db' = db
    end.
Proof.
  unfold logAudit, try_catch, bind, await, clock, ret.
  destruct (fails env (auditctl 7)); cbn [fst snd].
  - eexists. repeat split.
  - destruct (fails env (auditctl 8)); cbn [fst snd]; eexists; repeat split.
Qed.

(** ** The answer of the CSV upload *)

Lemma uploadRow_accounts codes idx row env s :
  accountsRows 1 s (fst (uploadRow codes idx row env s)).
Proof.
  destruct s as [db cnt].
  assert (forall e, accountsRows 1 (db, cnt) (fst (pushError e env (db, cnt)))) as Hpush.
  { intros e. unfold accountsRows, pushError, modify. cbn. rewrite length_app. cbn. lia. }
  unfold uploadRow.
  destruct (given _) as [i |]; [| apply Hpush].
  destruct (given _) as [t |]; [| apply Hpush].
  destruct (given _) as [d |]; [| apply Hpush].
  destruct (includes codes (toUpperCase d)); [| apply Hpush].
  clear Hpush.
  unfold saveRow, findOrCreateBook, insertRowCopies. upload_goal.
  repeat (match goal with
          | |- context [collectCopies ?a ?b ?c ?d ?l env ?st] =>
              destruct (collectCopies_cases env a b c d l st) as [[? ->] | [? ->]]
          | _ => split_goal
          end; upload_goal).
  all: unfold accountsRows; cbn [fst snd errors addedCount updatedCount].
  all: rewrite ?length_app; cbn [List.length]; lia.
Qed.

Lemma uploadRows_account codes rows : forall idx env s,
  accountsRows (Z.of_nat (List.length rows)) s (fst (uploadRows codes idx rows env s)).
Proof.
  induction rows as [| row rest IH]; intros idx env s.
  - unfold accountsRows. cbn. lia.
  - cbn [uploadRows]. unfold bind.
    pose proof (uploadRow_goes_on codes idx row env s) as Hgo.
    pose proof (uploadRow_accounts codes idx row env s) as Hrow.
    destruct (uploadRow codes idx row env s) as [s' st]. cbn [fst snd] in Hgo, Hrow.
    subst st. specialize (IH (S idx) env s').
    unfold accountsRows in *. cbn [List.length]. rewrite Nat2Z.inj_succ. lia.
Qed.

(** X11: when the list of departments can be read, the CSV upload always
    answers 200, and the numbers it reports account for every row: each row
    is counted as added or updated or has an error message (a row can be
    counted and have a message), so added + updated <= rows <=
    added + updated + errors, and there are at most as many messages as
    rows. *)
Theorem uploadBookCSV_accounts_for_rows env rows db :
  fails env (bookctl 121) = None ->
  exists db' added updated errs,
    run (uploadBookCSV (Some rows)) env db =
      (db', Some (mkResponse 200
                    (Obj [("message", VStr "Process Complete");
                          ("added", VNum added);
                          ("updated", VNum updated);
                          ("errors", VStrs errs)]))) /\
    0 <= added /\ 0 <= updated /\
    added + updated <= Z.of_nat (List.length rows) /\
    Z.of_nat (List.length errs) <= Z.of_nat (List.length rows) /\
    Z.of_nat (List.length rows) <= added + updated + Z.of_nat (List.length errs).
Proof.
  intros H. pose proof (uploadBookCSV_answers env rows db H) as Hrun. cbv zeta in Hrun.
  pose proof (uploadRows_account (deptCodes (departments db)) rows 0%nat env
                (db, mkCounters [] 0 0)) as Hacc.
  eexists _, _, _, _. split; [exact Hrun |].
  unfold accountsRows in Hacc. cbn [snd errors addedCount updatedCount List.length] in Hacc.
  lia.
Qed.

(** ** The theorems at work on a small library *)


Lemma issueBook_limit_reached_witness :
  countDocuments (isIssuedTo 100) (transactions demoUnconfigured) >= 1 /\
  exists r,
    snd (run (issueBook (mkIssueReq 100 (Some "978") None None))
             demoStrictEnv demoUnconfigured) = Some r /\
    statusCode r = 400 /\
    bookcopies (fst (run (issueBook (mkIssueReq 100 (Some "978") None None))
                         demoStrictEnv demoUnconfigured))
      = bookcopies demoUnconfigured /\
    books (fst (run (issueBook (mkIssueReq 100 (Some "978") None None))
                    demoStrictEnv demoUnconfigured))
      = books demoUnconfigured /\
    transactions (fst (run (issueBook (mkIssueReq 100 (Some "978") None None))
                           demoStrictEnv demoUnconfigured))
      = transactions demoUnconfigured.
Proof.
  split; [vm_compute; discriminate |].
  apply (issueBook_limit_reached demoStrictEnv (mkIssueReq 100 (Some "978") None None)
           demoUnconfigured (User.mk 100 "Asha" "asha@example.org" "21CS001" true));
    try reflexivity.
  vm_compute; discriminate.
Defined.

Lemma copy_status_stays_in_enum_witness :
  allValid demoIssued /\
  allValid (fst (run (updateCopyStatus 2 "Shredded") demoEnv demoIssued)) /\
  allValid (fst (run (updateCopyStatus 2 "Lost") demoEnv demoIssued)).
Proof.
  assert (allValid demoIssued) as H
    by (repeat constructor; simpl; tauto).
  split; [exact H |].
  split; apply (proj1 (proj2 (proj2 (copy_status_stays_in_enum demoEnv demoIssued H)))).
Defined.

Lemma issue_return_counter_witness :
  (exists db' r,
     run (issueBook (mkIssueReq 100 (Some "978") None None)) demoEnv demoCreated
       = (db', Some r) /\
     statusCode r = 201 /\
     exists c l1 l2,
       bookcopies demoCreated = l1 ++ c :: l2 /\
       requested (mkIssueReq 100 (Some "978") None None) demoCreated c /\
       BookCopy.status c = "Available" /\
       bookcopies db' = l1 ++ BookCopy.set_status "Issued" c :: l2 /\
       (forall b, findBook (BookCopy.book c) demoCreated = Some b ->
          exists b', findBook (BookCopy.book c) db' = Some b' /\
                     Book.availableCopies b' = Book.availableCopies b - 1 /\
                     Book.totalCopies b' = Book.totalCopies b) /\
       (forall other, other <> BookCopy.book c ->
          findBook other db' = findBook other demoCreated))
  /\
  (exists db' r,
     run (returnBook (mkReturnReq "978-1" None)) demoLateEnv demoIssued
       = (db', Some r) /\
     statusCode r = 200 /\
     exists c l1 l2,
       bookcopies demoIssued = l1 ++ c :: l2 /\
       BookCopy.copyNumber c = "978-1" /\
       bookcopies db' = l1 ++ BookCopy.set_status "Available" c :: l2 /\
       (forall b, findBook (BookCopy.book c) demoIssued = Some b ->
          exists b', findBook (BookCopy.book c) db' = Some b' /\
                     Book.availableCopies b' = Book.availableCopies b + 1 /\
                     Book.totalCopies b' = Book.totalCopies b) /\
       (forall other, other <> BookCopy.book c ->
          findBook other db' = findBook other demoIssued)).
Proof.
  split.
  - eexists _, _. split; [vm_compute; reflexivity |]. split; [reflexivity |].
    apply (proj1 issue_return_counter demoEnv (mkIssueReq 100 (Some "978") None None)
             demoCreated _ _ eq_refl eq_refl).
  - eexists _, _. split; [vm_compute; reflexivity |]. split; [reflexivity |].
    apply (proj2 issue_return_counter demoLateEnv (mkReturnReq "978-1" None)
             demoIssued _ _ eq_refl eq_refl).
Defined.


(** C6 as stated fails: the rollback is one more database write.  When it
    rejects as well, the issue has failed, the request named the copy, and
    the copy stays 'Issued' (with no transaction for it). *)
Lemma issueBook_rollback_can_fail :
  given (copyId (mkIssueReq 100 None (Some "978-1") None)) = Some "978-1" /\
  snd (issueBook_try (mkIssueReq 100 None (Some "978-1") None) demoLostEnv demoCreated)
    = Threw (mkError None "timed out") /\
  bookcopies (fst (run (issueBook (mkIssueReq 100 None (Some "978-1") None))
                       demoLostEnv demoCreated))
    = [BookCopy.mk 2 1 "978-1" "Issued"] /\
  transactions (fst (run (issueBook (mkIssueReq 100 None (Some "978-1") None))
                         demoLostEnv demoCreated)) = [].
Proof. repeat split. Qed.

Lemma issueBook_rollback_witness :
  snd (issueBook_try (mkIssueReq 100 None (Some "978-1") None) demoFaultEnv demoCreated)
    = Threw (mkError None "timed out") /\
  snd (run (issueBook (mkIssueReq 100 None (Some "978-1") None)) demoFaultEnv demoCreated)
    = Some (mkResponse 500 (msg "timed out")) /\
  (forall c,
     snd (BookCopy_findOne "978-1"
            (fst (run (issueBook (mkIssueReq 100 None (Some "978-1") None))
                      demoFaultEnv demoCreated))) = Some c ->
     BookCopy.status c = "Available") /\
  (NoDup (map BookCopy.copyNumber (bookcopies demoCreated)) ->
   forall c,
     In c (bookcopies (fst (run (issueBook (mkIssueReq 100 None (Some "978-1") None))
                                demoFaultEnv demoCreated))) ->
     BookCopy.copyNumber c = "978-1" -> BookCopy.status c = "Available").
Proof.
  split; [reflexivity |].
  exact (issueBook_rollback demoFaultEnv (mkIssueReq 100 None (Some "978-1") None)
           demoCreated "978-1" (mkError None "timed out") eq_refl eq_refl eq_refl).
Defined.

Lemma uploadRow_validation_witness :
  knownDept (departments demoDB) "cse" /\
  (exists db',
     uploadRow (deptCodes (departments demoDB)) 0 demoRow demoEnv
               (demoDB, mkCounters [] 0 0)
       = ((db', mkCounters [] 1 0), Next tt) /\
     books db' = [Book.mk 1 "Compilers" (Some "Aho") "111" "CSE" 2 2] /\
     bookcopies db' = [BookCopy.mk 2 1 "111-1" "Available";
                       BookCopy.mk 3 1 "111-2" "Available"]) /\
  (exists e,
     uploadRow (deptCodes (departments demoDB)) 1 demoRowNoDept demoEnv
               (demoDB, mkCounters [] 1 0)
       = ((demoDB, mkCounters [e] 1 0), Next tt)) /\
  (addedCount (snd (fst (uploadRow (deptCodes (departments demoCreated)) 2 demoRowAgain
                                   demoEnv (demoCreated, mkCounters [] 1 0)))) = 1 /\
   updatedCount (snd (fst (uploadRow (deptCodes (departments demoCreated)) 2 demoRowAgain
                                     demoEnv (demoCreated, mkCounters [] 1 0)))) = 0 + 1).
Proof.
  assert (knownDept (departments demoDB) "cse") as Hknown
    by (exists (Department.mk "CSE"); split; [left; reflexivity | reflexivity]).
  split; [exact Hknown |]. split; [| split].
  - exact (proj1 (proj2 (uploadRow_validation demoEnv (departments demoDB) 0 demoRow demoDB
                           (mkCounters [] 0 0))
                    "111" "Compilers" "cse" eq_refl eq_refl eq_refl Hknown)
             eq_refl (fun _ => eq_refl) (Forall_nil _)).
  - apply (proj1 (uploadRow_validation demoEnv (departments demoDB) 1 demoRowNoDept demoDB
                    (mkCounters [] 1 0))).
    right. right. intros d Hd. discriminate Hd.
  - exact (proj2 (proj2 (uploadRow_validation demoEnv (departments demoCreated) 2
                           demoRowAgain demoCreated (mkCounters [] 1 0))
                    "978" "Algorithms" "CSE" eq_refl eq_refl eq_refl
                    (ex_intro _ (Department.mk "CSE") (conj (or_introl eq_refl) eq_refl)))
             (Book.mk 1 "Algorithms" (Some "Knuth") "978" "CSE" 1 1) eq_refl eq_refl).
Defined.

Lemma issueBook_answers_witness :
  (given (copyId (mkIssueReq 100 (Some "978") None None)) = None \/
   fails demoLostEnv (circulation 75) = None) /\
  exists r,
    snd (run (issueBook (mkIssueReq 100 (Some "978") None None)) demoLostEnv demoCreated)
      = Some r /\
    (statusCode r = 201 \/ failureShape r).
Proof.
  split; [left; reflexivity |].
  apply (issueBook_answers demoLostEnv (mkIssueReq 100 (Some "978") None None) demoCreated).
  left. reflexivity.
Defined.

Lemma issueBook_refusal_changes_nothing_witness :
  exists db' r,
    run (issueBook (mkIssueReq 999 (Some "978") None None)) demoEnv demoCreated
      = (db', Some r) /\
    (statusCode r = 400 \/ statusCode r = 404) /\
    sameHoldings demoCreated db'.
Proof.
  eexists _, _. split; [vm_compute; reflexivity |].
  split; [right; reflexivity |].
  apply (issueBook_refusal_changes_nothing demoEnv (mkIssueReq 999 (Some "978") None None)
           demoCreated _ _ eq_refl).
  right. reflexivity.
Defined.

Lemma returnBook_refusal_changes_nothing_witness :
  exists db' r,
    run (returnBook (mkReturnReq "978-1" None)) demoEnv demoCreated = (db', Some r) /\
    (statusCode r = 400 \/ statusCode r = 404) /\
    activeIssue "978-1" demoCreated = None /\ sameHoldings demoCreated db' /\
    (statusCode r = 400 <->
     exists c, snd (BookCopy_findOne "978-1" demoCreated) = Some c /\
               BookCopy.status c = "Available").
Proof.
  eexists _, _. split; [vm_compute; reflexivity |].
  split; [left; reflexivity |].
  apply (returnBook_refusal_changes_nothing demoEnv (mkReturnReq "978-1" None)
           demoCreated _ _ eq_refl).
  left. reflexivity.
Defined.

Lemma issueBook_keeps_counters_witness :
  uniqueBookIds demoCreated /\ countersOk demoCreated /\
  exists db' r,
    run (issueBook (mkIssueReq 100 (Some "978") None None)) demoEnv demoCreated
      = (db', Some r) /\
    statusCode r = 201 /\ countersOk db' /\ uniqueBookIds db'.
Proof.
  assert (uniqueBookIds demoCreated) as Hu
    by (constructor; [intros [] | constructor]).
  assert (countersOk demoCreated) as Hok by (repeat constructor).
  split; [exact Hu |]. split; [exact Hok |].
  eexists _, _. split; [vm_compute; reflexivity |]. split; [reflexivity |].
  exact (issueBook_keeps_counters demoEnv (mkIssueReq 100 (Some "978") None None)
           demoCreated _ _ eq_refl eq_refl Hu Hok).
Defined.

Lemma returnBook_keeps_counters_witness :
  uniqueBookIds demoIssued /\ countersOk demoIssued /\
  (forall c, In c (bookcopies demoIssued) -> BookCopy.copyNumber c = "978-1" ->
             BookCopy.status c <> "Available") /\
  exists db' r,
    run (returnBook (mkReturnReq "978-1" None)) demoLateEnv demoIssued = (db', Some r) /\
    statusCode r = 200 /\ countersOk db' /\ uniqueBookIds db'.
Proof.
  assert (uniqueBookIds demoIssued) as Hu
    by (constructor; [intros [] | constructor]).
  assert (countersOk demoIssued) as Hok by (repeat constructor).
  assert (forall c, In c (bookcopies demoIssued) -> BookCopy.copyNumber c = "978-1" ->
                    BookCopy.status c <> "Available") as Hnot
    by (intros c [<- | []] _; discriminate).
  split; [exact Hu |]. split; [exact Hok |]. split; [exact Hnot |].
  eexists _, _. split; [vm_compute; reflexivity |]. split; [reflexivity |].
  exact (returnBook_keeps_counters demoLateEnv (mkReturnReq "978-1" None)
           demoIssued _ _ eq_refl eq_refl Hnot Hu Hok).
Defined.

Lemma deleteCopy_keeps_counters_witness :
  uniqueBookIds demoCreated /\ countersOk demoCreated /\
  exists db' r,
    run (deleteCopy 2) demoEnv demoCreated = (db', Some r) /\
    statusCode r = 200 /\ countersOk db' /\ uniqueBookIds db'.
Proof.
  assert (uniqueBookIds demoCreated) as Hu
    by (constructor; [intros [] | constructor]).
  assert (countersOk demoCreated) as Hok by (repeat constructor).
  split; [exact Hu |]. split; [exact Hok |].
  eexists _, _. split; [vm_compute; reflexivity |]. split; [reflexivity |].
  exact (deleteCopy_keeps_counters demoEnv 2%N demoCreated _ _ eq_refl eq_refl Hu Hok).
Defined.

Lemma updateCopyStatus_keeps_counters_witness :
  uniqueBookIds demoCreated /\ countersOk demoCreated /\
  exists db' r,
    run (updateCopyStatus 2 "Lost") demoEnv demoCreated = (db', Some r) /\
    statusCode r = 200 /\ countersOk db' /\ uniqueBookIds db'.
Proof.
  assert (uniqueBookIds demoCreated) as Hu
    by (constructor; [intros [] | constructor]).
  assert (countersOk demoCreated) as Hok by (repeat constructor).
  split; [exact Hu |]. split; [exact Hok |].
  eexists _, _. split; [vm_compute; reflexivity |]. split; [reflexivity |].
  exact (updateCopyStatus_keeps_counters demoEnv 2%N "Lost" demoCreated _ _
           eq_refl eq_refl Hu Hok).
Defined.

Lemma addCopies_keeps_counters_witness :
  0 <= ac_count (mkAddCopiesReq 1 2) /\
  uniqueBookIds demoCreated /\ countersOk demoCreated /\
  exists db' r,
    run (addCopies (mkAddCopiesReq 1 2)) demoEnv demoCreated = (db', Some r) /\
    statusCode r = 200 /\ countersOk db' /\ uniqueBookIds db'.
Proof.
  assert (0 <= ac_count (mkAddCopiesReq 1 2)) as Hc by (simpl; lia).
  assert (uniqueBookIds demoCreated) as Hu
    by (constructor; [intros [] | constructor]).
  assert (countersOk demoCreated) as Hok by (repeat constructor).
  split; [exact Hc |]. split; [exact Hu |]. split; [exact Hok |].
  eexists _, _. split; [vm_compute; reflexivity |]. split; [reflexivity |].
  exact (addCopies_keeps_counters demoEnv (mkAddCopiesReq 1 2) demoCreated _ _
           eq_refl eq_refl Hc Hu Hok).
Defined.

Lemma createBook_keeps_counters_witness :
  0 <= cb_quantity (mkCreateBookReq "Algorithms" (Some "Knuth") "978" "CSE" 1) /\
  uniqueBookIds demoDB /\ countersOk demoDB /\
  exists db' r,
    run (createBook (mkCreateBookReq "Algorithms" (Some "Knuth") "978" "CSE" 1))
        demoEnv demoDB = (db', Some r) /\
    statusCode r = 201 /\ countersOk db' /\ uniqueBookIds db'.
Proof.
  assert (0 <= cb_quantity (mkCreateBookReq "Algorithms" (Some "Knuth") "978" "CSE" 1))
    as Hq by (simpl; lia).
  assert (uniqueBookIds demoDB) as Hu by constructor.
  assert (countersOk demoDB) as Hok by constructor.
  split; [exact Hq |]. split; [exact Hu |]. split; [exact Hok |].
  eexists _, _. split; [vm_compute; reflexivity |]. split; [reflexivity |].
  exact (createBook_keeps_counters demoEnv
           (mkCreateBookReq "Algorithms" (Some "Knuth") "978" "CSE" 1) demoDB _ _
           eq_refl eq_refl Hq (Forall_nil _) (Forall_nil _) Hu Hok).
Defined.

Lemma uploadBookCSV_accounts_for_rows_witness :
  fails demoEnv (bookctl 121) = None /\
  exists db' added updated errs,
    run (uploadBookCSV (Some [demoRow; demoRowNoDept])) demoEnv demoDB =
      (db', Some (mkResponse 200
                    (Obj [("message", VStr "Process Complete");
                          ("added", VNum added);
                          ("updated", VNum updated);
                          ("errors", VStrs errs)]))) /\
    0 <= added /\ 0 <= updated /\
    added + updated <= Z.of_nat (List.length [demoRow; demoRowNoDept]) /\
    Z.of_nat (List.length errs) <= Z.of_nat (List.length [demoRow; demoRowNoDept]) /\
    Z.of_nat (List.length [demoRow; demoRowNoDept])
      <= added + updated + Z.of_nat (List.length errs).
Proof.
  split; [reflexivity |].
  exact (uploadBookCSV_accounts_for_rows demoEnv [demoRow; demoRowNoDept] demoDB eq_refl).
Defined.

Lemma catalogue_refusals_change_nothing_witness :
  exists db' r,
    run (createBook (mkCreateBookReq "Algorithms" None "978" "CSE" 3))
        demoEnv demoCreated = (db', Some r) /\
    statusCode r = 400 /\
    db' = demoCreated /\
    (snd (Department_findOne "CSE" demoCreated) = None \/
     exists b, snd (Book_findOne_isbn (Some "978") demoCreated) = Some b).
Proof.
  eexists _, _. split; [vm_compute; reflexivity |]. split; [reflexivity |].
  exact (proj1 (catalogue_refusals_change_nothing demoEnv demoCreated _ _)
           (mkCreateBookReq "Algorithms" None "978" "CSE" 3) eq_refl eq_refl).
Defined.

Lemma issueBook_failure_frees_a_lent_copy_witness :
  activeIssue "978-1" demoIssued = Some demoTransaction /\
  snd (BookCopy_findOne "978-1" demoIssued) = Some (BookCopy.mk 2 1 "978-1" "Issued") /\
  exists db' l1 l2,
    run (issueBook (mkIssueReq 100 None (Some "978-1") None)) demoDownEnv demoIssued
      = (db', Some (mkResponse 500 (msg "timed out"))) /\
    bookcopies demoIssued = l1 ++ BookCopy.mk 2 1 "978-1" "Issued" :: l2 /\
    bookcopies db'
      = l1 ++ BookCopy.set_status "Available" (BookCopy.mk 2 1 "978-1" "Issued") :: l2 /\
    books db' = books demoIssued /\ transactions db' = transactions demoIssued /\
    activeIssue "978-1" db' = activeIssue "978-1" demoIssued.
Proof.
  split; [reflexivity |]. split; [reflexivity |].
  exact (issueBook_failure_frees_a_lent_copy demoDownEnv
           (mkIssueReq 100 None (Some "978-1") None) demoIssued "978-1"
           (mkError None "timed out") (BookCopy.mk 2 1 "978-1" "Issued")
           eq_refl eq_refl eq_refl eq_refl).
Defined.

Lemma returnBook_without_copy_witness :
  activeIssue "978-1" demoOrphaned = Some demoTransaction /\
  snd (BookCopy_findOne "978-1" demoOrphaned) = None /\
  exists db' t',
    run (returnBook (mkReturnReq "978-1" None)) demoLateEnv demoOrphaned
      = (db', Some (mkResponse 500 (msg (message (TypeError "book"))))) /\
    findTransaction 3 db' = Some t' /\
    Transaction.status t' = "Returned" /\
    books db' = books demoOrphaned /\ bookcopies db' = bookcopies demoOrphaned.
Proof.
  split; [reflexivity |]. split; [reflexivity |].
  exact (returnBook_without_copy demoLateEnv (mkReturnReq "978-1" None) demoOrphaned
           demoTransaction eq_refl eq_refl eq_refl eq_refl eq_refl eq_refl
           eq_refl eq_refl).
Defined.

Lemma createBook_makes_the_copies_witness :
  exists db' r,
    run (createBook (mkCreateBookReq "Algorithms" (Some "Knuth") "978" "CSE" 2))
        demoEnv demoDB = (db', Some r) /\
    statusCode r = 201 /\
    body r = BookDoc (Book.mk 1 "Algorithms" (Some "Knuth") "978" "CSE" 2 2) /\
    snd (Department_findOne "CSE" demoDB) <> None /\
    snd (Book_findOne_isbn (Some "978") demoDB) = None /\
    books db' = books demoDB ++ [Book.mk 1 "Algorithms" (Some "Knuth") "978" "CSE" 2 2] /\
    transactions db' = transactions demoDB /\
    exists news,
      bookcopies db' = bookcopies demoDB ++ news /\
      map BookCopy.copyNumber news = forRange 1 2 (fun i => "978" ++ "-" ++ show_Z i)%string /\
      Forall (fun c => BookCopy.book c = 1%N /\ BookCopy.status c = "Available") news.
Proof.
  eexists _, _. split; [vm_compute; reflexivity |]. split; [reflexivity |].
  exact (createBook_makes_the_copies demoEnv
           (mkCreateBookReq "Algorithms" (Some "Knuth") "978" "CSE" 2) demoDB _ _
           eq_refl eq_refl).
Defined.

Lemma addCopies_continues_the_numbering_witness :
  exists db' r,
    run (addCopies (mkAddCopiesReq 1 2)) demoEnv demoCreated = (db', Some r) /\
    statusCode r = 200 /\
    exists bk news,
      findBook 1 demoCreated = Some bk /\
      body r = msg (show_Z 2 ++ " Copies Added") /\
      bookcopies db' = bookcopies demoCreated ++ news /\
      map BookCopy.copyNumber news
        = forRange 0 2
            (fun i => Book.isbn bk ++ "-" ++ show_Z (Book.totalCopies bk + 1 + i))%string /\
      Forall (fun c => BookCopy.book c = 1%N /\ BookCopy.status c = "Available") news /\
      (forall b', findBook 1 db' = Some b' ->
         Book.totalCopies b' = Book.totalCopies bk + 2 /\
         Book.availableCopies b' = Book.availableCopies bk + 2) /\
      transactions db' = transactions demoCreated.
Proof.
  eexists _, _. split; [vm_compute; reflexivity |]. split; [reflexivity |].
  exact (addCopies_continues_the_numbering demoEnv (mkAddCopiesReq 1 2) demoCreated _ _
           eq_refl eq_refl).
Defined.

Lemma deleteBook_cascade_witness :
  exists db' r,
    run (deleteBook 1) demoEnv demoIssued = (db', Some r) /\
    statusCode r = 200 /\
    copiesOf 1 (bookcopies db') = [] /\
    (forall b, b <> 1%N ->
       copiesOf b (bookcopies db') = copiesOf b (bookcopies demoIssued) /\
       findBook b db' = findBook b demoIssued) /\
    transactions db' = transactions demoIssued /\
    (uniqueBookIds demoIssued ->
     findBook 1 db' = None /\ uniqueBookIds db' /\
     (countersOk demoIssued -> countersOk db')).
Proof.
  eexists _, _. split; [vm_compute; reflexivity |]. split; [reflexivity |].
  exact (deleteBook_cascade demoEnv 1%N demoIssued _ _ eq_refl eq_refl).
Defined.

Lemma bulkDeleteBooks_cascade_witness :
  exists db' r,
    run (bulkDeleteBooks (Some [1%N; 7%N])) demoEnv demoCreated = (db', Some r) /\
    statusCode r = 200 /\
    exists l, Some [1%N; 7%N] = Some l /\ l <> [] /\
      body r = msg (show_Z (Z.of_nat (List.length l))
                    ++ " books and their copies deleted.") /\
      (forall b, In b l -> findBook b db' = None /\ copiesOf b (bookcopies db') = []) /\
      (forall b, ~ In b l ->
         findBook b db' = findBook b demoCreated /\
         copiesOf b (bookcopies db') = copiesOf b (bookcopies demoCreated)) /\
      transactions db' = transactions demoCreated /\
      (countersOk demoCreated -> countersOk db').
Proof.
  eexists _, _. split; [vm_compute; reflexivity |]. split; [reflexivity |].
  exact (proj2 (bulkDeleteBooks_cascade demoEnv (Some [1%N; 7%N]) demoCreated _ _ eq_refl)
           eq_refl).
Defined.

Lemma collectFine_marks_paid_witness :
  exists db' r,
    run (collectFine 3 None) demoEnv demoReturnedLate = (db', Some r) /\
    statusCode r = 200 /\
    exists t l1 l2,
      transactions demoReturnedLate = l1 ++ t :: l2 /\ Transaction._id t = 3%N /\
      Forall (fun x => Transaction._id x <> 3%N) l1 /\
      transactions db' = l1 ++ set_isFinePaid true t :: l2 /\
      books db' = books demoReturnedLate /\ bookcopies db' = bookcopies demoReturnedLate.
Proof.
  eexists _, _. split; [vm_compute; reflexivity |]. split; [reflexivity |].
  exact (proj2 (collectFine_marks_paid demoEnv 3%N None demoReturnedLate _ _ eq_refl)
           eq_refl).
Defined.

Lemma collectFine_clears_the_fine_witness :
  NoDup (map Transaction._id (transactions demoReturnedLate)) /\
  List.length (filter isUnpaid (transactions demoReturnedLate)) = 1%nat /\
  exists db' r,
    run (collectFine 3 None) demoEnv demoReturnedLate = (db', Some r) /\
    statusCode r = 200 /\
    forall t, In t (filter isUnpaid (transactions db')) <->
              In t (filter isUnpaid (transactions demoReturnedLate)) /\
              Transaction._id t <> 3%N.
Proof.
  assert (NoDup (map Transaction._id (transactions demoReturnedLate))) as Hnd
    by (constructor; [intros [] | constructor]).
  split; [exact Hnd |]. split; [reflexivity |].
  eexists _, _. split; [vm_compute; reflexivity |]. split; [reflexivity |].
  exact (collectFine_clears_the_fine demoEnv 3%N None demoReturnedLate _ _
           eq_refl eq_refl Hnd).
Defined.

Lemma updateBook_outcomes_witness :
  exists db' b,
    reply (updateBook 1 demoRetitle) demoEnv demoCreated = (db', Json (Some b)) /\
    bookcopies db' = bookcopies demoCreated /\
    transactions db' = transactions demoCreated /\
    exists old l1 l2,
      books demoCreated = l1 ++ old :: l2 /\ findBook 1 demoCreated = Some old /\
      b = applyPatch demoRetitle old /\ Book._id b = 1%N /\
      books db' = l1 ++ b :: l2.
Proof.
  eexists _, _. split; [vm_compute; reflexivity |].
  exact (updateBook_outcomes demoEnv 1%N demoRetitle demoCreated _ _ eq_refl).
Defined.

Lemma updateBook_counters_witness :
  countersOk demoCreated /\
  exists db' b,
    reply (updateBook 1 demoMiscount) demoEnv demoCreated = (db', Json (Some b)) /\
    (countersOk db' <->
     (forall n, bp_totalCopies demoMiscount = Some n ->
                n = countTotal 1 (bookcopies demoCreated)) /\
     (forall n, bp_availableCopies demoMiscount = Some n ->
                n = countAvailable 1 (bookcopies demoCreated))) /\
    ~ countersOk db'.
Proof.
  assert (countersOk demoCreated) as Hok by (repeat constructor).
  split; [exact Hok |].
  eexists _, _. split; [vm_compute; reflexivity |].
  pose proof (updateBook_counters demoEnv 1%N demoMiscount demoCreated _ _ eq_refl Hok)
    as H.
  split; [exact H |].
  intros Hbad. apply H in Hbad. destruct Hbad as [Ht _].
  specialize (Ht 5 eq_refl). discriminate Ht.
Defined.

